(** * The phase workflow engine of the Artist repository

    A shallow embedding of
      - [workflow/models/drawing_phase.py]  (phases, transition table),
      - [workflow/models/stroke_intent.py]  (intents, stroke metadata),
      - [workflow/models/workflow_state.py] (the mutable workflow record),
      - [motor/core/canvas.py], [motor/core/stroke.py] (serialisation only),
      - [workflow/core/checkpoint_manager.py], [workflow/core/decision_logger.py],
      - [workflow/core/workflow_executor.py] (the orchestrator),
    followed by the properties of the specification, proved or refuted on it.

    Conventions.  A Python class [C] becomes [Module C] with its instance
    record [C.t] and one function per method; a method that mutates [self]
    returns the new [self].  Whatever a method takes from its environment
    (the wall clock, [uuid4], allocation of a dictionary object) goes through
    the state monad [M] over [World].  Metadata dictionaries are the only
    objects that the serialisers hand on by reference; they live in the
    [heap] of the [World] and records hold their location. *)

From Stdlib Require Import ZArith List String PrimFloat Uint63.
From stdpp Require Import gmap strings list pretty.

Local Open Scope Z_scope.

(** ** Python values *)

(** The identity of a dictionary object. *)
Definition loc := positive.

(** A [datetime], as microseconds since the epoch. *)
Definition Time := Z.

(** The values stored under a key of a [Dict[str, Any]]. *)
#[warnings="-register-all"]
Inductive pyval :=
| VNone
| VBool (b : bool)
| VInt (z : Z)
| VFloat (f : float)
| VStr (s : string)
| VDict (items : list (string * pyval)).

(** [Dict[str, float]]: insertion order is kept, it decides the order of
    the floating-point additions in [sum(d.values())]. *)
Definition Metrics := list (string * float).

(** A dictionary literal such as the metadata handed to a checkpoint. *)
Definition Fields := list (string * pyval).

(** [x.value if x is not None else None] for optional strings. *)
Definition opt_str (o : option string) : pyval :=
  match o with Some s => VStr s | None => VNone end.

Definition metrics_val (m : Metrics) : pyval :=
  VDict (map (fun kv => (fst kv, VFloat (snd kv))) m).

(** [d.get(k)] on a dictionary literal. *)
Fixpoint fields_get (k : string) (d : Fields) : option pyval :=
  match d with
  | [] => None
  | (k', v) :: d' => if String.eqb k k' then Some v else fields_get k d'
  end.

(** How a call that can raise ends. *)
Inductive outcome (A : Type) :=
| Returned (a : A)
| Raised.
Arguments Returned {A}.
Arguments Raised {A}.

(** The least index that [list.insert] takes: an index is converted to a C
    [Py_ssize_t] (64 bits), and a smaller one raises [OverflowError]. *)
Definition PY_SSIZE_T_MIN : Z := - 2 ^ 63.

(** [l.insert(i, x)] for an index that fits: a negative index counts from
    the end, and an index out of range is moved to the nearest end. *)
Definition py_insert {A} (i : Z) (x : A) (l : list A) : list A :=
  let n := Z.of_nat (length l) in
  let i := if bool_decide (i < 0) then Z.max 0 (i + n) else i in
  let i := Z.min i n in
  take (Z.to_nat i) l ++ x :: drop (Z.to_nat i) l.

(** ** Floating point: binary64, as in CPython *)

Definition f_zero : float := 0x0p+0%float.
Definition f_one : float := 0x1p+0%float.
(** The doubles nearest to the decimal literals of the source and the spec. *)
Definition f_0_2 : float := 0x1.999999999999ap-3%float.
Definition f_0_4 : float := 0x1.999999999999ap-2%float.
Definition f_0_55 : float := 0x1.199999999999ap-1%float.
Definition f_0_7 : float := 0x1.6666666666666p-1%float.
Definition f_0_8 : float := 0x1.999999999999ap-1%float.

(** [sum(xs)] on floats, as CPython 3.12 and later compute it (the package
    requires Python 3.12): the integer 0 plus the first value starts the
    running sum, every further value is added with the rounding error kept
    in a compensation term (Neumaier's variant of Kahan's summation), and at
    the end the compensation is added if it is finite and not zero. *)
Definition neumaier_step (acc : float * float) (x : float) : float * float :=
  let '(f_result, c) := acc in
  let t := PrimFloat.add f_result x in
  let c :=
    if PrimFloat.leb (PrimFloat.abs x) (PrimFloat.abs f_result)
    then PrimFloat.add c (PrimFloat.add (PrimFloat.sub f_result t) x)
    else PrimFloat.add c (PrimFloat.add (PrimFloat.sub x t) f_result) in
  (t, c).

Definition py_sum (xs : list float) : float :=
  match xs with
  | [] => f_zero
  | x :: rest =>
      let '(f_result, c) :=
        fold_left neumaier_step rest (PrimFloat.add f_zero x, f_zero) in
      if negb (PrimFloat.is_zero c) && PrimFloat.is_finite c
      then PrimFloat.add f_result c
      else f_result
  end.

(** [float(len(xs))], the right operand of a true division. *)
Definition py_len_float {A} (xs : list A) : float :=
  PrimFloat.of_uint63 (Uint63.of_Z (Z.of_nat (length xs))).

(** [sum(d.values()) / len(d)]. *)
Definition mean (d : Metrics) : float :=
  PrimFloat.div (py_sum (map snd d)) (py_len_float d).

(** [a >= b] and [a < b] on floats. *)
Definition f_ge (a b : float) : bool := PrimFloat.leb b a.
Definition f_lt (a b : float) : bool := PrimFloat.ltb a b.

(** ** The world: object store, clock and uuid source *)

Record World := mkWorld {
  heap : gmap loc (gmap string pyval);  (* metadata dictionaries by identity *)
  next_loc : loc;                       (* where the next dictionary goes *)
  clock : nat -> Time;                  (* the i-th result of datetime.now() *)
  ticks : nat;                          (* calls of datetime.now() so far *)
  uuids : nat -> string;                (* the i-th result of str(uuid4()) *)
  drawn : nat                           (* calls of uuid4() so far *)
}.

Definition M (A : Type) : Type := World -> A * World.

#[global] Instance M_ret : MRet M := fun A (a : A) w => (a, w).
#[global] Instance M_bind : MBind M :=
  fun A B (f : A -> M B) (m : M A) w => let '(a, w') := m w in f a w'.
#[global] Instance M_fmap : FMap M :=
  fun A B (f : A -> B) (m : M A) w => let '(a, w') := m w in (f a, w').

(** [datetime.now()]. *)
Definition now : M Time := fun w =>
  (clock w (ticks w),
   mkWorld (heap w) (next_loc w) (clock w) (S (ticks w)) (uuids w) (drawn w)).

(** [str(uuid.uuid4())]. *)
Definition uuid4 : M string := fun w =>
  (uuids w (drawn w),
   mkWorld (heap w) (next_loc w) (clock w) (ticks w) (uuids w) (S (drawn w))).

(** A fresh dictionary object with the given content. *)
Definition new_dict (d : gmap string pyval) : M loc := fun w =>
  (next_loc w,
   mkWorld (<[next_loc w := d]> (heap w)) (Pos.succ (next_loc w))
           (clock w) (ticks w) (uuids w) (drawn w)).

Definition set_heap (h : gmap loc (gmap string pyval)) (w : World) : World :=
  mkWorld h (next_loc w) (clock w) (ticks w) (uuids w) (drawn w).

(** The content of the dictionary at [l]. *)
Definition deref (h : gmap loc (gmap string pyval)) (l : loc) : gmap string pyval :=
  default ∅ (h !! l).

(** An in-place change of the dictionary at [l], such as [d.update(...)] or
    [d[k] = v]. *)
Definition mutate_dict (l : loc) (f : gmap string pyval -> gmap string pyval) : M unit :=
  fun w => (tt, set_heap (<[l := f (deref (heap w) l)]> (heap w)) w).

(** ** workflow/models/drawing_phase.py *)

Inductive DrawingPhase := SKETCH | REFINEMENT | STYLIZATION | RENDERING | COMPLETE.

#[global] Instance DrawingPhase_eq_dec : EqDecision DrawingPhase.
Proof. solve_decision. Defined.

(** [phase.value]. *)
Definition phase_value (p : DrawingPhase) : string :=
  match p with
  | SKETCH => "sketch"
  | REFINEMENT => "refinement"
  | STYLIZATION => "stylization"
  | RENDERING => "rendering"
  | COMPLETE => "complete"
  end.

Module PhaseTransition.
Record t := mk {
  from_phase : DrawingPhase;
  to_phase : DrawingPhase;
  timestamp : Time;
  reason : string;
  metrics : Metrics;
  confidence : float
}.
End PhaseTransition.

Module PhaseTransitionValidator.

Definition VALID_TRANSITIONS : list (DrawingPhase * list DrawingPhase) :=
  [ (SKETCH, [SKETCH; REFINEMENT]);
    (REFINEMENT, [SKETCH; REFINEMENT; STYLIZATION]);
    (STYLIZATION, [REFINEMENT; STYLIZATION; RENDERING]);
    (RENDERING, [STYLIZATION; RENDERING; COMPLETE]);
    (COMPLETE, [COMPLETE; RENDERING]) ].

(** [table.get(key, set())]. *)
Fixpoint get (table : list (DrawingPhase * list DrawingPhase))
    (key : DrawingPhase) : list DrawingPhase :=
  match table with
  | [] => []
  | (k, v) :: rest => if decide (k = key) then v else get rest key
  end.

Definition get_valid_next_phases (current_phase : DrawingPhase) : list DrawingPhase :=
  get VALID_TRANSITIONS current_phase.

Definition is_valid_transition (from_phase to_phase : DrawingPhase) : bool :=
  bool_decide (to_phase ∈ get VALID_TRANSITIONS from_phase).

Definition phase_order : list DrawingPhase :=
  [SKETCH; REFINEMENT; STYLIZATION; RENDERING; COMPLETE].

(** [xs.index(x)]; [None] stands for the [ValueError]. *)
Fixpoint index (xs : list DrawingPhase) (x : DrawingPhase) : option nat :=
  match xs with
  | [] => None
  | y :: ys => if decide (y = x) then Some 0%nat else S <$> index ys x
  end.

Definition is_forward_progression (from_phase to_phase : DrawingPhase) : bool :=
  match index phase_order from_phase, index phase_order to_phase with
  | Some from_idx, Some to_idx => bool_decide (from_idx < to_idx)%nat
  | _, _ => false
  end.

Definition is_regression (from_phase to_phase : DrawingPhase) : bool :=
  match index phase_order from_phase, index phase_order to_phase with
  | Some from_idx, Some to_idx => bool_decide (to_idx < from_idx)%nat
  | _, _ => false
  end.

End PhaseTransitionValidator.

(** ** workflow/models/stroke_intent.py *)

Inductive StrokeIntent := GESTURE | CONTOUR | DETAIL | CONSTRUCTION | SHADING | CLEANUP.

#[global] Instance StrokeIntent_eq_dec : EqDecision StrokeIntent.
Proof. solve_decision. Defined.

Definition intent_value (i : StrokeIntent) : string :=
  match i with
  | GESTURE => "gesture"
  | CONTOUR => "contour"
  | DETAIL => "detail"
  | CONSTRUCTION => "construction"
  | SHADING => "shading"
  | CLEANUP => "cleanup"
  end.

Module StrokeMetadata.
Record t := mk {
  intent : StrokeIntent;
  phase : DrawingPhase;
  purpose : string;
  task_id : option string;
  action_id : option string;
  confidence : float;
  refinement_pass : Z;
  evaluation_score : option float
}.

Definition to_dict (self : t) : pyval :=
  VDict [ ("intent", VStr (intent_value (intent self)));
          ("phase", VStr (phase_value (phase self)));
          ("purpose", VStr (purpose self));
          ("task_id", opt_str (task_id self));
          ("action_id", opt_str (action_id self));
          ("confidence", VFloat (confidence self));
          ("refinement_pass", VInt (refinement_pass self));
          ("evaluation_score",
             match evaluation_score self with Some s => VFloat s | None => VNone end) ].
End StrokeMetadata.

Module StrokeIntentHelper.

Definition PRIMARY_INTENT : list (DrawingPhase * StrokeIntent) :=
  [ (SKETCH, GESTURE); (REFINEMENT, CONTOUR);
    (STYLIZATION, CONTOUR); (RENDERING, DETAIL) ].

(** [PRIMARY_INTENT.get(phase)]. *)
Fixpoint get (table : list (DrawingPhase * StrokeIntent))
    (key : DrawingPhase) : option StrokeIntent :=
  match table with
  | [] => None
  | (k, v) :: rest => if decide (k = key) then Some v else get rest key
  end.

Definition get_primary_intent (phase : DrawingPhase) : option StrokeIntent :=
  get PRIMARY_INTENT phase.


Definition PHASE_INTENTS : list (DrawingPhase * list StrokeIntent) :=
  [ (SKETCH, [GESTURE; CONSTRUCTION]);
    (REFINEMENT, [CONTOUR; CONSTRUCTION; GESTURE]);
    (STYLIZATION, [CONTOUR; DETAIL; CLEANUP]);
    (RENDERING, [DETAIL; SHADING; CLEANUP]);
    (COMPLETE, []) ].

(** [PHASE_INTENTS.get(phase, set())]. *)
Fixpoint get_set (table : list (DrawingPhase * list StrokeIntent))
    (key : DrawingPhase) : list StrokeIntent :=
  match table with
  | [] => []
  | (k, v) :: rest => if decide (k = key) then v else get_set rest key
  end.

Definition get_recommended_intents (phase : DrawingPhase) : list StrokeIntent :=
  get_set PHASE_INTENTS phase.

Definition is_intent_appropriate (phase : DrawingPhase) (intent : StrokeIntent)
    : bool :=
  bool_decide (intent ∈ get_set PHASE_INTENTS phase).

Definition task_intent_map : list (string * StrokeIntent) :=
  [ ("fix_pose", GESTURE);
    ("fix_proportions", CONSTRUCTION);
    ("refine_anatomy", CONTOUR);
    ("add_detail", DETAIL);
    ("improve_symmetry", CONTOUR);
    ("enhance_silhouette", CONTOUR) ].

(** [task_intent_map.get(key)]. *)
Fixpoint map_get (table : list (string * StrokeIntent)) (key : string)
    : option StrokeIntent :=
  match table with
  | [] => None
  | (k, v) :: rest => if String.eqb k key then Some v else map_get rest key
  end.

(** [lower] stands for [str.lower]. *)
Definition suggest_intent_for_task (lower : string -> string)
    (phase : DrawingPhase) (task_type : string) : StrokeIntent :=
  let suggested :=
    if String.eqb task_type "" then None
    else map_get task_intent_map (lower task_type) in
  match suggested with
  | Some intent =>
      if is_intent_appropriate phase intent then intent
      else default GESTURE (get_primary_intent phase)
  | None => default GESTURE (get_primary_intent phase)
  end.
End StrokeIntentHelper.

(** ** motor/core/canvas.py *)

Definition RGBA : Type := Z * Z * Z * Z.

Inductive BlendMode :=
| NORMAL | MULTIPLY | SCREEN | OVERLAY | DARKEN | LIGHTEN | ADD | SUBTRACT.

Definition blend_mode_value (b : BlendMode) : string :=
  match b with
  | NORMAL => "normal"
  | MULTIPLY => "multiply"
  | SCREEN => "screen"
  | OVERLAY => "overlay"
  | DARKEN => "darken"
  | LIGHTEN => "lighten"
  | ADD => "add"
  | SUBTRACT => "subtract"
  end.

(** [BlendMode(s)]; [None] stands for the [ValueError]. *)
Definition blend_mode_of_value (s : string) : option BlendMode :=
  if String.eqb s "normal" then Some NORMAL
  else if String.eqb s "multiply" then Some MULTIPLY
  else if String.eqb s "screen" then Some SCREEN
  else if String.eqb s "overlay" then Some OVERLAY
  else if String.eqb s "darken" then Some DARKEN
  else if String.eqb s "lighten" then Some LIGHTEN
  else if String.eqb s "add" then Some ADD
  else if String.eqb s "subtract" then Some SUBTRACT
  else None.

(** Records that carry a metadata dictionary are parametric in what stands
    for it: [R := loc] is the Python object, which holds a reference;
    [R := gmap string pyval] is its value, with the content in place. *)

Module Layer.
Record t (R : Type) := mk {
  name : string;
  layer_id : string;
  visible : bool;
  locked : bool;
  opacity : float;
  blend_mode : BlendMode;
  parent_id : option string;
  metadata : R
}.
Arguments mk {R}.
Arguments name {R}.
Arguments layer_id {R}.
Arguments visible {R}.
Arguments locked {R}.
Arguments opacity {R}.
Arguments blend_mode {R}.
Arguments parent_id {R}.
Arguments metadata {R}.

(** The dictionary built by [to_dict]; the keys are those of the fields.
    [from_dict] is given on dictionaries of this shape, with every key
    present and values of the types that [to_dict] stores; what the Python
    [from_dict] does with other dictionaries (missing or unknown keys, a
    blend mode that is no string) is not part of the model. *)
Record dict (R : Type) := mk_dict {
  d_name : string;
  d_layer_id : string;
  d_visible : bool;
  d_locked : bool;
  d_opacity : float;
  d_blend_mode : string;
  d_parent_id : option string;
  d_metadata : R
}.
Arguments mk_dict {R}.
Arguments d_name {R}.
Arguments d_layer_id {R}.
Arguments d_visible {R}.
Arguments d_locked {R}.
Arguments d_opacity {R}.
Arguments d_blend_mode {R}.
Arguments d_parent_id {R}.
Arguments d_metadata {R}.

Definition to_dict {R} (self : t R) : dict R :=
  mk_dict (name self) (layer_id self) (visible self) (locked self)
          (opacity self) (blend_mode_value (blend_mode self))
          (parent_id self) (metadata self).

Definition from_dict {R} (data : dict R) : option (t R) :=
  b ← blend_mode_of_value (d_blend_mode data);
  Some (mk (d_name data) (d_layer_id data) (d_visible data) (d_locked data)
           (d_opacity data) b (d_parent_id data) (d_metadata data)).

(** The same record over another representation of the metadata. *)
Definition map_meta {R S} (f : R -> S) (self : t R) : t S :=
  mk (name self) (layer_id self) (visible self) (locked self)
     (opacity self) (blend_mode self) (parent_id self) (f (metadata self)).

Definition map_meta_dict {R S} (f : R -> S) (data : dict R) : dict S :=
  mk_dict (d_name data) (d_layer_id data) (d_visible data) (d_locked data)
          (d_opacity data) (d_blend_mode data) (d_parent_id data)
          (f (d_metadata data)).

(** [Layer(name=name)]: the field defaults, in field order. *)
Definition create (name : string) : M (t loc) :=
  id ← uuid4;
  meta ← new_dict ∅;
  mret (mk name id true false f_one NORMAL None meta).
End Layer.

Module Canvas.
Record t (R : Type) := mk {
  width : Z;
  height : Z;
  canvas_id : string;
  name : string;
  background_color : RGBA;
  dpi : Z;
  layers : list (Layer.t R);
  active_layer_id : option string;
  metadata : R
}.
Arguments mk {R}.
Arguments width {R}.
Arguments height {R}.
Arguments canvas_id {R}.
Arguments name {R}.
Arguments background_color {R}.
Arguments dpi {R}.
Arguments layers {R}.
Arguments active_layer_id {R}.
Arguments metadata {R}.

Record dict (R : Type) := mk_dict {
  d_width : Z;
  d_height : Z;
  d_canvas_id : string;
  d_name : string;
  d_background_color : RGBA;
  d_dpi : Z;
  d_layers : list (Layer.dict R);
  d_active_layer_id : option string;
  d_metadata : R
}.
Arguments mk_dict {R}.
Arguments d_width {R}.
Arguments d_height {R}.
Arguments d_canvas_id {R}.
Arguments d_name {R}.
Arguments d_background_color {R}.
Arguments d_dpi {R}.
Arguments d_layers {R}.
Arguments d_active_layer_id {R}.
Arguments d_metadata {R}.

(** [__post_init__]: a canvas without layers gets a default one. *)
Definition post_init (self : t loc) : M (t loc) :=
  match layers self with
  | [] =>
      default_layer ← Layer.create "Layer 1";
      mret (mk (width self) (height self) (canvas_id self) (name self)
               (background_color self) (dpi self)
               (layers self ++ [default_layer])
               (Some (Layer.layer_id default_layer)) (metadata self))
  | _ :: _ => mret self
  end.

Definition to_dict {R} (self : t R) : dict R :=
  mk_dict (width self) (height self) (canvas_id self) (name self)
          (background_color self) (dpi self)
          (map Layer.to_dict (layers self))
          (active_layer_id self) (metadata self).

(** [from_dict]; [None] stands for the [ValueError] of a layer. *)
Definition from_dict (data : dict loc) : M (option (t loc)) :=
  match mapM Layer.from_dict (d_layers data) with
  | None => mret None
  | Some ls =>
      c ← post_init (mk (d_width data) (d_height data) (d_canvas_id data)
                        (d_name data) (d_background_color data) (d_dpi data)
                        ls (d_active_layer_id data) (d_metadata data));
      mret (Some c)
  end.

Definition map_meta {R S} (f : R -> S) (self : t R) : t S :=
  mk (width self) (height self) (canvas_id self) (name self)
     (background_color self) (dpi self)
     (map (Layer.map_meta f) (layers self))
     (active_layer_id self) (f (metadata self)).

Definition map_meta_dict {R S} (f : R -> S) (data : dict R) : dict S :=
  mk_dict (d_width data) (d_height data) (d_canvas_id data) (d_name data)
          (d_background_color data) (d_dpi data)
          (map (Layer.map_meta_dict f) (d_layers data))
          (d_active_layer_id data) (f (d_metadata data)).

(** What [==] compares: the canvas with every dictionary read out. *)
Definition value (h : gmap loc (gmap string pyval)) (self : t loc)
    : t (gmap string pyval) :=
  map_meta (deref h) self.

Definition dict_value (h : gmap loc (gmap string pyval)) (data : dict loc)
    : dict (gmap string pyval) :=
  map_meta_dict (deref h) data.

(** [canvas.metadata[k] = v]. *)
Definition set_metadata (self : t loc) (k : string) (v : pyval) : M unit :=
  mutate_dict (metadata self) (fun d => <[k := v]> d).

(** [for i, layer in enumerate(self.layers): if layer.layer_id == layer_id]:
    the first layer with the id and its position. *)
Definition find_layer {R} (self : t R) (layer_id : string)
    : option (nat * Layer.t R) :=
  list_find (fun layer => Layer.layer_id layer = layer_id) (layers self).

Definition remove_layer {R} (self : t R) (layer_id : string) : bool * t R :=
  match find_layer self layer_id with
  | Some (i, _) =>
      let remaining := delete i (layers self) in
      let active :=
        if decide (active_layer_id self = Some layer_id)
        then Layer.layer_id <$> head remaining
        else active_layer_id self in
      (true,
       mk (width self) (height self) (canvas_id self) (name self)
          (background_color self) (dpi self) remaining active (metadata self))
  | None => (false, self)
  end.

Definition get_layer {R} (self : t R) (layer_id : string) : option (Layer.t R) :=
  snd <$> find_layer self layer_id.

Definition get_active_layer {R} (self : t R) : option (Layer.t R) :=
  match active_layer_id self with
  | Some id => if String.eqb id "" then head (layers self) else get_layer self id
  | None => head (layers self)
  end.

Definition set_active_layer {R} (self : t R) (layer_id : string) : bool * t R :=
  match get_layer self layer_id with
  | Some _ =>
      (true,
       mk (width self) (height self) (canvas_id self) (name self)
          (background_color self) (dpi self) (layers self) (Some layer_id)
          (metadata self))
  | None => (false, self)
  end.

(** The layer is popped first.  [insert] then raises [OverflowError] for a
    position below [PY_SSIZE_T_MIN], and the canvas is left without the
    layer; the position cannot be too large, being at most a list length. *)
Definition move_layer {R} (self : t R) (layer_id : string) (new_position : Z)
    : outcome bool * t R :=
  match find_layer self layer_id with
  | Some (i, layer) =>
      let remaining := delete i (layers self) in
      let new_position := Z.min new_position (Z.of_nat (length remaining)) in
      if bool_decide (new_position < PY_SSIZE_T_MIN)
      then
        (Raised,
         mk (width self) (height self) (canvas_id self) (name self)
            (background_color self) (dpi self) remaining
            (active_layer_id self) (metadata self))
      else
        (Returned true,
         mk (width self) (height self) (canvas_id self) (name self)
            (background_color self) (dpi self)
            (py_insert new_position layer remaining)
            (active_layer_id self) (metadata self))
  | None => (Returned false, self)
  end.

Definition get_layer_index {R} (self : t R) (layer_id : string) : Z :=
  match find_layer self layer_id with
  | Some (i, _) => Z.of_nat i
  | None => -1
  end.
End Canvas.

(** ** motor/core/stroke.py *)

Inductive StrokeType := DRAW | ERASE.

Definition stroke_type_value (s : StrokeType) : string :=
  match s with DRAW => "draw" | ERASE => "erase" end.

Definition stroke_type_of_value (s : string) : option StrokeType :=
  if String.eqb s "draw" then Some DRAW
  else if String.eqb s "erase" then Some ERASE
  else None.

Module StrokePoint.
(** Also the dictionary of a point in [Stroke.to_dict]: it has one key per
    field and [from_dict] passes it back as keyword arguments. *)
Record t := mk {
  x : float;
  y : float;
  pressure : float;
  tilt_x : float;
  tilt_y : float;
  rotation : float;
  timestamp : float;
  velocity : float
}.
End StrokePoint.

Module Stroke.
Record t (R : Type) := mk {
  points : list StrokePoint.t;
  stroke_type : StrokeType;
  tool_id : option string;
  layer_id : option string;
  color : option RGBA;
  metadata : R
}.
Arguments mk {R}.
Arguments points {R}.
Arguments stroke_type {R}.
Arguments tool_id {R}.
Arguments layer_id {R}.
Arguments color {R}.
Arguments metadata {R}.

(** The dictionary built by [to_dict].  [from_dict] is given on
    dictionaries of this shape, with every key present and values of the
    types that [to_dict] stores; what the Python [from_dict] does with
    other dictionaries (missing keys and their defaults, a colour given as
    a list or an empty one, points with other keys) is not part of the
    model. *)
Record dict (R : Type) := mk_dict {
  d_points : list StrokePoint.t;
  d_stroke_type : string;
  d_tool_id : option string;
  d_layer_id : option string;
  d_color : option RGBA;
  d_metadata : R
}.
Arguments mk_dict {R}.
Arguments d_points {R}.
Arguments d_stroke_type {R}.
Arguments d_tool_id {R}.
Arguments d_layer_id {R}.
Arguments d_color {R}.
Arguments d_metadata {R}.

Definition to_dict {R} (self : t R) : dict R :=
  mk_dict (points self) (stroke_type_value (stroke_type self))
          (tool_id self) (layer_id self) (color self) (metadata self).

Definition from_dict {R} (data : dict R) : option (t R) :=
  ty ← stroke_type_of_value (d_stroke_type data);
  Some (mk (d_points data) ty (d_tool_id data) (d_layer_id data)
           (d_color data) (d_metadata data)).

Definition map_meta_dict {R S} (f : R -> S) (data : dict R) : dict S :=
  mk_dict (d_points data) (d_stroke_type data) (d_tool_id data)
          (d_layer_id data) (d_color data) (f (d_metadata data)).

Definition dict_value (h : gmap loc (gmap string pyval)) (data : dict loc)
    : dict (gmap string pyval) :=
  map_meta_dict (deref h) data.

(** [stroke.metadata[k] = v]. *)
Definition set_metadata (self : t loc) (k : string) (v : pyval) : M unit :=
  mutate_dict (metadata self) (fun d => <[k := v]> d).
End Stroke.

(** ** workflow/models/workflow_state.py *)

Module WorkflowState.
Record t := mk {
  current_phase : DrawingPhase;
  phase_history : list PhaseTransition.t;
  phase_start_time : Time;
  iteration_in_phase : Z;
  total_strokes : Z;
  phase_stroke_count : Z;
  workflow_id : string;
  metadata : Fields
}.

(** [WorkflowState()]: the field defaults, in field order. *)
Definition create : M t :=
  started ← now;
  stamp ← now;
  mret (mk SKETCH [] started 0 0 0 ("workflow_" +:+ pretty stamp) []).

Definition set_current_phase (self : t) (p : DrawingPhase) : t :=
  mk p (phase_history self) (phase_start_time self) (iteration_in_phase self)
     (total_strokes self) (phase_stroke_count self) (workflow_id self)
     (metadata self).

Definition set_phase_start_time (self : t) (s : Time) : t :=
  mk (current_phase self) (phase_history self) s (iteration_in_phase self)
     (total_strokes self) (phase_stroke_count self) (workflow_id self)
     (metadata self).

Definition set_total_strokes (self : t) (n : Z) : t :=
  mk (current_phase self) (phase_history self) (phase_start_time self)
     (iteration_in_phase self) n (phase_stroke_count self) (workflow_id self)
     (metadata self).

Definition transition_to_phase (self : t) (new_phase : DrawingPhase)
    (reason : string) (metrics : option Metrics) (confidence : float)
    : M (bool * t) :=
  if negb (PhaseTransitionValidator.is_valid_transition
             (current_phase self) new_phase)
  then mret (false, self)
  else
    stamp ← now;
    let transition :=
      PhaseTransition.mk (current_phase self) new_phase stamp reason
                         (default [] metrics) confidence in
    let history := phase_history self ++ [transition] in
    started ← now;
    let iteration :=
      if decide (new_phase = PhaseTransition.from_phase transition)
      then iteration_in_phase self + 1
      else 0 in
    mret (true,
          mk new_phase history started iteration (total_strokes self) 0
             (workflow_id self) (metadata self)).

Definition record_stroke (self : t) : t :=
  mk (current_phase self) (phase_history self) (phase_start_time self)
     (iteration_in_phase self) (total_strokes self + 1)
     (phase_stroke_count self + 1) (workflow_id self) (metadata self).

Definition is_phase_complete (self : t) : bool :=
  bool_decide (current_phase self = COMPLETE).
End WorkflowState.

(** ** workflow/core/checkpoint_manager.py *)

Module CanvasCheckpoint.
Record t := mk {
  checkpoint_id : string;
  timestamp : Time;
  phase : DrawingPhase;
  canvas_state : Canvas.dict loc;
  stroke_history : list (Stroke.dict loc);
  metadata : Fields;
  description : string
}.
End CanvasCheckpoint.

Module CheckpointManager.
Record t := mk {
  checkpoints : list CanvasCheckpoint.t;
  max_checkpoints : Z;
  current_checkpoint_index : Z
}.

(** [CheckpointManager(max_checkpoints)]. *)
Definition create (max_checkpoints : Z) : t := mk [] max_checkpoints (-1).

(** The id is made of a reading of the clock and of nothing else.  The code
    prints the reading as seconds, a float ([datetime.now().timestamp()]);
    here it is printed as the integer number of microseconds.  The text of
    an id therefore differs from the code's; what the theorems depend on is
    when two ids are equal, and in both they are equal when the readings
    are. *)
Definition create_checkpoint (self : t) (canvas : Canvas.t loc)
    (phase : DrawingPhase) (stroke_history : list (Stroke.t loc))
    (description : string) (metadata : option Fields)
    : M (CanvasCheckpoint.t * t) :=
  stamp ← now;
  let checkpoint_id := "checkpoint_" +:+ pretty stamp in
  let canvas_state := Canvas.to_dict canvas in
  let stroke_data := map Stroke.to_dict stroke_history in
  created ← now;
  let checkpoint :=
    CanvasCheckpoint.mk checkpoint_id created phase canvas_state stroke_data
                        (default [] metadata) description in
  let appended := checkpoints self ++ [checkpoint] in
  let index := Z.of_nat (length appended) - 1 in
  if bool_decide (max_checkpoints self < Z.of_nat (length appended))
  then mret (checkpoint, mk (tail appended) (max_checkpoints self) (index - 1))
  else mret (checkpoint, mk appended (max_checkpoints self) index).

(** The first stored checkpoint with the given id, and its position. *)
Definition find_checkpoint (self : t) (checkpoint_id : string)
    : option (nat * CanvasCheckpoint.t) :=
  list_find (fun cp => CanvasCheckpoint.checkpoint_id cp = checkpoint_id)
            (checkpoints self).

Definition get_checkpoint (self : t) (checkpoint_id : string)
    : option CanvasCheckpoint.t :=
  snd <$> find_checkpoint self checkpoint_id.

Definition get_latest_checkpoint (self : t) : option CanvasCheckpoint.t :=
  last (checkpoints self).

Definition get_checkpoints_by_phase (self : t) (phase : DrawingPhase)
    : list CanvasCheckpoint.t :=
  filter (fun cp => CanvasCheckpoint.phase cp = phase) (checkpoints self).

Definition restore_checkpoint (checkpoint : CanvasCheckpoint.t)
    : M (option (Canvas.t loc)) :=
  Canvas.from_dict (CanvasCheckpoint.canvas_state checkpoint).

Definition rollback_to_checkpoint (self : t) (checkpoint_id : string)
    : option CanvasCheckpoint.t * t :=
  match find_checkpoint self checkpoint_id with
  | Some (i, checkpoint) =>
      (Some checkpoint, mk (checkpoints self) (max_checkpoints self) (Z.of_nat i))
  | None => (None, self)
  end.

Definition rollback_to_phase (self : t) (phase : DrawingPhase)
    : option CanvasCheckpoint.t * t :=
  match last (get_checkpoints_by_phase self phase) with
  | Some checkpoint =>
      rollback_to_checkpoint self (CanvasCheckpoint.checkpoint_id checkpoint)
  | None => (None, self)
  end.

(** [None] stands for the [ValueError] of a stroke. *)
Definition get_stroke_history_at_checkpoint (checkpoint : CanvasCheckpoint.t)
    : option (list (Stroke.t loc)) :=
  mapM Stroke.from_dict (CanvasCheckpoint.stroke_history checkpoint).

Definition clear_checkpoints (self : t) : t := mk [] (max_checkpoints self) (-1).

Definition get_checkpoint_count (self : t) : Z :=
  Z.of_nat (length (checkpoints self)).
End CheckpointManager.

(** ** workflow/core/decision_logger.py *)

(** Truth value of an optional dictionary: set and not empty. *)
Definition truthy {A} (d : option (list A)) : bool :=
  match d with Some (_ :: _) => true | _ => false end.

Module StrokeDecision.
Record t := mk {
  stroke_id : string;
  timestamp : Time;
  intent : StrokeIntent;
  phase : DrawingPhase;
  task_id : option string;
  action_id : option string;
  purpose : string;
  pre_evaluation : option Metrics;
  post_evaluation : option Metrics;
  stroke_data : option (Stroke.dict loc);
  metadata : Fields
}.

Definition get_improvement_score (self : t) : option float :=
  if truthy (pre_evaluation self) && truthy (post_evaluation self)
  then
    let pre_avg := mean (default [] (pre_evaluation self)) in
    let post_avg := mean (default [] (post_evaluation self)) in
    Some (PrimFloat.sub post_avg pre_avg)
  else None.
End StrokeDecision.

Module PhaseDecisionLog.
Record t := mk {
  phase : DrawingPhase;
  start_time : Time;
  end_time : option Time;
  strokes : list StrokeDecision.t;
  phase_evaluations : list (Time * Metrics);
  transition_reason : string;
  total_improvement : option float;
  metadata : Fields
}.

Definition add_stroke_decision (self : t) (decision : StrokeDecision.t) : t :=
  mk (phase self) (start_time self) (end_time self)
     (strokes self ++ [decision]) (phase_evaluations self)
     (transition_reason self) (total_improvement self) (metadata self).

Definition add_evaluation (self : t) (evaluation : Metrics) : M t :=
  stamp ← now;
  mret (mk (phase self) (start_time self) (end_time self) (strokes self)
           (phase_evaluations self ++ [(stamp, evaluation)])
           (transition_reason self) (total_improvement self) (metadata self)).

Definition close_phase (self : t) (reason : string) : M t :=
  ended ← now;
  let improvements := omap StrokeDecision.get_improvement_score (strokes self) in
  let improvement :=
    match improvements with
    | [] => total_improvement self
    | _ :: _ =>
        Some (PrimFloat.div (py_sum improvements) (py_len_float improvements))
    end in
  mret (mk (phase self) (start_time self) (Some ended) (strokes self)
           (phase_evaluations self) reason improvement (metadata self)).

Definition get_stroke_count (self : t) : Z := Z.of_nat (length (strokes self)).
End PhaseDecisionLog.

Module DecisionLogger.
(** [current_log] refers to one of the objects of [phase_logs]: it is kept
    as the position of that object in the list. *)
Record t := mk {
  phase_logs : list PhaseDecisionLog.t;
  current_log : option nat
}.

(** [DecisionLogger()]. *)
Definition create : t := mk [] None.

Definition current (self : t) : option PhaseDecisionLog.t :=
  i ← current_log self; phase_logs self !! i.

(** The effect on the logger of a method that mutates the current log. *)
Definition update_current (self : t) (log : PhaseDecisionLog.t) : t :=
  match current_log self with
  | Some i => mk (<[i := log]> (phase_logs self)) (current_log self)
  | None => self
  end.

Definition start_phase (self : t) (phase : DrawingPhase)
    (metadata : option Fields) : M t :=
  self ← match current self with
         | Some log =>
             match PhaseDecisionLog.end_time log with
             | None =>
                 log ← PhaseDecisionLog.close_phase log "Phase transition";
                 mret (update_current self log)
             | Some _ => mret self
             end
         | None => mret self
         end;
  started ← now;
  let log :=
    PhaseDecisionLog.mk phase started None [] [] "" None (default [] metadata) in
  mret (mk (phase_logs self ++ [log]) (Some (length (phase_logs self)))).

Definition log_stroke (self : t) (stroke_id : string) (intent : StrokeIntent)
    (phase : DrawingPhase) (purpose : string) (task_id action_id : option string)
    (pre_evaluation post_evaluation : option Metrics)
    (stroke_data : option (Stroke.dict loc)) (metadata : option Fields) : M t :=
  self ← match current_log self with
         | None => start_phase self phase None
         | Some _ => mret self
         end;
  stamp ← now;
  let decision :=
    StrokeDecision.mk stroke_id stamp intent phase task_id action_id purpose
                      pre_evaluation post_evaluation stroke_data
                      (default [] metadata) in
  mret (match current self with
        | Some log =>
            update_current self (PhaseDecisionLog.add_stroke_decision log decision)
        | None => self
        end).

Definition log_evaluation (self : t) (evaluation : Metrics) : M t :=
  match current self with
  | Some log =>
      log ← PhaseDecisionLog.add_evaluation log evaluation;
      mret (update_current self log)
  | None => mret self
  end.

Definition close_phase (self : t) (reason : string) : M t :=
  match current self with
  | Some log =>
      log ← PhaseDecisionLog.close_phase log reason;
      mret (update_current self log)
  | None => mret self
  end.

Definition get_total_stroke_count (self : t) : Z :=
  foldr (fun log acc => PhaseDecisionLog.get_stroke_count log + acc) 0
        (phase_logs self).

Definition get_phase_log (self : t) (phase : DrawingPhase)
    : option PhaseDecisionLog.t :=
  snd <$> list_find (fun log => PhaseDecisionLog.phase log = phase)
                    (reverse (phase_logs self)).

Definition get_all_phase_logs (self : t) (phase : DrawingPhase)
    : list PhaseDecisionLog.t :=
  filter (fun log => PhaseDecisionLog.phase log = phase) (phase_logs self).

Definition get_all_strokes (self : t) : list StrokeDecision.t :=
  foldl (fun all_strokes log => all_strokes ++ PhaseDecisionLog.strokes log) []
        (phase_logs self).
End DecisionLogger.

(** ** workflow/core/workflow_executor.py *)

Module WorkflowExecutor.
Record t := mk {
  canvas : Canvas.t loc;
  workflow_state : WorkflowState.t;
  checkpoint_manager : CheckpointManager.t;
  decision_logger : option DecisionLogger.t;
  stroke_history : list (Stroke.t loc)
}.

Definition set_canvas (self : t) (c : Canvas.t loc) : t :=
  mk c (workflow_state self) (checkpoint_manager self) (decision_logger self)
     (stroke_history self).

Definition set_workflow_state (self : t) (ws : WorkflowState.t) : t :=
  mk (canvas self) ws (checkpoint_manager self) (decision_logger self)
     (stroke_history self).

Definition set_checkpoint_manager (self : t) (cm : CheckpointManager.t) : t :=
  mk (canvas self) (workflow_state self) cm (decision_logger self)
     (stroke_history self).

Definition set_decision_logger (self : t) (lg : option DecisionLogger.t) : t :=
  mk (canvas self) (workflow_state self) (checkpoint_manager self) lg
     (stroke_history self).

Definition set_stroke_history (self : t) (h : list (Stroke.t loc)) : t :=
  mk (canvas self) (workflow_state self) (checkpoint_manager self)
     (decision_logger self) h.

Definition create_checkpoint (self : t) (description : string)
    (metadata : option Fields) : M (string * t) :=
  '(checkpoint, cm) ←
     CheckpointManager.create_checkpoint (checkpoint_manager self)
       (canvas self) (WorkflowState.current_phase (workflow_state self))
       (stroke_history self) description metadata;
  mret (CanvasCheckpoint.checkpoint_id checkpoint,
        set_checkpoint_manager self cm).

Definition _initialize_workflow (self : t) : M t :=
  let self :=
    set_workflow_state self
      (WorkflowState.set_current_phase (workflow_state self) SKETCH) in
  lg ← match decision_logger self with
       | Some lg => Some <$> DecisionLogger.start_phase lg SKETCH None
       | None => mret None
       end;
  let self := set_decision_logger self lg in
  '(_, self) ← create_checkpoint self "Initial canvas state"
                 (Some [("type", VStr "initial")]);
  mret self.

(** [WorkflowExecutor(canvas, max_checkpoints, enable_logging)]. *)
Definition create (canvas : Canvas.t loc) (max_checkpoints : Z)
    (enable_logging : bool) : M t :=
  ws ← WorkflowState.create;
  _initialize_workflow
    (mk canvas ws (CheckpointManager.create max_checkpoints)
        (if enable_logging then Some DecisionLogger.create else None) []).

Definition transition_to_phase (self : t) (new_phase : DrawingPhase)
    (reason : string) (metrics : option Metrics) (create_checkpoint_flag : bool)
    : M (bool * t) :=
  '(success, ws) ←
     WorkflowState.transition_to_phase (workflow_state self) new_phase reason
                                       metrics f_one;
  let self := set_workflow_state self ws in
  if negb success then mret (false, self)
  else
    lg ← match decision_logger self with
         | Some lg =>
             lg ← DecisionLogger.close_phase lg reason;
             Some <$> DecisionLogger.start_phase lg new_phase None
         | None => mret None
         end;
    let self := set_decision_logger self lg in
    self ← (if create_checkpoint_flag
            then
              '(_, self) ← create_checkpoint self
                 ("Phase transition to " +:+ phase_value new_phase)
                 (Some [("type", VStr "phase_transition");
                        ("reason", VStr reason);
                        ("metrics", metrics_val (default [] metrics))]);
              mret self
            else mret self);
    mret (true, self).

Definition execute_stroke (self : t) (stroke : Stroke.t loc)
    (intent : option StrokeIntent) (purpose : string)
    (task_id action_id : option string)
    (pre_evaluation post_evaluation : option Metrics) : M (string * t) :=
  let phase := WorkflowState.current_phase (workflow_state self) in
  let intent :=
    match intent with
    | Some i => i
    | None => default GESTURE (StrokeIntentHelper.get_primary_intent phase)
    end in
  stroke_id ← uuid4;
  let workflow_metadata :=
    StrokeMetadata.mk intent phase purpose task_id action_id f_one
      (WorkflowState.iteration_in_phase (workflow_state self)) None in
  _ ← mutate_dict (Stroke.metadata stroke)
        (fun d => <["stroke_id" := VStr stroke_id]>
                    (<["workflow" := StrokeMetadata.to_dict workflow_metadata]> d));
  let self := set_stroke_history self (stroke_history self ++ [stroke]) in
  let self :=
    set_workflow_state self (WorkflowState.record_stroke (workflow_state self)) in
  lg ← match decision_logger self with
       | Some lg =>
           Some <$> DecisionLogger.log_stroke lg stroke_id intent phase purpose
                      task_id action_id pre_evaluation post_evaluation
                      (Some (Stroke.to_dict stroke)) None
       | None => mret None
       end;
  mret (stroke_id, set_decision_logger self lg).

Definition rollback_to_checkpoint (self : t) (checkpoint_id : string)
    : M (outcome bool * t) :=
  let '(found, cm) :=
    CheckpointManager.rollback_to_checkpoint (checkpoint_manager self)
                                             checkpoint_id in
  let self := set_checkpoint_manager self cm in
  match found with
  | None => mret (Returned false, self)
  | Some checkpoint =>
      restored ← CheckpointManager.restore_checkpoint checkpoint;
      match restored with
      | None => mret (Raised, self)
      | Some c =>
          let self := set_canvas self c in
          match CheckpointManager.get_stroke_history_at_checkpoint checkpoint with
          | None => mret (Raised, self)
          | Some history =>
              let self := set_stroke_history self history in
              let ws := workflow_state self in
              let ws :=
                WorkflowState.set_current_phase ws
                  (CanvasCheckpoint.phase checkpoint) in
              let ws :=
                WorkflowState.set_phase_start_time ws
                  (CanvasCheckpoint.timestamp checkpoint) in
              let ws :=
                WorkflowState.set_total_strokes ws
                  (Z.of_nat (length (stroke_history self))) in
              mret (Returned true, set_workflow_state self ws)
          end
      end
  end.

Definition rollback_to_phase (self : t) (phase : DrawingPhase)
    : M (outcome bool * t) :=
  let '(found, cm) :=
    CheckpointManager.rollback_to_phase (checkpoint_manager self) phase in
  let self := set_checkpoint_manager self cm in
  match found with
  | Some checkpoint =>
      rollback_to_checkpoint self (CanvasCheckpoint.checkpoint_id checkpoint)
  | None => mret (Returned false, self)
  end.

Definition evaluate_and_decide_transition (self : t)
    (evaluation_metrics : Metrics) (quality_threshold : float)
    : M (option DrawingPhase * t) :=
  let current_phase := WorkflowState.current_phase (workflow_state self) in
  lg ← match decision_logger self with
       | Some lg => Some <$> DecisionLogger.log_evaluation lg evaluation_metrics
       | None => mret None
       end;
  let self := set_decision_logger self lg in
  match evaluation_metrics with
  | [] => mret (None, self)
  | _ :: _ =>
      let avg_quality := mean evaluation_metrics in
      if f_ge avg_quality quality_threshold then
        mret (match current_phase with
              | SKETCH => Some REFINEMENT
              | REFINEMENT => Some STYLIZATION
              | STYLIZATION => Some RENDERING
              | RENDERING => Some COMPLETE
              | COMPLETE => None
              end, self)
      else if f_lt avg_quality f_0_4
              && bool_decide
                   (2 < WorkflowState.iteration_in_phase (workflow_state self))
      then
        mret (match current_phase with
              | RENDERING => Some STYLIZATION
              | STYLIZATION => Some REFINEMENT
              | REFINEMENT => Some SKETCH
              | SKETCH | COMPLETE => None
              end, self)
      else mret (None, self)
  end.

Definition is_complete (self : t) : bool :=
  WorkflowState.is_phase_complete (workflow_state self).

Definition get_current_phase (self : t) : DrawingPhase :=
  WorkflowState.current_phase (workflow_state self).

(** [stroke.metadata.get("workflow", {}).get(key)], read in the store [h].
    Where the value under ["workflow"] is no dictionary the Python
    expression raises [AttributeError]; this function gives [None] there,
    and what is proved of the counts concerns histories without such an
    entry ([execute_stroke] always stores a dictionary under the key). *)
Definition workflow_meta_get (h : gmap loc (gmap string pyval))
    (stroke : Stroke.t loc) (key : string) : option pyval :=
  match deref h (Stroke.metadata stroke) !! "workflow" with
  | Some (VDict items) => fields_get key items
  | _ => None
  end.

(** [v == s] for a looked-up value and a string. *)
Definition is_str (v : option pyval) (s : string) : bool :=
  match v with
  | Some (VStr s') => String.eqb s' s
  | _ => false
  end.

Definition get_stroke_count_by_intent (h : gmap loc (gmap string pyval))
    (self : t) (intent : StrokeIntent) : Z :=
  Z.of_nat (length (filter
    (fun stroke => is_str (workflow_meta_get h stroke "intent")
                          (intent_value intent) = true)
    (stroke_history self))).

Definition get_phase_stroke_count (h : gmap loc (gmap string pyval))
    (self : t) (phase : DrawingPhase) : Z :=
  Z.of_nat (length (filter
    (fun stroke => is_str (workflow_meta_get h stroke "phase")
                          (phase_value phase) = true)
    (stroke_history self))).
End WorkflowExecutor.

(** ** Sequences of orchestrator calls *)

(** One call of a public method of the orchestrator, with its arguments. *)
Inductive Op :=
| ExecuteStroke (stroke : Stroke.t loc) (intent : option StrokeIntent)
    (purpose : string) (task_id action_id : option string)
    (pre_evaluation post_evaluation : option Metrics)
| TransitionToPhase (new_phase : DrawingPhase) (reason : string)
    (metrics : option Metrics) (create_checkpoint : bool)
| CreateCheckpoint (description : string) (metadata : option Fields)
| RollbackToCheckpoint (checkpoint_id : string)
| RollbackToPhase (phase : DrawingPhase)
| EvaluateAndDecideTransition (evaluation_metrics : Metrics)
    (quality_threshold : float).

(** What the call gave back. *)
Inductive Result :=
| StrokeId (id : string)
| Transitioned (success : bool)
| CheckpointId (id : string)
| RolledBack (success : outcome bool)
| Suggested (phase : option DrawingPhase).

(** A call as observed: the phase it started in and its result. *)
Record Event := mkEvent {
  ev_op : Op;
  ev_phase : DrawingPhase;
  ev_result : Result
}.

Definition step (op : Op) (self : WorkflowExecutor.t)
    : M (Result * WorkflowExecutor.t) :=
  match op with
  | ExecuteStroke stroke intent purpose task_id action_id pre post =>
      '(id, self) ← WorkflowExecutor.execute_stroke self stroke intent purpose
                      task_id action_id pre post;
      mret (StrokeId id, self)
  | TransitionToPhase new_phase reason metrics flag =>
      '(ok, self) ← WorkflowExecutor.transition_to_phase self new_phase reason
                      metrics flag;
      mret (Transitioned ok, self)
  | CreateCheckpoint description metadata =>
      '(id, self) ← WorkflowExecutor.create_checkpoint self description metadata;
      mret (CheckpointId id, self)
  | RollbackToCheckpoint checkpoint_id =>
      '(ok, self) ← WorkflowExecutor.rollback_to_checkpoint self checkpoint_id;
      mret (RolledBack ok, self)
  | RollbackToPhase phase =>
      '(ok, self) ← WorkflowExecutor.rollback_to_phase self phase;
      mret (RolledBack ok, self)
  | EvaluateAndDecideTransition metrics threshold =>
      '(p, self) ← WorkflowExecutor.evaluate_and_decide_transition self metrics
                     threshold;
      mret (Suggested p, self)
  end.

Fixpoint run (ops : list Op) (self : WorkflowExecutor.t)
    : M (list Event * WorkflowExecutor.t) :=
  match ops with
  | [] => mret ([], self)
  | op :: rest =>
      let phase := WorkflowExecutor.get_current_phase self in
      '(r, self) ← step op self;
      '(events, self) ← run rest self;
      mret (mkEvent op phase r :: events, self)
  end.

Definition is_execute (op : Op) : bool :=
  match op with ExecuteStroke _ _ _ _ _ _ _ => true | _ => false end.

Definition is_rollback (op : Op) : bool :=
  match op with RollbackToCheckpoint _ | RollbackToPhase _ => true | _ => false end.

(** The strokes handed to [execute_stroke], in order. *)
Definition executed (ops : list Op) : list (Stroke.t loc) :=
  omap (fun op => match op with
                  | ExecuteStroke s _ _ _ _ _ _ => Some s
                  | _ => None
                  end) ops.

(** Number of [execute_stroke] calls. *)
Definition executions (ops : list Op) : Z :=
  Z.of_nat (length (executed ops)).

(** Number of [execute_stroke] calls that started in [phase]. *)
Definition executions_in_phase (events : list Event) (phase : DrawingPhase) : Z :=
  Z.of_nat (length (filter
    (fun ev => is_execute (ev_op ev) = true ∧ ev_phase ev = phase) events)).

(** Number of [execute_stroke] calls since the last accepted transition,
    added to [n], the count before the sequence. *)
Definition executions_since_transition (n : Z) (events : list Event) : Z :=
  fold_left (fun n ev =>
               match ev_result ev with
               | Transitioned true => 0
               | StrokeId _ => n + 1
               | _ => n
               end) events n.

(** No rollback went through. *)
Definition no_rollback_succeeded (events : list Event) : Prop :=
  Forall (fun ev => ev_result ev ≠ RolledBack (Returned true)) events.

(** The invariant of the specification's data model on the workflow state. *)
Definition phase_matches_history (ws : WorkflowState.t) : Prop :=
  WorkflowState.current_phase ws =
    match last (WorkflowState.phase_history ws) with
    | Some record => PhaseTransition.to_phase record
    | None => SKETCH
    end.

(** ** Creating several checkpoints in a row *)

Record CheckpointArgs := mkArgs {
  arg_canvas : Canvas.t loc;
  arg_phase : DrawingPhase;
  arg_stroke_history : list (Stroke.t loc);
  arg_description : string;
  arg_metadata : option Fields
}.

(** The checkpoints created, in creation order, and the manager afterwards. *)
Fixpoint create_checkpoints (args : list CheckpointArgs) (self : CheckpointManager.t)
    : M (list CanvasCheckpoint.t * CheckpointManager.t) :=
  match args with
  | [] => mret ([], self)
  | a :: rest =>
      '(checkpoint, self) ←
         CheckpointManager.create_checkpoint self (arg_canvas a) (arg_phase a)
           (arg_stroke_history a) (arg_description a) (arg_metadata a);
      '(created, self) ← create_checkpoints rest self;
      mret (checkpoint :: created, self)
  end.

(** [transition_to_phase] with the default arguments, keeping the state. *)
Definition then_transition (new_phase : DrawingPhase)
    (sw : WorkflowState.t * World) : WorkflowState.t * World :=
  let '(_, self, w) :=
    WorkflowState.transition_to_phase sw.1 new_phase "" None f_one sw.2 in
  (self, w).

(** ** Sample states and worlds *)

(** A state to try things on: a fresh workflow, before any transition. *)
Definition fresh_state : WorkflowState.t :=
  WorkflowState.mk SKETCH [] 0 0 0 0 "workflow_0" [].

(** Pairwise distinct strings, standing for uuids. *)
Fixpoint tally (n : nat) : string :=
  match n with
  | O => "#"
  | S n => "i" +:+ tally n
  end.

(** A world whose clock advances by one microsecond per reading. *)
Definition ticking_world : World :=
  mkWorld ∅ 1%positive (fun i => 1000 + Z.of_nat i) 0 tally 0.

(** A canvas with its default layer; its two dictionaries are at 1 and 2. *)
Definition sample_canvas : Canvas.t loc :=
  Canvas.mk 800 600 "canvas-1" "Untitled" (255, 255, 255, 255) 300
    [Layer.mk "Layer 1" "layer-1" true false f_one NORMAL None 2%positive]
    (Some "layer-1") 1%positive.

(** The world in which [sample_canvas] has just been built. *)
Definition sample_world : World :=
  mkWorld (<[1%positive := ∅]> (<[2%positive := ∅]> ∅)) 3%positive
          (fun i => 1000 + Z.of_nat i) 0 tally 0.

(** An orchestrator in the given phase and iteration of it. *)
Definition executor_at (phase : DrawingPhase) (iteration : Z)
    : WorkflowExecutor.t :=
  WorkflowExecutor.mk sample_canvas
    (WorkflowState.mk phase [] 0 iteration 0 0 "workflow_0" [])
    (CheckpointManager.create 10) (Some DecisionLogger.create) [].

(** ** The recommendation, in the words of the specification *)

(** The phase [offset] places after [phase] in the fixed order. *)
Definition next_in_order (phase : DrawingPhase) : option DrawingPhase :=
  i ← PhaseTransitionValidator.index PhaseTransitionValidator.phase_order phase;
  PhaseTransitionValidator.phase_order !! S i.

Definition previous_in_order (phase : DrawingPhase) : option DrawingPhase :=
  i ← PhaseTransitionValidator.index PhaseTransitionValidator.phase_order phase;
  match i with
  | O => None
  | S j => PhaseTransitionValidator.phase_order !! j
  end.

(** Section 4.6, [recommend_transition], with the regression as the code has
    it: from Refinement, Stylization and Rendering only. *)
Definition recommendation (phase : DrawingPhase) (iteration : Z)
    (metrics : Metrics) (quality_threshold : float) : option DrawingPhase :=
  match metrics with
  | [] => None
  | _ :: _ =>
      if f_ge (mean metrics) quality_threshold then next_in_order phase
      else if f_lt (mean metrics) f_0_4 && bool_decide (2 < iteration)
      then match phase with
           | COMPLETE => None
           | _ => previous_in_order phase
           end
      else None
  end.

(** ** Provenance of a checkpoint *)

(** [cp] holds what [create_checkpoint] stores for the canvas [c] and the
    stroke history [history]. *)
Definition created_from (cp : CanvasCheckpoint.t) (c : Canvas.t loc)
    (history : list (Stroke.t loc)) : Prop :=
  CanvasCheckpoint.canvas_state cp = Canvas.to_dict c
  /\ CanvasCheckpoint.stroke_history cp = map Stroke.to_dict history.

(** The ids of the stored checkpoints, oldest first. *)
Definition stored_ids (cm : CheckpointManager.t) : list string :=
  map CanvasCheckpoint.checkpoint_id (CheckpointManager.checkpoints cm).

(** ** A sample session *)

(** A stroke with one point whose metadata dictionary is at [l]. *)
Definition sample_stroke (l : loc) : Stroke.t loc :=
  Stroke.mk
    [StrokePoint.mk f_zero f_zero f_one f_zero f_zero f_zero f_zero f_zero]
    DRAW None None None l.

(** The world after the caller built [sample_canvas] and three strokes. *)
Definition studio_world : World :=
  mkWorld (<[1%positive := ∅]> (<[2%positive := ∅]> (<[3%positive := ∅]>
            (<[4%positive := ∅]> (<[5%positive := ∅]> ∅)))))
          6%positive (fun i => 1000 + Z.of_nat i) 0 tally 0.

Definition draw (l : loc) : Op :=
  ExecuteStroke (sample_stroke l) None "" None None None None.

(** Runs [ops] on a newly constructed orchestrator with logging. *)
Definition session (ops : list Op) : list Event * WorkflowExecutor.t * World :=
  let '(self, w) := WorkflowExecutor.create sample_canvas 10 true studio_world in
  run ops self w.

(** One stroke, a checkpoint, two more strokes. *)
Definition saved_session : list Event * WorkflowExecutor.t * World :=
  session [draw 3%positive; CreateCheckpoint "After stroke 1" None;
           draw 4%positive; draw 5%positive].

(** The id that [create_checkpoint] returned in [saved_session]. *)
Definition saved_id : string :=
  match saved_session.1.1 !! 1%nat with
  | Some (mkEvent _ _ (CheckpointId id)) => id
  | _ => ""
  end.

(** The checkpoint stored under it. *)
Definition saved_checkpoint : CanvasCheckpoint.t :=
  default (CanvasCheckpoint.mk "" 0 SKETCH (Canvas.to_dict sample_canvas) [] [] "")
    (CheckpointManager.get_checkpoint
       (WorkflowExecutor.checkpoint_manager saved_session.1.2) saved_id).

(** ** Names for the parts of a run *)

(** The world after [n] more readings of the clock. *)
Definition after_ticks (n : nat) (w : World) : World :=
  mkWorld (heap w) (next_loc w) (clock w) (n + ticks w) (uuids w) (drawn w).

(** The checkpoint that [CheckpointManager.create_checkpoint] builds in [w]. *)
Definition made_checkpoint (w : World) (canvas : Canvas.t loc)
    (phase : DrawingPhase) (stroke_history : list (Stroke.t loc))
    (description : string) (metadata : option Fields) : CanvasCheckpoint.t :=
  CanvasCheckpoint.mk ("checkpoint_" +:+ pretty (clock w (ticks w)))
    (clock w (S (ticks w))) phase (Canvas.to_dict canvas)
    (map Stroke.to_dict stroke_history) (default [] metadata) description.

(** The stored list after appending [cp] under the capacity [k]. *)
Definition stored_after (k : Z) (stored : list CanvasCheckpoint.t)
    (cp : CanvasCheckpoint.t) : list CanvasCheckpoint.t :=
  if bool_decide (k < Z.of_nat (length (stored ++ [cp])))
  then tail (stored ++ [cp])
  else stored ++ [cp].

(** Arguments for a checkpoint of [sample_canvas] in the given phase. *)
Definition sample_args (phase : DrawingPhase) : CheckpointArgs :=
  mkArgs sample_canvas phase [] "" None.

(** A canvas whose only layer was removed ([remove_layer] of the default
    layer): no layers, no active layer. *)
Definition bare_canvas : Canvas.t loc :=
  Canvas.mk 800 600 "canvas-1" "Untitled" (255, 255, 255, 255) 300 [] None
    1%positive.

(** ** Well-formed loggers *)

(** The current log, if any, is one of the logs of the list. *)
Definition logger_ok (lg : DecisionLogger.t) : Prop :=
  match DecisionLogger.current_log lg with
  | Some i => (i < length (DecisionLogger.phase_logs lg))%nat
  | None => True
  end.

(** A logger call that records [d] more strokes: logging stays on or off,
    a well-formed logger stays so and its total grows by [d]. *)
Definition logged (d : Z) (before after : option DecisionLogger.t) : Prop :=
  match before, after with
  | None, None => True
  | Some lg, Some lg' =>
      logger_ok lg ->
      logger_ok lg'
      /\ DecisionLogger.get_total_stroke_count lg'
         = DecisionLogger.get_total_stroke_count lg + d
  | _, _ => False
  end.

(** A transition to Refinement, then back to the first checkpoint. *)
Definition rolled_back_session : list Event * WorkflowExecutor.t * World :=
  session [TransitionToPhase REFINEMENT "sketch is good" None true;
           RollbackToPhase SKETCH].

(** Strokes, a transition, a rollback to an id that does not exist, an
    evaluation and a checkpoint. *)
Definition busy_ops : list Op :=
  [draw 3%positive; TransitionToPhase REFINEMENT "" None true;
   RollbackToCheckpoint "checkpoint_0"; draw 4%positive;
   EvaluateAndDecideTransition [("quality", f_0_8)] f_0_7;
   TransitionToPhase RENDERING "" None true;
   CreateCheckpoint "" None].

(** A stroke in Sketch, on to Refinement, back to Sketch, one more stroke. *)
Definition revisit_session : list Event * WorkflowExecutor.t * World :=
  session [draw 3%positive; TransitionToPhase REFINEMENT "" None true;
           TransitionToPhase SKETCH "" None true; draw 4%positive].

(** ** Assumptions on the clock *)

(** Time moves on between two readings of the clock. *)
Definition clock_advances (w : World) : Prop :=
  forall i j : nat, (i < j)%nat -> clock w i < clock w j.

(** A clock that stands still, as between two readings within its
    resolution. *)
Definition stalled_world : World :=
  mkWorld (<[1%positive := ∅]> (<[2%positive := ∅]> ∅)) 3%positive
          (fun _ => 1000) 0 tally 0.

(** ** Chains of transitions *)

(** Every step of the chain [from -> t1 -> t2 -> ...] is in the table. *)
Fixpoint chain_valid (from_phase : DrawingPhase) (targets : list DrawingPhase)
    : bool :=
  match targets with
  | [] => true
  | t :: rest =>
      PhaseTransitionValidator.is_valid_transition from_phase t
      && chain_valid t rest
  end.

(** The phases passed on the way from one phase to another along the fixed
    order, the start excluded and the end included. *)
Definition route (from_phase to_phase : DrawingPhase) : list DrawingPhase :=
  match PhaseTransitionValidator.index PhaseTransitionValidator.phase_order
          from_phase,
        PhaseTransitionValidator.index PhaseTransitionValidator.phase_order
          to_phase with
  | Some i, Some j =>
      if bool_decide (i <= j)%nat
      then take (j - i) (drop (S i) PhaseTransitionValidator.phase_order)
      else reverse (take (i - j) (drop j PhaseTransitionValidator.phase_order))
  | _, _ => []
  end.

(** [transition_to_phase] to each target in turn; the results and the state. *)
Fixpoint transitions (targets : list DrawingPhase) (self : WorkflowState.t)
    : M (list bool * WorkflowState.t) :=
  match targets with
  | [] => mret ([], self)
  | t :: rest =>
      '(ok, self) ← WorkflowState.transition_to_phase self t "" None f_one;
      '(oks, self) ← transitions rest self;
      mret (ok :: oks, self)
  end.

(** ASCII lower case, which [str.lower] is on ASCII text. *)
Fixpoint ascii_lower (s : string) : string :=
  match s with
  | EmptyString => EmptyString
  | String c rest =>
      let n := Ascii.nat_of_ascii c in
      String (if Nat.leb 65 n && Nat.leb n 90
              then Ascii.ascii_of_nat (n + 32) else c)
             (ascii_lower rest)
  end.

(** ** Layers of a canvas *)

Definition layer_ids {R} (c : Canvas.t R) : list string :=
  map Layer.layer_id (Canvas.layers c).

(** The active layer id, if set, is the id of a layer of the canvas. *)
Definition active_layer_exists {R} (c : Canvas.t R) : Prop :=
  match Canvas.active_layer_id c with
  | Some id => id ∈ layer_ids c
  | None => True
  end.

(** A canvas with three layers, the middle one active. *)
Definition layered_canvas : Canvas.t loc :=
  Canvas.mk 800 600 "canvas-2" "Layers" (255, 255, 255, 255) 300
    [Layer.mk "Background" "bg" true false f_one NORMAL None 2%positive;
     Layer.mk "Sketch" "sk" true false f_one MULTIPLY None 3%positive;
     Layer.mk "Ink" "ink" true false f_one NORMAL None 4%positive]
    (Some "sk") 1%positive.

(** ** The transition history of a run *)

(** The record is a step that the transition table allows. *)
Definition record_valid (record : PhaseTransition.t) : bool :=
  PhaseTransitionValidator.is_valid_transition
    (PhaseTransition.from_phase record) (PhaseTransition.to_phase record).

(** Every record starts in the phase in which the one before it ended, the
    first one in [from_phase]. *)
Fixpoint history_linked (from_phase : DrawingPhase)
    (history : list PhaseTransition.t) : bool :=
  match history with
  | [] => true
  | record :: rest =>
      bool_decide (PhaseTransition.from_phase record = from_phase)
      && history_linked (PhaseTransition.to_phase record) rest
  end.

(** The number of records at the front of the list that stay in their
    phase. *)
Fixpoint leading_self_loops (history : list PhaseTransition.t) : nat :=
  match history with
  | [] => 0
  | record :: rest =>
      if decide (PhaseTransition.to_phase record
                 = PhaseTransition.from_phase record)
      then S (leading_self_loops rest)
      else 0
  end.

(** The number of records at the end of the history that stay in their
    phase. *)
Definition trailing_self_loops (history : list PhaseTransition.t) : nat :=
  leading_self_loops (reverse history).

(** The call was a transition that returned true. *)
Definition is_accepted (ev : Event) : bool :=
  match ev_result ev with
  | Transitioned true => true
  | _ => false
  end.

Definition accepted_transitions (events : list Event) : nat :=
  length (filter (fun ev => is_accepted ev = true) events).

(** ** The logger of a running workflow *)

(** The logs of [lg] are [closed] and then [log], the current one. *)
Definition logger_shape (lg : DecisionLogger.t)
    (closed : list PhaseDecisionLog.t) (log : PhaseDecisionLog.t) : Prop :=
  DecisionLogger.phase_logs lg = closed ++ [log]
  /\ DecisionLogger.current_log lg = Some (length closed).

(** The logger is in step with the workflow state: one closed log for each
    phase left, in order, and after them the open log of the phase entered
    last, which holds the strokes counted since. *)
Definition logger_in_step (self : WorkflowExecutor.t) : Prop :=
  match WorkflowExecutor.decision_logger self with
  | None => True
  | Some lg =>
      exists closed log,
        logger_shape lg closed log
        /\ PhaseDecisionLog.end_time log = None
        /\ Forall (fun l => PhaseDecisionLog.end_time l <> None) closed
        /\ map PhaseDecisionLog.phase (DecisionLogger.phase_logs lg)
           = SKETCH :: map PhaseTransition.to_phase
                         (WorkflowState.phase_history
                            (WorkflowExecutor.workflow_state self))
        /\ PhaseDecisionLog.get_stroke_count log
           = WorkflowState.phase_stroke_count
               (WorkflowExecutor.workflow_state self)
  end.

(** ** Rollbacks since the last accepted transition *)

(** Whether a rollback has returned true since the last transition that
    returned true, or since [flag] was taken if there is none. *)
Definition phase_flag_step (flag : bool) (ev : Event) : bool :=
  match ev_result ev with
  | Transitioned true => false
  | RolledBack (Returned true) => true
  | _ => flag
  end.

Definition rolled_back_since_transition (events : list Event) : bool :=
  fold_left phase_flag_step events false.

(** A transition to Refinement, back to the first checkpoint, and on to
    Refinement again. *)
Definition resumed_ops : list Op :=
  [TransitionToPhase REFINEMENT "sketch is good" None true;
   RollbackToPhase SKETCH;
   TransitionToPhase REFINEMENT "again" None false].

(** ** Checkpoints taken within one reading of the clock *)

(** The studio with a clock that stands still. *)
Definition stalled_studio : World :=
  mkWorld (heap studio_world) (next_loc studio_world) (fun _ => 1000) 0 tally 0.

(** One stroke, a checkpoint, two more strokes, on a new orchestrator, all
    within one reading of the clock. *)
Definition stalled_session : list Event * WorkflowExecutor.t * World :=
  let '(self, w) := WorkflowExecutor.create sample_canvas 10 true stalled_studio in
  run [draw 3%positive; CreateCheckpoint "After stroke 1" None;
       draw 4%positive; draw 5%positive] self w.

(** The id that [create_checkpoint] returned in [stalled_session]. *)
Definition stalled_id : string :=
  match stalled_session.1.1 !! 1%nat with
  | Some (mkEvent _ _ (CheckpointId id)) => id
  | _ => ""
  end.

(** Four checkpoints on a manager of capacity one, within one reading of the
    clock. *)
Definition stalled_creations
    : list CanvasCheckpoint.t * CheckpointManager.t * World :=
  create_checkpoints
    [sample_args SKETCH; sample_args REFINEMENT; sample_args STYLIZATION;
     sample_args RENDERING]
    (CheckpointManager.create 1) stalled_world.

(** ** Stamped strokes *)

(** The stroke's metadata holds a dictionary under ["workflow"], or nothing:
    the counting methods can read it. *)
Definition workflow_readable (h : gmap loc (gmap string pyval))
    (stroke : Stroke.t loc) : Prop :=
  match deref h (Stroke.metadata stroke) !! "workflow" with
  | Some (VDict _) | None => True
  | Some _ => False
  end.

(** Two strokes executed in Sketch, then on to Refinement. *)
Definition restamp_session : list Event * WorkflowExecutor.t * World :=
  session [draw 3%positive; draw 4%positive;
           TransitionToPhase REFINEMENT "" None false].

(* ================================================================== *)
(** * Properties *)

(** ** The state monad *)

Lemma bind_run {A B} (m : M A) (f : A -> M B) (w : World) :
  (m ≫= f) w = let '(a, w') := m w in f a w'.
Proof. reflexivity. Qed.

Lemma bind_run_eq {A B} (m : M A) (f : A -> M B) (w w' : World) (a : A) :
  m w = (a, w') -> (m ≫= f) w = f a w'.
Proof. intros E. rewrite bind_run. by rewrite E. Qed.

Lemma fmap_run {A B} (m : M A) (f : A -> B) (w : World) :
  (f <$> m) w = ((f (m w).1), (m w).2).
Proof. unfold fmap, M_fmap. by destruct (m w). Qed.

Lemma ret_run {A} (a : A) (w : World) : (mret a : M A) w = (a, w).
Proof. reflexivity. Qed.

(** Runs the first action of a bind and names its result. *)
Ltac step_bind a w' E :=
  match goal with
  | |- context [@mbind M _ _ _ ?f ?m ?w] =>
      destruct (m w) as [a w'] eqn:E;
      rewrite (bind_run_eq m f w w' a E)
  end.

(** ** Phase model *)

(** C1. [is_valid_transition] is true on exactly the thirteen pairs of the
    transition table of section 4.1, for all 25 ordered pairs of phases; a
    pair that skips a phase, such as Sketch -> Rendering, is rejected. *)
Theorem is_valid_transition_table (from_phase to_phase : DrawingPhase) :
  (PhaseTransitionValidator.is_valid_transition from_phase to_phase = true <->
   (from_phase, to_phase) ∈
     [ (SKETCH, SKETCH); (SKETCH, REFINEMENT);
       (REFINEMENT, SKETCH); (REFINEMENT, REFINEMENT); (REFINEMENT, STYLIZATION);
       (STYLIZATION, REFINEMENT); (STYLIZATION, STYLIZATION);
       (STYLIZATION, RENDERING);
       (RENDERING, STYLIZATION); (RENDERING, RENDERING); (RENDERING, COMPLETE);
       (COMPLETE, COMPLETE); (COMPLETE, RENDERING) ])
  /\ PhaseTransitionValidator.is_valid_transition SKETCH RENDERING = false.
Proof.
  split; [|reflexivity].
  destruct from_phase, to_phase; vm_compute; split;
    first [ discriminate | reflexivity | idtac ]; intros H;
    repeat (apply elem_of_cons in H as [H|H]; [discriminate H|]);
    try (by apply elem_of_nil in H);
    set_solver.
Qed.

(** A valid transition moves by at most one step in the fixed order. *)
Lemma valid_transition_adjacent (from_phase to_phase : DrawingPhase) :
  PhaseTransitionValidator.is_valid_transition from_phase to_phase = true ->
  from_phase = to_phase
  \/ PhaseTransitionValidator.is_forward_progression from_phase to_phase = true
  \/ PhaseTransitionValidator.is_regression from_phase to_phase = true.
Proof.
  destruct from_phase, to_phase; vm_compute; intros H;
    first [ discriminate H | by left | by right; left | by right; right ].
Qed.

(** ** Workflow state *)

(** A rejected transition, as an equation. *)
Lemma transition_rejected (self : WorkflowState.t)
    (new_phase : DrawingPhase) (reason : string) (metrics : option Metrics)
    (confidence : float) (w : World) :
  PhaseTransitionValidator.is_valid_transition
    (WorkflowState.current_phase self) new_phase = false ->
  WorkflowState.transition_to_phase self new_phase reason metrics confidence w
  = (false, self, w).
Proof.
  intros Hinv. unfold WorkflowState.transition_to_phase. by rewrite Hinv.
Qed.

(** C2. When [is_valid_transition(current_phase, new_phase)] is false,
    [transition_to_phase] returns false and leaves the whole workflow state
    as it was (phase, history, iteration and stroke counters); nothing is
    raised and not even the clock is read. *)
Theorem transition_to_phase_invalid (self : WorkflowState.t)
    (new_phase : DrawingPhase) (reason : string) (metrics : option Metrics)
    (confidence : float) (w : World) :
  PhaseTransitionValidator.is_valid_transition
    (WorkflowState.current_phase self) new_phase = false ->
  WorkflowState.transition_to_phase self new_phase reason metrics confidence w
  = (false, self, w).
Proof. apply transition_rejected. Qed.

Lemma transition_to_phase_invalid_witness :
  WorkflowState.transition_to_phase fresh_state RENDERING "" None f_one
    ticking_world
  = (false, fresh_state, ticking_world).
Proof. apply transition_to_phase_invalid. reflexivity. Defined.

(** What an accepted transition does, as an equation. *)
Lemma transition_accepted (self : WorkflowState.t)
    (new_phase : DrawingPhase) (reason : string) (metrics : option Metrics)
    (confidence : float) (w : World) :
  PhaseTransitionValidator.is_valid_transition
    (WorkflowState.current_phase self) new_phase = true ->
  WorkflowState.transition_to_phase self new_phase reason metrics confidence w
  = (true,
     WorkflowState.mk new_phase
       (WorkflowState.phase_history self ++
          [PhaseTransition.mk (WorkflowState.current_phase self) new_phase
             (clock w (ticks w)) reason (default [] metrics) confidence])
       (clock w (S (ticks w)))
       (if decide (new_phase = WorkflowState.current_phase self)
        then WorkflowState.iteration_in_phase self + 1 else 0)
       (WorkflowState.total_strokes self) 0
       (WorkflowState.workflow_id self) (WorkflowState.metadata self),
     mkWorld (heap w) (next_loc w) (clock w) (S (S (ticks w))) (uuids w)
             (drawn w)).
Proof.
  intros Hv. unfold WorkflowState.transition_to_phase. by rewrite Hv.
Qed.

(** C3. When the transition is valid, [transition_to_phase] returns true,
    appends exactly one record (from = old phase, to = target), makes the
    target the current phase, increments [iteration_in_phase] on a self-loop
    and resets it otherwise, and resets [phase_stroke_count] in every case.
    Hence three transitions to Sketch from a fresh Sketch state give
    iteration 3 and a history of length 3, and a following transition to
    Refinement gives iteration 0 and stroke count 0. *)
Theorem transition_to_phase_valid (self : WorkflowState.t)
    (new_phase : DrawingPhase) (reason : string) (metrics : option Metrics)
    (confidence : float) (w : World) :
  PhaseTransitionValidator.is_valid_transition
    (WorkflowState.current_phase self) new_phase = true ->
  (exists self' w' record,
     WorkflowState.transition_to_phase self new_phase reason metrics confidence w
       = (true, self', w')
     /\ WorkflowState.phase_history self'
          = WorkflowState.phase_history self ++ [record]
     /\ PhaseTransition.from_phase record = WorkflowState.current_phase self
     /\ PhaseTransition.to_phase record = new_phase
     /\ WorkflowState.current_phase self' = new_phase
     /\ WorkflowState.iteration_in_phase self'
          = (if decide (new_phase = WorkflowState.current_phase self)
             then WorkflowState.iteration_in_phase self + 1 else 0)
     /\ WorkflowState.phase_stroke_count self' = 0
     /\ WorkflowState.total_strokes self' = WorkflowState.total_strokes self)
  /\ (WorkflowState.current_phase self = SKETCH ->
      WorkflowState.iteration_in_phase self = 0 ->
      WorkflowState.phase_history self = [] ->
      let after3 :=
        then_transition SKETCH
          (then_transition SKETCH (then_transition SKETCH (self, w))) in
      let after4 := then_transition REFINEMENT after3 in
      WorkflowState.iteration_in_phase after3.1 = 3
      /\ length (WorkflowState.phase_history after3.1) = 3%nat
      /\ WorkflowState.current_phase after4.1 = REFINEMENT
      /\ WorkflowState.iteration_in_phase after4.1 = 0
      /\ WorkflowState.phase_stroke_count after4.1 = 0).
Proof.
  intros Hv. split.
  - eexists _, _, _. split; [by apply transition_accepted|].
    cbn. repeat split; reflexivity.
  - intros Hp Hi Hh. destruct self as [p h s i n c id m]. cbn in *. subst.
    cbn. repeat split; reflexivity.
Qed.

Lemma transition_to_phase_valid_witness :
  (exists self' w' record,
     WorkflowState.transition_to_phase fresh_state SKETCH "again" None f_one
       ticking_world = (true, self', w')
     /\ WorkflowState.phase_history self' = [] ++ [record]
     /\ WorkflowState.current_phase self' = SKETCH
     /\ WorkflowState.iteration_in_phase self' = 1)
  /\ WorkflowState.iteration_in_phase
       (then_transition SKETCH
          (then_transition SKETCH
             (then_transition SKETCH (fresh_state, ticking_world)))).1 = 3.
Proof.
  destruct (transition_to_phase_valid fresh_state SKETCH "again" None f_one
              ticking_world eq_refl)
    as [(self' & w' & record & H1 & H2 & _ & _ & H5 & H6 & _) Hscenario].
  split.
  - exists self', w', record. repeat split; assumption.
  - apply (Hscenario eq_refl eq_refl eq_refl).
Defined.

(** ** Recommendation of a transition *)

(** The code returns what the [recommendation] says and hands the metrics
    to the logger; nothing else changes. *)
Lemma evaluate_run (self : WorkflowExecutor.t) (metrics : Metrics)
    (quality_threshold : float) (w : World) :
  exists lg w',
    WorkflowExecutor.evaluate_and_decide_transition self metrics
      quality_threshold w
    = (recommendation (WorkflowExecutor.get_current_phase self)
         (WorkflowState.iteration_in_phase
            (WorkflowExecutor.workflow_state self)) metrics quality_threshold,
       WorkflowExecutor.set_decision_logger self lg, w').
Proof.
  unfold WorkflowExecutor.evaluate_and_decide_transition, recommendation,
    WorkflowExecutor.get_current_phase.
  step_bind lg w' E. exists lg, w'.
  destruct metrics as [|kv metrics]; [reflexivity|].
  destruct (f_ge _ _).
  - by destruct (WorkflowState.current_phase _).
  - destruct (f_lt _ _ && _); [|reflexivity].
    by destruct (WorkflowState.current_phase _).
Qed.

(** The mean is that of the compensated sum.  For 0.4, 1.0 and 0.7 plain
    addition from left to right gives less than 2.1 and a mean below 0.7;
    the compensated sum makes the mean reach the threshold 0.7, and Sketch
    is advised to move on. *)
Lemma mean_is_compensated :
  let metrics := [("line", f_0_4); ("form", f_one); ("tone", f_0_7)] in
  f_lt (PrimFloat.div (fold_left PrimFloat.add (map snd metrics) f_zero)
                      (py_len_float metrics)) f_0_7 = true
  /\ f_ge (mean metrics) f_0_7 = true
  /\ (WorkflowExecutor.evaluate_and_decide_transition (executor_at SKETCH 0)
        metrics f_0_7 sample_world).1.1 = Some REFINEMENT.
Proof. vm_compute. repeat split; reflexivity. Qed.

(** C7, as stated, fails in the Complete phase: with a poor average
    (0.2 < 0.4, below the threshold 0.7) after three iterations the claim
    asks for the previous phase in the fixed order, Rendering, and
    [evaluate_and_decide_transition] returns none. *)
Lemma evaluate_complete_stays :
  let metrics := [("quality", f_0_2)] in
  let self := executor_at COMPLETE 3 in
  f_ge (mean metrics) f_0_7 = false
  /\ f_lt (mean metrics) f_0_4 = true
  /\ 2 < WorkflowState.iteration_in_phase (WorkflowExecutor.workflow_state self)
  /\ previous_in_order (WorkflowExecutor.get_current_phase self) = Some RENDERING
  /\ (WorkflowExecutor.evaluate_and_decide_transition self metrics f_0_7
        sample_world).1.1 = None.
Proof. vm_compute. repeat split; reflexivity. Qed.

(** C7, amended.  [evaluate_and_decide_transition] returns none for empty
    metrics; otherwise the next phase in the fixed order when the mean is at
    least the threshold (none at Complete); else, when the mean is below 0.4
    and the iteration count exceeds 2, the previous phase from Refinement,
    Stylization or Rendering (none at Sketch and at Complete); none in every
    other case.  The workflow state, canvas, checkpoints and stroke history
    are not touched.  So Sketch with quality 0.8 gives Refinement, Rendering
    in iteration 3 with quality 0.2 gives Stylization, and quality 0.55 with
    threshold 0.7 gives none in every phase. *)
Theorem evaluate_and_decide_transition_spec (self : WorkflowExecutor.t)
    (metrics : Metrics) (quality_threshold : float) (w : World) :
  let r := WorkflowExecutor.evaluate_and_decide_transition self metrics
             quality_threshold w in
  r.1.1 = recommendation (WorkflowExecutor.get_current_phase self)
            (WorkflowState.iteration_in_phase
               (WorkflowExecutor.workflow_state self))
            metrics quality_threshold
  /\ WorkflowExecutor.workflow_state r.1.2 = WorkflowExecutor.workflow_state self
  /\ WorkflowExecutor.canvas r.1.2 = WorkflowExecutor.canvas self
  /\ WorkflowExecutor.checkpoint_manager r.1.2
     = WorkflowExecutor.checkpoint_manager self
  /\ WorkflowExecutor.stroke_history r.1.2 = WorkflowExecutor.stroke_history self
  /\ recommendation SKETCH
       (WorkflowState.iteration_in_phase (WorkflowExecutor.workflow_state self))
       [("quality", f_0_8)] f_0_7 = Some REFINEMENT
  /\ recommendation RENDERING 3 [("quality", f_0_2)] f_0_7 = Some STYLIZATION
  /\ recommendation (WorkflowExecutor.get_current_phase self)
       (WorkflowState.iteration_in_phase (WorkflowExecutor.workflow_state self))
       [("quality", f_0_55)] f_0_7 = None
  /\ recommendation (WorkflowExecutor.get_current_phase self)
       (WorkflowState.iteration_in_phase (WorkflowExecutor.workflow_state self))
       [] quality_threshold = None.
Proof.
  cbv zeta.
  destruct (evaluate_run self metrics quality_threshold w) as (lg & w' & Hrun).
  rewrite Hrun. cbn [fst snd].
  repeat split; reflexivity.
Qed.

(** ** Rollback *)

(** [Canvas.from_dict] leaves every existing dictionary alone: at most it
    allocates the dictionary of a default layer. *)
Lemma from_dict_keeps_heap (data : Canvas.dict loc) (w : World) (l : loc) :
  (l < next_loc w)%positive ->
  heap (Canvas.from_dict data w).2 !! l = heap w !! l.
Proof.
  intros Hl. unfold Canvas.from_dict.
  destruct (mapM Layer.from_dict (Canvas.d_layers data)) as [ls|]; [|reflexivity].
  destruct ls as [|l0 ls]; [|reflexivity].
  cbn. apply lookup_insert_ne. intros E. rewrite <- E in Hl. cbn in Hl. lia.
Qed.

(** Looking a checkpoint up by id does not depend on the rollback cursor. *)
Lemma rollback_manager_checkpoints (cm : CheckpointManager.t) (id : string) :
  CheckpointManager.checkpoints (CheckpointManager.rollback_to_checkpoint cm id).2
  = CheckpointManager.checkpoints cm
  /\ CheckpointManager.max_checkpoints
       (CheckpointManager.rollback_to_checkpoint cm id).2
     = CheckpointManager.max_checkpoints cm
  /\ (CheckpointManager.rollback_to_checkpoint cm id).1
     = CheckpointManager.get_checkpoint cm id.
Proof.
  unfold CheckpointManager.rollback_to_checkpoint,
    CheckpointManager.get_checkpoint.
  destruct (CheckpointManager.find_checkpoint cm id) as [[i cp]|]; by cbn.
Qed.

(** The shape of every run of the orchestrator's [rollback_to_checkpoint]. *)
Lemma rollback_to_checkpoint_run (self : WorkflowExecutor.t) (id : string)
    (w : World) :
  match CheckpointManager.get_checkpoint
          (WorkflowExecutor.checkpoint_manager self) id with
  | None =>
      WorkflowExecutor.rollback_to_checkpoint self id w = (Returned false, self, w)
  | Some cp =>
      exists cm,
        CheckpointManager.checkpoints cm
          = CheckpointManager.checkpoints (WorkflowExecutor.checkpoint_manager self)
        /\ CheckpointManager.max_checkpoints cm
          = CheckpointManager.max_checkpoints
              (WorkflowExecutor.checkpoint_manager self)
        /\ match (Canvas.from_dict (CanvasCheckpoint.canvas_state cp) w).1,
                 CheckpointManager.get_stroke_history_at_checkpoint cp with
           | Some c, Some history =>
               WorkflowExecutor.rollback_to_checkpoint self id w
               = (Returned true,
                  WorkflowExecutor.mk c
                    (WorkflowState.mk (CanvasCheckpoint.phase cp)
                       (WorkflowState.phase_history
                          (WorkflowExecutor.workflow_state self))
                       (CanvasCheckpoint.timestamp cp)
                       (WorkflowState.iteration_in_phase
                          (WorkflowExecutor.workflow_state self))
                       (Z.of_nat (length history))
                       (WorkflowState.phase_stroke_count
                          (WorkflowExecutor.workflow_state self))
                       (WorkflowState.workflow_id
                          (WorkflowExecutor.workflow_state self))
                       (WorkflowState.metadata
                          (WorkflowExecutor.workflow_state self)))
                    cm (WorkflowExecutor.decision_logger self) history,
                  (Canvas.from_dict (CanvasCheckpoint.canvas_state cp) w).2)
           | Some c, None =>
               WorkflowExecutor.rollback_to_checkpoint self id w
               = (Raised,
                  WorkflowExecutor.set_canvas
                    (WorkflowExecutor.set_checkpoint_manager self cm) c,
                  (Canvas.from_dict (CanvasCheckpoint.canvas_state cp) w).2)
           | None, _ =>
               WorkflowExecutor.rollback_to_checkpoint self id w
               = (Raised, WorkflowExecutor.set_checkpoint_manager self cm,
                  (Canvas.from_dict (CanvasCheckpoint.canvas_state cp) w).2)
           end
  end.
Proof.
  unfold WorkflowExecutor.rollback_to_checkpoint,
    CheckpointManager.rollback_to_checkpoint, CheckpointManager.get_checkpoint.
  destruct (CheckpointManager.find_checkpoint _ id) as [[i cp]|]; cbn.
  - exists (CheckpointManager.mk
              (CheckpointManager.checkpoints
                 (WorkflowExecutor.checkpoint_manager self))
              (CheckpointManager.max_checkpoints
                 (WorkflowExecutor.checkpoint_manager self)) (Z.of_nat i)).
    split; [|split]; [reflexivity..|]. cbn.
    unfold CheckpointManager.restore_checkpoint.
    destruct (Canvas.from_dict (CanvasCheckpoint.canvas_state cp) w)
      as [[c|] w'] eqn:E; cbn.
    + rewrite (bind_run_eq _ _ _ _ _ E).
      destruct (CheckpointManager.get_stroke_history_at_checkpoint cp);
        reflexivity.
    + rewrite (bind_run_eq _ _ _ _ _ E).
      destruct (CheckpointManager.get_stroke_history_at_checkpoint cp);
        reflexivity.
  - by destruct self as [c ws [cps k idx] lg h].
Qed.

(** *** Serialisation round trips *)

Lemma blend_mode_round_trip (b : BlendMode) :
  blend_mode_of_value (blend_mode_value b) = Some b.
Proof. by destruct b. Qed.

Lemma stroke_type_round_trip (s : StrokeType) :
  stroke_type_of_value (stroke_type_value s) = Some s.
Proof. by destruct s. Qed.

Lemma layer_round_trip {R} (l : Layer.t R) :
  Layer.from_dict (Layer.to_dict l) = Some l.
Proof.
  destruct l. unfold Layer.from_dict, Layer.to_dict. cbn.
  by rewrite blend_mode_round_trip.
Qed.

Lemma stroke_round_trip {R} (s : Stroke.t R) :
  Stroke.from_dict (Stroke.to_dict s) = Some s.
Proof.
  destruct s. unfold Stroke.from_dict, Stroke.to_dict. cbn.
  by rewrite stroke_type_round_trip.
Qed.

Lemma mapM_round_trip {A B} (f : A -> option B) (g : B -> A) (l : list B) :
  (forall x, f (g x) = Some x) -> mapM f (map g l) = Some l.
Proof.
  intros Hfg. induction l as [|x l IH]; [reflexivity|].
  cbn. rewrite Hfg. cbn. by rewrite IH.
Qed.

Lemma stroke_history_round_trip (cp : CanvasCheckpoint.t) (c : Canvas.t loc)
    (history : list (Stroke.t loc)) :
  created_from cp c history ->
  CheckpointManager.get_stroke_history_at_checkpoint cp = Some history.
Proof.
  intros [_ Hs]. unfold CheckpointManager.get_stroke_history_at_checkpoint.
  rewrite Hs. apply mapM_round_trip, @stroke_round_trip.
Qed.

(** Restoring what [to_dict] built gives the canvas back; a canvas without
    layers comes back with a fresh default layer. *)
Lemma canvas_round_trip (c : Canvas.t loc) (w : World) :
  Canvas.from_dict (Canvas.to_dict c) w =
    match Canvas.layers c with
    | [] => ((Some <$> Canvas.post_init c) : M _) w
    | _ :: _ => (Some c, w)
    end.
Proof.
  unfold Canvas.from_dict, Canvas.to_dict. cbn.
  rewrite (mapM_round_trip _ _ _ (@layer_round_trip loc)).
  destruct c as [wd ht id nm bg dpi ls act meta]. cbn.
  destruct ls; reflexivity.
Qed.

Lemma canvas_round_trip_ok (c : Canvas.t loc) (w : World) :
  exists c', (Canvas.from_dict (Canvas.to_dict c) w).1 = Some c'.
Proof.
  rewrite canvas_round_trip.
  destruct (Canvas.layers c); [rewrite fmap_run|]; eexists; reflexivity.
Qed.

(** *** Lookup by id *)

Lemma get_checkpoint_None (cm : CheckpointManager.t) (id : string) :
  CheckpointManager.get_checkpoint cm id = None <->
  id ∉ stored_ids cm.
Proof.
  unfold CheckpointManager.get_checkpoint, CheckpointManager.find_checkpoint,
    stored_ids.
  rewrite fmap_None, list_find_None, Forall_forall.
  split.
  - intros H Hin. apply list_elem_of_In, in_map_iff in Hin as (cp & <- & Hcp).
    apply list_elem_of_In in Hcp. by apply (H cp).
  - intros H cp Hcp Heq. apply H, list_elem_of_In, in_map_iff.
    exists cp. split; [done|]. by apply list_elem_of_In.
Qed.

(** With pairwise distinct ids, the lookup finds the checkpoint asked for. *)
Lemma get_checkpoint_unique (cm : CheckpointManager.t) (cp : CanvasCheckpoint.t) :
  NoDup (stored_ids cm) ->
  cp ∈ CheckpointManager.checkpoints cm ->
  CheckpointManager.get_checkpoint cm (CanvasCheckpoint.checkpoint_id cp)
  = Some cp.
Proof.
  unfold CheckpointManager.get_checkpoint, CheckpointManager.find_checkpoint,
    stored_ids.
  induction (CheckpointManager.checkpoints cm) as [|c cps IH]; intros Hnd Hin.
  - by apply elem_of_nil in Hin.
  - cbn in Hnd. apply NoDup_cons in Hnd as [Hc Hnd].
    cbn. destruct (decide _) as [Heq|Hne]; cbn.
    + apply elem_of_cons in Hin as [->|Hin]; [done|].
      exfalso. apply Hc. rewrite Heq.
      apply list_elem_of_In, in_map. by apply list_elem_of_In.
    + apply elem_of_cons in Hin as [->|Hin]; [done|].
      specialize (IH Hnd Hin). rewrite fmap_Some in IH.
      destruct IH as ([i x] & Hfind & ->). cbn in *.
      by rewrite Hfind.
Qed.

(** *** Creating a checkpoint *)

Lemma create_checkpoint_run (self : CheckpointManager.t) (canvas : Canvas.t loc)
    (phase : DrawingPhase) (history : list (Stroke.t loc)) (description : string)
    (metadata : option Fields) (w : World) :
  CheckpointManager.create_checkpoint self canvas phase history description
    metadata w
  = let cp := made_checkpoint w canvas phase history description metadata in
    (cp,
     CheckpointManager.mk
       (stored_after (CheckpointManager.max_checkpoints self)
          (CheckpointManager.checkpoints self) cp)
       (CheckpointManager.max_checkpoints self)
       (let index :=
          Z.of_nat (length (CheckpointManager.checkpoints self ++ [cp])) - 1 in
        if bool_decide (CheckpointManager.max_checkpoints self
                        < Z.of_nat (length (CheckpointManager.checkpoints self
                                            ++ [cp])))
        then index - 1 else index),
     after_ticks 2 w).
Proof.
  unfold CheckpointManager.create_checkpoint, stored_after, made_checkpoint.
  cbv [mbind M_bind now mret M_ret]. cbn.
  rewrite !length_app. by case_bool_decide.
Qed.

(** *** What a rollback changes and what it keeps *)

(** C9. A successful [rollback_to_checkpoint] leaves the checkpoint store
    as it is: the same checkpoints in the same order, the same count, the
    same answer to every later lookup, and no stored dictionary touched.
    Of the workflow state only the current phase, the phase start time and
    the total stroke count are overwritten from the checkpoint;
    [phase_stroke_count], the iteration counter and the transition history
    stay. *)
Theorem rollback_keeps_store (self self' : WorkflowExecutor.t) (id : string)
    (w w' : World) :
  WorkflowExecutor.rollback_to_checkpoint self id w = (Returned true, self', w') ->
  let cm := WorkflowExecutor.checkpoint_manager self in
  let cm' := WorkflowExecutor.checkpoint_manager self' in
  let ws := WorkflowExecutor.workflow_state self in
  let ws' := WorkflowExecutor.workflow_state self' in
  CheckpointManager.checkpoints cm' = CheckpointManager.checkpoints cm
  /\ CheckpointManager.get_checkpoint_count cm'
     = CheckpointManager.get_checkpoint_count cm
  /\ (forall id', CheckpointManager.get_checkpoint cm' id'
                 = CheckpointManager.get_checkpoint cm id')
  /\ (forall l, (l < next_loc w)%positive -> heap w' !! l = heap w !! l)
  /\ WorkflowState.phase_stroke_count ws' = WorkflowState.phase_stroke_count ws
  /\ WorkflowState.iteration_in_phase ws' = WorkflowState.iteration_in_phase ws
  /\ WorkflowState.phase_history ws' = WorkflowState.phase_history ws
  /\ exists cp,
       CheckpointManager.get_checkpoint cm id = Some cp
       /\ WorkflowState.current_phase ws' = CanvasCheckpoint.phase cp
       /\ WorkflowState.phase_start_time ws' = CanvasCheckpoint.timestamp cp
       /\ WorkflowState.total_strokes ws'
          = Z.of_nat (length (WorkflowExecutor.stroke_history self')).
Proof.
  intros Hrun. pose proof (rollback_to_checkpoint_run self id w) as H.
  destruct (CheckpointManager.get_checkpoint _ id) as [cp|] eqn:Hget;
    [|congruence].
  destruct H as (cm & Hcps & Hmax & H).
  pose proof (from_dict_keeps_heap (CanvasCheckpoint.canvas_state cp) w) as Hheap.
  destruct (Canvas.from_dict (CanvasCheckpoint.canvas_state cp) w) as [[c|] w1];
    cbn in H; [|congruence].
  destruct (CheckpointManager.get_stroke_history_at_checkpoint cp) as [history|];
    [|congruence].
  rewrite H in Hrun. injection Hrun as <- <-. cbn.
  split; [done|]. split.
  { unfold CheckpointManager.get_checkpoint_count. by rewrite Hcps. }
  split.
  { intros id'. unfold CheckpointManager.get_checkpoint,
      CheckpointManager.find_checkpoint. by rewrite Hcps. }
  split; [exact Hheap|].
  repeat (split; [reflexivity|]).
  exists cp. by repeat split.
Qed.

Lemma rollback_keeps_store_witness :
  let r := WorkflowExecutor.rollback_to_checkpoint saved_session.1.2 saved_id
             saved_session.2 in
  CheckpointManager.checkpoints (WorkflowExecutor.checkpoint_manager r.1.2)
  = CheckpointManager.checkpoints
      (WorkflowExecutor.checkpoint_manager saved_session.1.2)
  /\ WorkflowState.phase_stroke_count (WorkflowExecutor.workflow_state r.1.2) = 3.
Proof.
  cbv zeta.
  destruct (WorkflowExecutor.rollback_to_checkpoint saved_session.1.2 saved_id
              saved_session.2) as [[o self'] w'] eqn:E.
  assert (Ho : o = Returned true).
  { apply (f_equal (fun r => r.1.1)) in E. cbn in E. rewrite <- E.
    vm_compute. reflexivity. }
  subst o.
  destruct (rollback_keeps_store _ _ _ _ _ E) as (H1 & _ & _ & _ & H5 & _).
  split; [exact H1|]. cbn. rewrite H5. vm_compute. reflexivity.
Defined.

(** C5.  [rollback_to_checkpoint] restores the first stored checkpoint with
    the id, and ids are not unique: they are made of the clock reading
    alone.  A new orchestrator executes one stroke, takes a checkpoint and
    executes two more strokes, all within one reading of the clock.  The
    checkpoint stored for the returned id was created at history length 1;
    the initial checkpoint, created at length 0, has the same id and is
    stored before it.  [rollback_to_checkpoint] with the returned id returns
    true and leaves a stroke history of length 0 and [total_strokes] 0. *)
Theorem rollback_with_repeated_id :
  let self := stalled_session.1.2 in
  let cm := WorkflowExecutor.checkpoint_manager self in
  let r := WorkflowExecutor.rollback_to_checkpoint self stalled_id
             stalled_session.2 in
  map ev_result stalled_session.1.1 !! 1%nat = Some (CheckpointId stalled_id)
  /\ map (fun cp => (CanvasCheckpoint.checkpoint_id cp,
                     length (CanvasCheckpoint.stroke_history cp)))
         (CheckpointManager.checkpoints cm)
     = [(stalled_id, 0%nat); (stalled_id, 1%nat)]
  /\ length (WorkflowExecutor.stroke_history self) = 3%nat
  /\ r.1.1 = Returned true
  /\ length (WorkflowExecutor.stroke_history r.1.2) = 0%nat
  /\ WorkflowState.total_strokes (WorkflowExecutor.workflow_state r.1.2) = 0.
Proof. cbv zeta. repeat split; vm_compute; reflexivity. Qed.

(** Where the stored ids are pairwise distinct, the rollback does what is
    asked of it.  [rollback_to_checkpoint] with an id that no stored
    checkpoint has returns false and changes nothing (canvas, stroke
    history, workflow state, checkpoint store, world).  With the id of a
    stored checkpoint that was created when the stroke history was
    [history] (of length S), it returns true, and afterwards the stroke
    history is [history] again, so of length S, and [total_strokes] is S,
    whatever was executed in between.  The last part says that
    [create_checkpoint] stores exactly the history of that moment. *)
Theorem rollback_restores_history (self : WorkflowExecutor.t) (id : string)
    (w : World) :
  let cm := WorkflowExecutor.checkpoint_manager self in
  (id ∉ stored_ids cm ->
   WorkflowExecutor.rollback_to_checkpoint self id w = (Returned false, self, w))
  /\ (forall cp c history,
        cp ∈ CheckpointManager.checkpoints cm ->
        CanvasCheckpoint.checkpoint_id cp = id ->
        NoDup (stored_ids cm) ->
        created_from cp c history ->
        exists self' w',
          WorkflowExecutor.rollback_to_checkpoint self id w
            = (Returned true, self', w')
          /\ WorkflowExecutor.stroke_history self' = history
          /\ length (WorkflowExecutor.stroke_history self') = length history
          /\ WorkflowState.total_strokes (WorkflowExecutor.workflow_state self')
             = Z.of_nat (length history))
  /\ (forall description metadata,
        let r := WorkflowExecutor.create_checkpoint self description metadata w in
        exists cp,
          CanvasCheckpoint.checkpoint_id cp = r.1.1
          /\ created_from cp (WorkflowExecutor.canvas self)
               (WorkflowExecutor.stroke_history self)
          /\ (1 <= CheckpointManager.max_checkpoints cm ->
              last (CheckpointManager.checkpoints
                      (WorkflowExecutor.checkpoint_manager r.1.2)) = Some cp)).
Proof.
  cbv zeta. split; [|split].
  - intros Hid. apply get_checkpoint_None in Hid.
    pose proof (rollback_to_checkpoint_run self id w) as H.
    by rewrite Hid in H.
  - intros cp c history Hin <- Hnd Hfrom.
    pose proof (rollback_to_checkpoint_run self
                  (CanvasCheckpoint.checkpoint_id cp) w) as H.
    rewrite (get_checkpoint_unique _ _ Hnd Hin) in H.
    destruct H as (cm & _ & _ & H).
    rewrite (stroke_history_round_trip _ _ _ Hfrom) in H.
    destruct Hfrom as [Hc _]. rewrite Hc in H.
    destruct (canvas_round_trip_ok c w) as [c' Hc'].
    rewrite Hc' in H. eexists _, _. split; [exact H|]. by cbn.
  - intros description metadata.
    unfold WorkflowExecutor.create_checkpoint.
    rewrite (bind_run_eq _ _ _ _ _ (create_checkpoint_run _ _ _ _ _ _ _)).
    cbn.
    exists (made_checkpoint w (WorkflowExecutor.canvas self)
              (WorkflowState.current_phase (WorkflowExecutor.workflow_state self))
              (WorkflowExecutor.stroke_history self) description metadata).
    split; [reflexivity|]. split; [by split|]. intros Hmax.
    unfold stored_after. case_bool_decide as Hfull; [|by rewrite last_snoc].
    destruct (CheckpointManager.checkpoints
                (WorkflowExecutor.checkpoint_manager self)) as [|c0 cps];
      [cbn in Hfull; lia|].
    cbn. by rewrite last_snoc.
Qed.

Lemma rollback_restores_history_witness :
  exists self' w',
    WorkflowExecutor.rollback_to_checkpoint saved_session.1.2 saved_id
      saved_session.2 = (Returned true, self', w')
    /\ length (WorkflowExecutor.stroke_history saved_session.1.2) = 3%nat
    /\ length (WorkflowExecutor.stroke_history self') = 1%nat.
Proof.
  destruct (rollback_restores_history saved_session.1.2 saved_id
              saved_session.2) as (_ & H & _).
  destruct (H saved_checkpoint sample_canvas [sample_stroke 3%positive])
    as (self' & w' & Hrun & _ & Hlen & _).
  - apply list_elem_of_lookup. exists 1%nat. vm_compute. reflexivity.
  - vm_compute. reflexivity.
  - apply (bool_decide_unpack (NoDup _)). vm_compute. exact I.
  - split; vm_compute; reflexivity.
  - exists self', w'. split; [exact Hrun|]. split; [|exact Hlen].
    vm_compute. reflexivity.
Defined.

(** ** The bounded checkpoint store *)

(** One creation appends, then drops the oldest if the capacity is exceeded. *)
Lemma stored_after_drop (k : Z) (stored : list CanvasCheckpoint.t)
    (cp : CanvasCheckpoint.t) :
  0 <= k -> Z.of_nat (length stored) <= k ->
  stored_after k stored cp
  = drop (length (stored ++ [cp]) - Z.to_nat k) (stored ++ [cp])
  /\ Z.of_nat (length (stored_after k stored cp)) <= k.
Proof.
  intros Hk Hlen. unfold stored_after. rewrite length_app. cbn [length].
  case_bool_decide as Hfull.
  - assert (length stored = Z.to_nat k) as Hfull' by lia.
    replace (length stored + 1 - Z.to_nat k)%nat with 1%nat by lia.
    split; [by destruct (stored ++ [cp])|].
    destruct stored; cbn in *; [lia|].
    rewrite length_app. cbn. lia.
  - replace (length stored + 1 - Z.to_nat k)%nat with 0%nat by lia.
    split; [reflexivity|]. rewrite length_app. cbn. lia.
Qed.

(** Keeping the newest [k] elements twice is keeping them once. *)
Lemma drop_newest {A} (k : nat) (l rest : list A) :
  drop (length (drop (length l - k) l ++ rest) - k)
       (drop (length l - k) l ++ rest)
  = drop (length (l ++ rest) - k) (l ++ rest).
Proof.
  destruct (le_lt_dec (length l) k) as [Hle|Hgt].
  - replace (length l - k)%nat with 0%nat by lia. by rewrite drop_0.
  - rewrite <- (drop_app_le l rest (length l - k)) by lia.
    rewrite drop_drop. f_equal.
    rewrite length_drop, !length_app. lia.
Qed.

(** After any number of creations the store holds the newest [k] of what it
    held and what was created, oldest first. *)
Lemma create_checkpoints_drop (args : list CheckpointArgs)
    (self : CheckpointManager.t) (w : World) :
  let k := CheckpointManager.max_checkpoints self in
  let r := create_checkpoints args self w in
  0 <= k -> Z.of_nat (length (CheckpointManager.checkpoints self)) <= k ->
  length r.1.1 = length args
  /\ CheckpointManager.max_checkpoints r.1.2 = k
  /\ CheckpointManager.checkpoints r.1.2
     = drop (length (CheckpointManager.checkpoints self ++ r.1.1) - Z.to_nat k)
            (CheckpointManager.checkpoints self ++ r.1.1).
Proof.
  cbv zeta. revert self w.
  induction args as [|a args IH]; intros self w Hk Hlen.
  - cbn. rewrite app_nil_r. split; [done|]. split; [done|].
    replace (_ - _)%nat with 0%nat by lia. reflexivity.
  - cbn [create_checkpoints].
    rewrite (bind_run_eq _ _ _ _ _ (create_checkpoint_run _ _ _ _ _ _ _)).
    cbv zeta.
    set (cp := made_checkpoint w _ _ _ _ _).
    set (self1 := CheckpointManager.mk _ _ _).
    destruct (stored_after_drop _ (CheckpointManager.checkpoints self) cp Hk Hlen)
      as [Hdrop Hlen1].
    specialize (IH self1 (after_ticks 2 w) Hk Hlen1).
    rewrite bind_run.
    destruct (create_checkpoints args self1 (after_ticks 2 w))
      as [[created self2] w2].
    cbn in IH |- *. destruct IH as (IH1 & IH2 & IH3).
    split; [by rewrite IH1|]. split; [done|].
    rewrite IH3, Hdrop.
    replace (CheckpointManager.checkpoints self ++ cp :: created)
      with ((CheckpointManager.checkpoints self ++ [cp]) ++ created)
      by (by rewrite <- app_assoc).
    apply drop_newest.
Qed.

(** The ids of the checkpoints created in a row are made of every second
    reading of the clock. *)
Lemma create_checkpoints_ids (args : list CheckpointArgs)
    (self : CheckpointManager.t) (w : World) :
  map CanvasCheckpoint.checkpoint_id (create_checkpoints args self w).1.1
  = map (fun i => "checkpoint_" +:+ pretty (clock w (ticks w + 2 * i)%nat))
        (seq 0 (length args)).
Proof.
  revert self w. induction args as [|a args IH]; intros self w; [reflexivity|].
  cbn [create_checkpoints].
  rewrite (bind_run_eq _ _ _ _ _ (create_checkpoint_run _ _ _ _ _ _ _)).
  cbv zeta. rewrite bind_run.
  match goal with
  | |- context [create_checkpoints args ?s ?w1] =>
      specialize (IH s w1); destruct (create_checkpoints args s w1)
        as [[created self2] w2]
  end.
  cbv [mret M_ret]. cbn [fst snd length seq map] in *.
  rewrite IH. f_equal.
  - cbn. by rewrite Nat.add_0_r.
  - rewrite <- seq_shift, map_map. apply map_ext. intros i.
    cbn [after_ticks clock ticks].
    by replace (2 + ticks w + 2 * i)%nat with (ticks w + 2 * S i)%nat by lia.
Qed.

Lemma checkpoint_id_inj (a b : Z) :
  "checkpoint_" +:+ pretty a = "checkpoint_" +:+ pretty b -> a = b.
Proof. intros H. cbn in H. injection H as H. by apply (inj pretty). Qed.

(** Under an advancing clock no two of them are the same. *)
Lemma create_checkpoints_ids_distinct (args : list CheckpointArgs)
    (self : CheckpointManager.t) (w : World) :
  clock_advances w ->
  NoDup (map CanvasCheckpoint.checkpoint_id (create_checkpoints args self w).1.1).
Proof.
  intros Hclock. rewrite create_checkpoints_ids.
  apply (NoDup_fmap_2_strong
           (fun i => "checkpoint_" +:+ pretty (clock w (ticks w + 2 * i)%nat)));
    [|apply NoDup_seq].
  intros i j _ _ Heq. apply checkpoint_id_inj in Heq.
  destruct (Nat.lt_trichotomy i j) as [Hlt|[->|Hgt]]; [|done|].
  - pose proof (Hclock (ticks w + 2 * i)%nat (ticks w + 2 * j)%nat). lia.
  - pose proof (Hclock (ticks w + 2 * j)%nat (ticks w + 2 * i)%nat). lia.
Qed.

(** With a stalled clock two checkpoints share their id, and the lookup by
    that id answers with the older one. *)
Lemma stalled_clock_repeats_id :
  let r := create_checkpoints [sample_args SKETCH; sample_args REFINEMENT]
             (CheckpointManager.create 10) stalled_world in
  map CanvasCheckpoint.checkpoint_id r.1.1
    = ["checkpoint_1000"; "checkpoint_1000"]
  /\ CanvasCheckpoint.phase
       <$> CheckpointManager.get_checkpoint r.1.2 "checkpoint_1000"
     = Some SKETCH.
Proof. cbv zeta. split; vm_compute; reflexivity. Qed.

(** C6.  The ids of evicted checkpoints can still be found, because ids
    are not unique: they are made of the clock reading alone.  Four
    checkpoints are created on a manager of capacity 1 within one reading
    of the clock.  One checkpoint is left, the newest, and the three
    evicted ones have its id: [get_checkpoint] with the id of each of them
    returns the checkpoint that is left. *)
Theorem evicted_id_still_found :
  let created := stalled_creations.1.1 in
  let cm := stalled_creations.1.2 in
  CheckpointManager.get_checkpoint_count cm = 1
  /\ CheckpointManager.checkpoints cm = drop 3 created
  /\ map CanvasCheckpoint.phase (CheckpointManager.checkpoints cm) = [RENDERING]
  /\ map CanvasCheckpoint.phase (take 3 created)
     = [SKETCH; REFINEMENT; STYLIZATION]
  /\ map (fun cp =>
            CanvasCheckpoint.phase
              <$> CheckpointManager.get_checkpoint cm
                    (CanvasCheckpoint.checkpoint_id cp))
         (take 3 created)
     = [Some RENDERING; Some RENDERING; Some RENDERING].
Proof. cbv zeta. repeat split; vm_compute; reflexivity. Qed.

(** Where the ids are pairwise distinct, the store is bounded as asked.
    With capacity [k >= 1], creating [k + 3] checkpoints on a new manager
    leaves [k] of them: the [k] most recent, in creation order; the ids of
    the three oldest are no longer found (checkpoint ids being pairwise
    distinct, as they are when the clock advances between two creations).
    Any single creation, on any manager, removes at most one checkpoint,
    and that one from the front. *)
Theorem create_checkpoints_bounded (k : Z) (args : list CheckpointArgs)
    (w : World) :
  1 <= k ->
  Z.of_nat (length args) = k + 3 ->
  let r := create_checkpoints args (CheckpointManager.create k) w in
  let created := r.1.1 in
  let cm := r.1.2 in
  CheckpointManager.get_checkpoint_count cm = k
  /\ CheckpointManager.checkpoints cm = drop 3 created
  /\ length created = length args
  /\ (NoDup (map CanvasCheckpoint.checkpoint_id created) ->
      forall cp, cp ∈ take 3 created ->
        CheckpointManager.get_checkpoint cm (CanvasCheckpoint.checkpoint_id cp)
        = None)
  /\ (clock_advances w ->
      NoDup (map CanvasCheckpoint.checkpoint_id created))
  /\ (forall (self : CheckpointManager.t) a w0,
        let r1 := CheckpointManager.create_checkpoint self (arg_canvas a)
                    (arg_phase a) (arg_stroke_history a) (arg_description a)
                    (arg_metadata a) w0 in
        exists evicted,
          (length evicted <= 1)%nat
          /\ evicted ++ CheckpointManager.checkpoints r1.1.2
             = CheckpointManager.checkpoints self ++ [r1.1.1]).
Proof.
  intros Hk Hn. cbv zeta.
  destruct (create_checkpoints_drop args (CheckpointManager.create k) w)
    as (Hlen & Hmax & Hcps); [cbn; lia..|].
  cbn in Hcps, Hmax.
  replace (length _ - Z.to_nat k)%nat with 3%nat in Hcps by lia.
  split; [|split; [done|split; [done|split; [|split]]]].
  - unfold CheckpointManager.get_checkpoint_count.
    rewrite Hcps, length_drop. lia.
  - intros Hnd cp Hin. apply get_checkpoint_None. unfold stored_ids.
    rewrite Hcps.
    rewrite <- (take_drop 3 (create_checkpoints _ _ _).1.1), map_app in Hnd.
    apply NoDup_app in Hnd as (_ & Hdisj & _). apply Hdisj.
    apply list_elem_of_In, in_map. by apply list_elem_of_In.
  - apply create_checkpoints_ids_distinct.
  - intros self a w0. rewrite create_checkpoint_run. cbn.
    unfold stored_after. case_bool_decide.
    + destruct (CheckpointManager.checkpoints self) as [|c0 cps]; cbn.
      * exists [made_checkpoint w0 (arg_canvas a) (arg_phase a)
                  (arg_stroke_history a) (arg_description a) (arg_metadata a)].
        split; [cbn; lia|done].
      * exists [c0]. split; [cbn; lia|done].
    + exists []. split; [cbn; lia|done].
Qed.

Lemma create_checkpoints_bounded_witness :
  let r := create_checkpoints
             [sample_args SKETCH; sample_args SKETCH; sample_args REFINEMENT;
              sample_args STYLIZATION; sample_args RENDERING]
             (CheckpointManager.create 2) studio_world in
  CheckpointManager.get_checkpoint_count r.1.2 = 2
  /\ map CanvasCheckpoint.phase (CheckpointManager.checkpoints r.1.2)
     = [STYLIZATION; RENDERING]
  /\ CheckpointManager.get_checkpoint r.1.2 "checkpoint_1000" = None.
Proof.
  cbv zeta.
  destruct (create_checkpoints_bounded 2
              [sample_args SKETCH; sample_args SKETCH; sample_args REFINEMENT;
               sample_args STYLIZATION; sample_args RENDERING] studio_world)
    as (Hcount & Hcps & _ & Hgone & Hdistinct & _); [lia|reflexivity|].
  split; [exact Hcount|]. split.
  - rewrite Hcps. vm_compute. reflexivity.
  - refine (Hgone _ (made_checkpoint studio_world sample_canvas SKETCH [] "" None) _).
    + apply Hdistinct. intros i j Hij. cbn. lia.
    + apply list_elem_of_lookup. exists 0%nat. vm_compute. reflexivity.
Defined.

(** ** Checkpoints and the live objects *)

(** The stored canvas state reads the store only at the metadata
    dictionaries of the canvas and of its layers. *)
Lemma dict_value_frame (h h' : gmap loc (gmap string pyval))
    (d : Canvas.dict loc) :
  deref h (Canvas.d_metadata d) = deref h' (Canvas.d_metadata d) ->
  Forall (fun l => deref h (Layer.d_metadata l) = deref h' (Layer.d_metadata l))
         (Canvas.d_layers d) ->
  Canvas.dict_value h d = Canvas.dict_value h' d.
Proof.
  intros Hm Hl. unfold Canvas.dict_value, Canvas.map_meta_dict.
  rewrite Hm. f_equal.
  induction Hl as [|l ls Hl _ IH]; [reflexivity|].
  cbn. rewrite IH. f_equal. unfold Layer.map_meta_dict. by rewrite Hl.
Qed.

(** Restoring a fresh checkpoint of a canvas that has a layer returns that
    canvas, field for field, with the very same dictionaries. *)
Lemma restore_fresh_checkpoint (w w' : World) (c : Canvas.t loc)
    (phase : DrawingPhase) (history : list (Stroke.t loc))
    (description : string) (metadata : option Fields) :
  Canvas.layers c <> [] ->
  CheckpointManager.restore_checkpoint
    (made_checkpoint w c phase history description metadata) w'
  = (Some c, w').
Proof.
  intros Hl. unfold CheckpointManager.restore_checkpoint, made_checkpoint. cbn.
  rewrite canvas_round_trip. by destruct (Canvas.layers c).
Qed.

(** A canvas without layers does not come back as it was: the restored
    canvas has a new default layer and an active layer id. *)
Lemma restore_bare_canvas :
  let r := CheckpointManager.create_checkpoint (CheckpointManager.create 10)
             bare_canvas SKETCH [] "" None studio_world in
  let restored := CheckpointManager.restore_checkpoint r.1.1 r.2 in
  Canvas.layers bare_canvas = []
  /\ (length ∘ Canvas.layers) <$> restored.1 = Some 1%nat
  /\ (Canvas.value (heap restored.2) <$> restored.1)
     <> Some (Canvas.value (heap r.2) bare_canvas).
Proof.
  cbv zeta. split; [reflexivity|]. split; [vm_compute; reflexivity|].
  intros H.
  apply (f_equal (fun o => (length ∘ Canvas.layers) <$> o)) in H.
  vm_compute in H. discriminate H.
Qed.

(** C4 fails on the code.  A checkpoint of [sample_canvas] with one stroke
    is taken and restored at once; the restored canvas equals the live one.
    The caller then sets a key in [canvas.metadata] and one in the stroke's
    [metadata].  Both writes show in the checkpoint's stored [canvas_state]
    and [stroke_history] and in the canvas restored earlier: [to_dict] and
    [from_dict] pass the metadata dictionaries on by reference. *)
Theorem checkpoint_shares_metadata :
  let r := CheckpointManager.create_checkpoint (CheckpointManager.create 10)
             sample_canvas SKETCH [sample_stroke 3%positive] "" None
             studio_world in
  let cp := r.1.1 in
  let restored := CheckpointManager.restore_checkpoint cp r.2 in
  let w1 := restored.2 in
  let w2 := (Canvas.set_metadata sample_canvas "mood" (VStr "dark") w1).2 in
  let w3 := (Stroke.set_metadata (sample_stroke 3%positive) "note"
               (VStr "late") w2).2 in
  (Canvas.value (heap w1) <$> restored.1)
    = Some (Canvas.value (heap r.2) sample_canvas)
  /\ Canvas.d_metadata
       (Canvas.dict_value (heap w1) (CanvasCheckpoint.canvas_state cp))
       !! "mood" = None
  /\ Canvas.d_metadata
       (Canvas.dict_value (heap w2) (CanvasCheckpoint.canvas_state cp))
       !! "mood" = Some (VStr "dark")
  /\ Canvas.dict_value (heap w2) (CanvasCheckpoint.canvas_state cp)
     <> Canvas.dict_value (heap w1) (CanvasCheckpoint.canvas_state cp)
  /\ (Canvas.value (heap w2) <$> restored.1)
     <> (Canvas.value (heap w1) <$> restored.1)
  /\ map (Stroke.dict_value (heap w3)) (CanvasCheckpoint.stroke_history cp)
     <> map (Stroke.dict_value (heap w2)) (CanvasCheckpoint.stroke_history cp).
Proof.
  cbv zeta. split; [vm_compute; reflexivity|].
  split; [vm_compute; reflexivity|].
  split; [vm_compute; reflexivity|].
  split; [|split].
  - intros H.
    apply (f_equal (fun d => Canvas.d_metadata d !! "mood")) in H.
    vm_compute in H. discriminate H.
  - intros H.
    apply (f_equal (fun o => (fun c => Canvas.metadata c !! "mood") <$> o)) in H.
    vm_compute in H. discriminate H.
  - intros H.
    apply (f_equal (fun l => (fun d => Stroke.d_metadata d !! "note") <$> l)) in H.
    vm_compute in H. discriminate H.
Qed.

(** ** The decision logger *)

(** Unfolds the monad down to functions on worlds. *)
Ltac run_monad :=
  cbv [mbind M_bind mret M_ret fmap M_fmap now uuid4 mutate_dict new_dict
       set_heap]; cbn.

Lemma total_stroke_count_app (logs : list PhaseDecisionLog.t)
    (log : PhaseDecisionLog.t) :
  foldr (fun log acc => PhaseDecisionLog.get_stroke_count log + acc) 0
        (logs ++ [log])
  = foldr (fun log acc => PhaseDecisionLog.get_stroke_count log + acc) 0 logs
    + PhaseDecisionLog.get_stroke_count log.
Proof.
  induction logs as [|l logs IH]; cbn -[PhaseDecisionLog.get_stroke_count]; lia.
Qed.

Lemma total_stroke_count_insert (logs : list PhaseDecisionLog.t) (i : nat)
    (log log' : PhaseDecisionLog.t) (d : Z) :
  logs !! i = Some log ->
  PhaseDecisionLog.get_stroke_count log'
    = PhaseDecisionLog.get_stroke_count log + d ->
  foldr (fun log acc => PhaseDecisionLog.get_stroke_count log + acc) 0
        (<[i := log']> logs)
  = foldr (fun log acc => PhaseDecisionLog.get_stroke_count log + acc) 0 logs + d.
Proof.
  revert i. induction logs as [|l logs IH]; intros i Hi Hd; [done|].
  destruct i as [|i]; cbn -[PhaseDecisionLog.get_stroke_count] in *.
  - injection Hi as ->. lia.
  - rewrite <- Z.add_assoc. f_equal. exact (IH i Hi Hd).
Qed.

(** Replacing the current log by one with [d] more strokes. *)
Lemma update_current_count (lg : DecisionLogger.t)
    (log log' : PhaseDecisionLog.t) (d : Z) :
  DecisionLogger.current lg = Some log ->
  PhaseDecisionLog.get_stroke_count log'
    = PhaseDecisionLog.get_stroke_count log + d ->
  logger_ok lg ->
  logger_ok (DecisionLogger.update_current lg log')
  /\ DecisionLogger.current_log (DecisionLogger.update_current lg log')
     = DecisionLogger.current_log lg
  /\ DecisionLogger.get_total_stroke_count (DecisionLogger.update_current lg log')
     = DecisionLogger.get_total_stroke_count lg + d.
Proof.
  unfold DecisionLogger.current, DecisionLogger.update_current, logger_ok,
    DecisionLogger.get_total_stroke_count.
  destruct (DecisionLogger.current_log lg) as [i|]; [|done]. cbn.
  intros Hi Hd Hok. rewrite length_insert.
  split; [done|]. split; [done|]. by apply total_stroke_count_insert with log.
Qed.

(** A well-formed logger with a current log can read it. *)
Lemma current_is_Some (lg : DecisionLogger.t) (i : nat) :
  logger_ok lg -> DecisionLogger.current_log lg = Some i ->
  exists log, DecisionLogger.current lg = Some log.
Proof.
  unfold logger_ok, DecisionLogger.current. intros Hok Hcur.
  rewrite Hcur in *. cbn. by apply lookup_lt_is_Some_2.
Qed.

Lemma phase_log_close_run (log : PhaseDecisionLog.t) (reason : string)
    (w : World) :
  exists log',
    PhaseDecisionLog.close_phase log reason w = (log', after_ticks 1 w)
    /\ PhaseDecisionLog.get_stroke_count log'
       = PhaseDecisionLog.get_stroke_count log + 0.
Proof.
  unfold PhaseDecisionLog.close_phase. run_monad.
  eexists. split; [reflexivity|]. unfold PhaseDecisionLog.get_stroke_count.
  cbn. lia.
Qed.

Lemma logger_close_phase_run (lg : DecisionLogger.t) (reason : string)
    (w : World) :
  exists lg' n,
    DecisionLogger.close_phase lg reason w = (lg', after_ticks n w)
    /\ DecisionLogger.current_log lg' = DecisionLogger.current_log lg
    /\ logged 0 (Some lg) (Some lg').
Proof.
  unfold DecisionLogger.close_phase.
  destruct (DecisionLogger.current lg) as [log|] eqn:Hcur.
  - destruct (phase_log_close_run log reason w) as (log' & Hrun & Hcount).
    rewrite (bind_run_eq _ _ _ _ _ Hrun).
    exists (DecisionLogger.update_current lg log'), 1%nat.
    split; [reflexivity|].
    split; [unfold DecisionLogger.update_current; by destruct lg as [? []]|].
    intros Hok.
    by destruct (update_current_count lg log log' 0 Hcur Hcount Hok) as (?&?&?).
  - exists lg, 0%nat. split; [by destruct w|]. split; [done|].
    intros Hok. split; [done|lia].
Qed.

Lemma logger_start_phase_run (lg : DecisionLogger.t) (phase : DrawingPhase)
    (metadata : option Fields) (w : World) :
  exists lg' n,
    DecisionLogger.start_phase lg phase metadata w = (lg', after_ticks n w)
    /\ (exists i, DecisionLogger.current_log lg' = Some i)
    /\ logged 0 (Some lg) (Some lg').
Proof.
  unfold DecisionLogger.start_phase.
  assert (Hfirst : exists lg1 n,
    (match DecisionLogger.current lg with
     | Some log =>
         match PhaseDecisionLog.end_time log with
         | None =>
             log ← PhaseDecisionLog.close_phase log "Phase transition";
             mret (DecisionLogger.update_current lg log)
         | Some _ => mret lg
         end
     | None => mret lg
     end : M _) w = (lg1, after_ticks n w)
    /\ logged 0 (Some lg) (Some lg1)).
  { destruct (DecisionLogger.current lg) as [log|] eqn:Hcur.
    - destruct (PhaseDecisionLog.end_time log).
      + exists lg, 0%nat. split; [by destruct w|]. intros Hok. split; [done|lia].
      + destruct (phase_log_close_run log "Phase transition" w)
          as (log' & Hrun & Hcount).
        rewrite (bind_run_eq _ _ _ _ _ Hrun).
        exists (DecisionLogger.update_current lg log'), 1%nat.
        split; [reflexivity|]. intros Hok.
        by destruct (update_current_count lg log log' 0 Hcur Hcount Hok)
          as (?&?&?).
    - exists lg, 0%nat. split; [by destruct w|]. intros Hok. split; [done|lia]. }
  destruct Hfirst as (lg1 & n & Hrun & Hlogged).
  rewrite (bind_run_eq _ _ _ _ _ Hrun). run_monad.
  eexists _, (S n). split; [reflexivity|]. split; [by eexists|].
  intros Hok. destruct (Hlogged Hok) as [Hok1 Htotal].
  split.
  - unfold logger_ok. cbn. rewrite length_app. cbn. lia.
  - unfold DecisionLogger.get_total_stroke_count in *. cbn.
    rewrite total_stroke_count_app, Htotal. exact (Z.add_0_r _).
Qed.

Lemma logger_log_stroke_run (lg : DecisionLogger.t) (stroke_id : string)
    (intent : StrokeIntent) (phase : DrawingPhase) (purpose : string)
    (task_id action_id : option string) (pre post : option Metrics)
    (stroke_data : option (Stroke.dict loc)) (metadata : option Fields)
    (w : World) :
  exists lg' n,
    DecisionLogger.log_stroke lg stroke_id intent phase purpose task_id
      action_id pre post stroke_data metadata w = (lg', after_ticks n w)
    /\ logged 1 (Some lg) (Some lg').
Proof.
  unfold DecisionLogger.log_stroke.
  assert (Hfirst : exists lg1 n,
    (match DecisionLogger.current_log lg with
     | None => DecisionLogger.start_phase lg phase None
     | Some _ => mret lg
     end : M _) w = (lg1, after_ticks n w)
    /\ (exists i, DecisionLogger.current_log lg1 = Some i)
    /\ logged 0 (Some lg) (Some lg1)).
  { destruct (DecisionLogger.current_log lg) as [i|] eqn:Hcur.
    - exists lg, 0%nat. split; [by destruct w|]. split; [by exists i|].
      intros Hok. split; [done|lia].
    - apply logger_start_phase_run. }
  destruct Hfirst as (lg1 & n & Hrun & [i Hi] & Hlogged).
  rewrite (bind_run_eq _ _ _ _ _ Hrun). run_monad.
  eexists _, (S n). split; [reflexivity|].
  intros Hok. destruct (Hlogged Hok) as [Hok1 Htotal].
  destruct (current_is_Some lg1 i Hok1 Hi) as [log Hlog]. rewrite Hlog.
  match goal with
  | |- context [DecisionLogger.update_current lg1 ?l'] =>
      destruct (update_current_count lg1 log l' 1 Hlog) as (H1 & _ & H3);
        [|exact Hok1|]
  end.
  { unfold PhaseDecisionLog.get_stroke_count. cbn. rewrite length_app. cbn. lia. }
  split; [exact H1|]. rewrite H3, Htotal. lia.
Qed.

Lemma logger_log_evaluation_run (lg : DecisionLogger.t) (evaluation : Metrics)
    (w : World) :
  exists lg' n,
    DecisionLogger.log_evaluation lg evaluation w = (lg', after_ticks n w)
    /\ logged 0 (Some lg) (Some lg').
Proof.
  unfold DecisionLogger.log_evaluation.
  destruct (DecisionLogger.current lg) as [log|] eqn:Hcur.
  - unfold PhaseDecisionLog.add_evaluation. run_monad.
    eexists _, 1%nat. split; [reflexivity|]. intros Hok.
    match goal with
    | |- context [DecisionLogger.update_current lg ?l'] =>
        destruct (update_current_count lg log l' 0 Hcur) as (H1 & _ & H3);
          [|exact Hok|]
    end.
    { unfold PhaseDecisionLog.get_stroke_count. cbn. lia. }
    split; [exact H1|exact H3].
  - exists lg, 0%nat. split; [by destruct w|]. intros Hok. split; [done|lia].
Qed.

(** ** Single calls of the orchestrator *)

Lemma executor_create_checkpoint_run (self : WorkflowExecutor.t)
    (description : string) (metadata : option Fields) (w : World) :
  exists cm,
    WorkflowExecutor.create_checkpoint self description metadata w
    = ("checkpoint_" +:+ pretty (clock w (ticks w)),
       WorkflowExecutor.set_checkpoint_manager self cm, after_ticks 2 w).
Proof.
  unfold WorkflowExecutor.create_checkpoint.
  rewrite (bind_run_eq _ _ _ _ _ (create_checkpoint_run _ _ _ _ _ _ _)).
  eexists. reflexivity.
Qed.

Lemma deref_insert (h : gmap loc (gmap string pyval)) (l : loc)
    (d : gmap string pyval) :
  deref (<[l := d]> h) l = d.
Proof. unfold deref. by rewrite (lookup_insert_eq h). Qed.

Lemma deref_insert_ne (h : gmap loc (gmap string pyval)) (l l' : loc)
    (d : gmap string pyval) :
  l <> l' -> deref (<[l := d]> h) l' = deref h l'.
Proof. intros Hne. unfold deref. by rewrite (lookup_insert_ne h). Qed.

Lemma stamp_lookup (d : gmap string pyval) (id : string) (meta : pyval) :
  (<["stroke_id" := VStr id]> (<["workflow" := meta]> d)) !! "workflow"
  = Some meta.
Proof. rewrite lookup_insert_ne by done. apply lookup_insert_eq. Qed.

(** [execute_stroke] appends the stroke, counts it, and stamps its metadata
    dictionary, and no other dictionary, with the current phase. *)
Lemma execute_stroke_run (self : WorkflowExecutor.t) (stroke : Stroke.t loc)
    (intent : option StrokeIntent) (purpose : string)
    (task_id action_id : option string) (pre post : option Metrics)
    (w : World) :
  exists lg' w',
    WorkflowExecutor.execute_stroke self stroke intent purpose task_id
      action_id pre post w
    = (uuids w (drawn w),
       WorkflowExecutor.mk (WorkflowExecutor.canvas self)
         (WorkflowState.record_stroke (WorkflowExecutor.workflow_state self))
         (WorkflowExecutor.checkpoint_manager self) lg'
         (WorkflowExecutor.stroke_history self ++ [stroke]),
       w')
    /\ logged 1 (WorkflowExecutor.decision_logger self) lg'
    /\ (forall l, l <> Stroke.metadata stroke -> heap w' !! l = heap w !! l)
    /\ WorkflowExecutor.workflow_meta_get (heap w') stroke "phase"
       = Some (VStr (phase_value
                       (WorkflowState.current_phase
                          (WorkflowExecutor.workflow_state self)))).
Proof.
  unfold WorkflowExecutor.execute_stroke.
  destruct (WorkflowExecutor.decision_logger self) as [lg|] eqn:Hlg.
  - run_monad. rewrite Hlg.
    match goal with
    | |- context [DecisionLogger.log_stroke lg ?a ?b ?c ?d ?e ?f ?g ?h ?i ?j ?w0] =>
        destruct (logger_log_stroke_run lg a b c d e f g h i j w0)
          as (lg' & n & Hrun & Hlogged); rewrite Hrun
    end.
    eexists (Some lg'), _. split; [reflexivity|]. split; [exact Hlogged|].
    cbn. split.
    + intros l Hl. cbn [heap]. by rewrite (lookup_insert_ne (heap w)).
    + unfold WorkflowExecutor.workflow_meta_get, after_ticks.
      cbn [heap]. by rewrite deref_insert, stamp_lookup.
  - run_monad. rewrite Hlg. cbn.
    eexists None, _. split; [reflexivity|]. split; [done|]. split.
    + intros l Hl. cbn [heap]. by rewrite (lookup_insert_ne (heap w)).
    + unfold WorkflowExecutor.workflow_meta_get.
      cbn [heap]. by rewrite deref_insert, stamp_lookup.
Qed.

(** [transition_to_phase] of the orchestrator does to the workflow state
    what [WorkflowState.transition_to_phase] does, and otherwise touches the
    logger and the checkpoint store only. *)
Lemma executor_transition_run (self : WorkflowExecutor.t)
    (new_phase : DrawingPhase) (reason : string) (metrics : option Metrics)
    (flag : bool) (w : World) :
  exists lg' cm' w',
    WorkflowExecutor.transition_to_phase self new_phase reason metrics flag w
    = ((WorkflowState.transition_to_phase
          (WorkflowExecutor.workflow_state self) new_phase reason metrics
          f_one w).1.1,
       WorkflowExecutor.mk (WorkflowExecutor.canvas self)
         (WorkflowState.transition_to_phase
            (WorkflowExecutor.workflow_state self) new_phase reason metrics
            f_one w).1.2
         cm' lg' (WorkflowExecutor.stroke_history self),
       w')
    /\ heap w' = heap w
    /\ logged 0 (WorkflowExecutor.decision_logger self) lg'.
Proof.
  unfold WorkflowExecutor.transition_to_phase.
  destruct (PhaseTransitionValidator.is_valid_transition
              (WorkflowState.current_phase (WorkflowExecutor.workflow_state self))
              new_phase) eqn:Hv.
  - rewrite (bind_run_eq _ _ _ _ _
               (transition_accepted _ _ _ _ _ _ Hv)).
    rewrite (transition_accepted _ _ _ _ _ _ Hv).
    cbn [fst snd negb WorkflowExecutor.set_workflow_state
         WorkflowExecutor.decision_logger WorkflowExecutor.canvas
         WorkflowExecutor.checkpoint_manager WorkflowExecutor.stroke_history].
    set (w1 := mkWorld _ _ _ _ _ _).
    assert (Hlog : exists lg' n,
      (match WorkflowExecutor.decision_logger self with
       | Some lg =>
           lg ← DecisionLogger.close_phase lg reason;
           Some <$> DecisionLogger.start_phase lg new_phase None
       | None => mret None
       end : M _) w1 = (lg', after_ticks n w1)
      /\ logged 0 (WorkflowExecutor.decision_logger self) lg').
    { destruct (WorkflowExecutor.decision_logger self) as [lg|].
      - destruct (logger_close_phase_run lg reason w1)
          as (lg1 & n1 & Hrun1 & _ & Hl1).
        rewrite (bind_run_eq _ _ _ _ _ Hrun1). rewrite fmap_run.
        destruct (logger_start_phase_run lg1 new_phase None (after_ticks n1 w1))
          as (lg2 & n2 & Hrun2 & _ & Hl2).
        rewrite Hrun2. exists (Some lg2), (n2 + n1)%nat.
        split.
        { unfold after_ticks. cbn [heap next_loc clock ticks uuids drawn].
          by rewrite Nat.add_assoc. }
        intros Hok. destruct (Hl1 Hok) as [Hok1 Ht1].
        destruct (Hl2 Hok1) as [Hok2 Ht2]. split; [done|lia].
      - exists None, 0%nat. split; [by subst w1|done]. }
    destruct Hlog as (lg' & n & Hrun & Hlogged).
    rewrite (bind_run_eq _ _ _ _ _ Hrun).
    cbn [WorkflowExecutor.set_decision_logger WorkflowExecutor.canvas
         WorkflowExecutor.workflow_state WorkflowExecutor.checkpoint_manager
         WorkflowExecutor.stroke_history].
    destruct flag.
    + match goal with
      | |- context [WorkflowExecutor.create_checkpoint ?s ?d ?m] =>
          destruct (executor_create_checkpoint_run s d m (after_ticks n w1))
            as [cm Hcp]
      end.
      rewrite bind_run, bind_run, Hcp. cbn.
      eexists lg', cm, _. split; [reflexivity|]. by split.
    + run_monad. eexists lg', _, _. split; [reflexivity|]. by split.
  - rewrite (bind_run_eq _ _ _ _ _ (transition_rejected _ _ _ _ _ _ Hv)).
    rewrite (transition_rejected _ _ _ _ _ _ Hv). cbn.
    eexists _, _, _. split; [reflexivity|]. split; [done|].
    unfold logged. destruct (WorkflowExecutor.decision_logger self); [|done].
    intros Hok. split; [done|lia].
Qed.

(** The code returns what the [recommendation] says and hands the metrics
    to the logger; nothing else changes. *)
Lemma evaluate_logged (self : WorkflowExecutor.t) (metrics : Metrics)
    (quality_threshold : float) (w : World) :
  exists lg w',
    WorkflowExecutor.evaluate_and_decide_transition self metrics
      quality_threshold w
    = (recommendation (WorkflowExecutor.get_current_phase self)
         (WorkflowState.iteration_in_phase
            (WorkflowExecutor.workflow_state self)) metrics quality_threshold,
       WorkflowExecutor.set_decision_logger self lg, w')
    /\ heap w' = heap w
    /\ logged 0 (WorkflowExecutor.decision_logger self) lg.
Proof.
  assert (Hlog : exists lg n,
    (match WorkflowExecutor.decision_logger self with
     | Some lg => Some <$> DecisionLogger.log_evaluation lg metrics
     | None => mret None
     end : M _) w = (lg, after_ticks n w)
    /\ logged 0 (WorkflowExecutor.decision_logger self) lg).
  { destruct (WorkflowExecutor.decision_logger self) as [l0|].
    - destruct (logger_log_evaluation_run l0 metrics w) as (l1 & n & Hl & Hlogged).
      rewrite fmap_run, Hl. by exists (Some l1), n.
    - exists None, 0%nat. by destruct w. }
  destruct Hlog as (lg & n & Hrun & Hlogged).
  unfold WorkflowExecutor.evaluate_and_decide_transition, recommendation,
    WorkflowExecutor.get_current_phase.
  rewrite (bind_run_eq _ _ _ _ _ Hrun).
  exists lg, (after_ticks n w). split; [|by split].
  destruct metrics as [|kv metrics]; [reflexivity|].
  destruct (f_ge _ _).
  - by destruct (WorkflowState.current_phase _).
  - destruct (f_lt _ _ && _); [|reflexivity].
    by destruct (WorkflowState.current_phase _).
Qed.

(** A rollback that does not return true leaves the workflow state and the
    stroke history as they were. *)
Lemma rollback_failed_keeps_state (self : WorkflowExecutor.t) (id : string)
    (w : World) :
  let r := WorkflowExecutor.rollback_to_checkpoint self id w in
  r.1.1 <> Returned true ->
  WorkflowExecutor.workflow_state r.1.2 = WorkflowExecutor.workflow_state self
  /\ WorkflowExecutor.stroke_history r.1.2 = WorkflowExecutor.stroke_history self.
Proof.
  cbv zeta. pose proof (rollback_to_checkpoint_run self id w) as H.
  destruct (CheckpointManager.get_checkpoint _ id) as [cp|].
  - destruct H as (cm & _ & _ & H).
    destruct (Canvas.from_dict _ w) as [[c|] w1]; cbn in H.
    + destruct (CheckpointManager.get_stroke_history_at_checkpoint cp);
        rewrite H; cbn; [congruence|done].
    + by rewrite H.
  - by rewrite H.
Qed.

Lemma rollback_to_phase_failed_keeps_state (self : WorkflowExecutor.t)
    (phase : DrawingPhase) (w : World) :
  let r := WorkflowExecutor.rollback_to_phase self phase w in
  r.1.1 <> Returned true ->
  WorkflowExecutor.workflow_state r.1.2 = WorkflowExecutor.workflow_state self
  /\ WorkflowExecutor.stroke_history r.1.2 = WorkflowExecutor.stroke_history self.
Proof.
  cbv zeta. unfold WorkflowExecutor.rollback_to_phase.
  destruct (CheckpointManager.rollback_to_phase _ phase) as [[cp|] cm]; [|done].
  intros Hr.
  by destruct (rollback_failed_keeps_state
                 (WorkflowExecutor.set_checkpoint_manager self cm)
                 (CanvasCheckpoint.checkpoint_id cp) w Hr).
Qed.

(** ** Sequences of calls *)

(** Every call other than a rollback that returns true keeps the phase in
    step with the transition history. *)
Lemma step_keeps_phase (op : Op) (self : WorkflowExecutor.t) (w : World) :
  (step op self w).1.1 <> RolledBack (Returned true) ->
  phase_matches_history (WorkflowExecutor.workflow_state self) ->
  phase_matches_history (WorkflowExecutor.workflow_state (step op self w).1.2).
Proof.
  intros Hres Hinv. destruct op as [s i p t a pre post|np r m f|d m|id|ph|m q];
    cbn [step] in *.
  - destruct (execute_stroke_run self s i p t a pre post w)
      as (lg & w' & Hrun & _).
    rewrite bind_run, Hrun. cbn. exact Hinv.
  - destruct (executor_transition_run self np r m f w)
      as (lg & cm & w' & Hrun & _).
    rewrite bind_run, Hrun. cbn.
    destruct (PhaseTransitionValidator.is_valid_transition
                (WorkflowState.current_phase
                   (WorkflowExecutor.workflow_state self)) np) eqn:Hv.
    + rewrite (transition_accepted _ _ _ _ _ _ Hv).
      unfold phase_matches_history. cbn. by rewrite last_snoc.
    + by rewrite (transition_rejected _ _ _ _ _ _ Hv).
  - destruct (executor_create_checkpoint_run self d m w) as [cm Hrun].
    rewrite bind_run, Hrun. cbn. exact Hinv.
  - rewrite bind_run in Hres |- *.
    pose proof (rollback_failed_keeps_state self id w) as H. cbv zeta in H.
    destruct (WorkflowExecutor.rollback_to_checkpoint self id w)
      as [[o self'] w']. cbn in *.
    destruct H as [-> _]; [congruence|exact Hinv].
  - rewrite bind_run in Hres |- *.
    pose proof (rollback_to_phase_failed_keeps_state self ph w) as H.
    cbv zeta in H.
    destruct (WorkflowExecutor.rollback_to_phase self ph w) as [[o self'] w'].
    cbn in *. destruct H as [-> _]; [congruence|exact Hinv].
  - destruct (evaluate_logged self m q w) as (lg & w' & Hrun & _).
    rewrite bind_run, Hrun. cbn. exact Hinv.
Qed.

Lemma run_keeps_phase (ops : list Op) (self : WorkflowExecutor.t) (w : World) :
  no_rollback_succeeded (run ops self w).1.1 ->
  phase_matches_history (WorkflowExecutor.workflow_state self) ->
  phase_matches_history (WorkflowExecutor.workflow_state (run ops self w).1.2).
Proof.
  revert self w. induction ops as [|op ops IH]; intros self w Hno Hinv.
  - exact Hinv.
  - cbn [run] in *. rewrite bind_run in *.
    pose proof (step_keeps_phase op self w) as Hstep.
    destruct (step op self w) as [[r self1] w1]. cbn in Hstep.
    rewrite bind_run in *.
    specialize (IH self1 w1).
    destruct (run ops self1 w1) as [[events self2] w2]. cbn in *.
    apply Forall_cons in Hno as [Hr Hno]. cbn in Hr.
    apply IH; [exact Hno|]. by apply Hstep.
Qed.

Lemma workflow_state_create_run (w : World) :
  WorkflowState.create w
  = (WorkflowState.mk SKETCH [] (clock w (ticks w)) 0 0 0
       ("workflow_" +:+ pretty (clock w (S (ticks w)))) [],
     after_ticks 2 w).
Proof. reflexivity. Qed.

(** A new orchestrator is in Sketch with an empty transition history. *)
Lemma create_workflow_state (canvas : Canvas.t loc) (max_checkpoints : Z)
    (enable_logging : bool) (w : World) :
  let self := (WorkflowExecutor.create canvas max_checkpoints enable_logging w).1 in
  WorkflowExecutor.workflow_state self
    = WorkflowState.mk SKETCH [] (clock w (ticks w)) 0 0 0
        ("workflow_" +:+ pretty (clock w (S (ticks w)))) []
  /\ WorkflowExecutor.stroke_history self = []
  /\ logged 0 (if enable_logging then Some DecisionLogger.create else None)
       (WorkflowExecutor.decision_logger self).
Proof.
  cbv zeta. unfold WorkflowExecutor.create.
  rewrite (bind_run_eq _ _ _ _ _ (workflow_state_create_run w)).
  unfold WorkflowExecutor._initialize_workflow.
  cbn [WorkflowExecutor.set_workflow_state WorkflowExecutor.decision_logger
       WorkflowExecutor.workflow_state WorkflowExecutor.canvas
       WorkflowExecutor.checkpoint_manager WorkflowExecutor.stroke_history
       WorkflowState.set_current_phase].
  set (w1 := after_ticks 2 w).
  assert (Hlog : exists lg' n,
    (match (if enable_logging then Some DecisionLogger.create else None) with
     | Some lg => Some <$> DecisionLogger.start_phase lg SKETCH None
     | None => mret None
     end : M _) w1 = (lg', after_ticks n w1)
    /\ logged 0 (if enable_logging then Some DecisionLogger.create else None) lg').
  { destruct enable_logging.
    - destruct (logger_start_phase_run DecisionLogger.create SKETCH None w1)
        as (lg & n & Hrun & _ & Hl).
      rewrite fmap_run, Hrun. by exists (Some lg), n.
    - exists None, 0%nat. by subst w1. }
  destruct Hlog as (lg' & n & Hrun & Hlogged).
  rewrite (bind_run_eq _ _ _ _ _ Hrun).
  match goal with
  | |- context [WorkflowExecutor.create_checkpoint ?s ?d ?m] =>
      destruct (executor_create_checkpoint_run s d m (after_ticks n w1))
        as [cm Hcp]
  end.
  rewrite bind_run, Hcp. cbn. by repeat split.
Qed.

(** ** The phase and the transition history *)

(** C8, as stated, fails after a rollback.  A new orchestrator moves to
    Refinement and rolls back to the checkpoint taken in Sketch: both calls
    return true, the current phase is Sketch again, and the last record of
    the history still ends in Refinement. *)
Lemma rollback_breaks_phase_invariant :
  let self := rolled_back_session.1.2 in
  let ws := WorkflowExecutor.workflow_state self in
  map ev_result rolled_back_session.1.1
    = [Transitioned true; RolledBack (Returned true)]
  /\ WorkflowState.current_phase ws = SKETCH
  /\ PhaseTransition.to_phase <$> last (WorkflowState.phase_history ws)
     = Some REFINEMENT
  /\ ~ phase_matches_history ws.
Proof.
  cbv zeta. split; [vm_compute; reflexivity|].
  split; [vm_compute; reflexivity|]. split; [vm_compute; reflexivity|].
  unfold phase_matches_history. vm_compute. discriminate.
Qed.

Lemma get_checkpoint_elem (cm : CheckpointManager.t) (id : string)
    (cp : CanvasCheckpoint.t) :
  CheckpointManager.get_checkpoint cm id = Some cp ->
  cp ∈ CheckpointManager.checkpoints cm
  /\ CanvasCheckpoint.checkpoint_id cp = id.
Proof.
  unfold CheckpointManager.get_checkpoint, CheckpointManager.find_checkpoint.
  rewrite fmap_Some. intros ([i cp'] & Hfind & ->).
  apply list_find_Some in Hfind as (Hi & Hid & _). cbn.
  split; [by eapply list_elem_of_lookup_2|exact Hid].
Qed.

(** A rollback that returns true takes the phase from a stored checkpoint
    with the id and keeps the transition history. *)
Lemma rollback_sets_phase (self self' : WorkflowExecutor.t) (id : string)
    (w w' : World) :
  WorkflowExecutor.rollback_to_checkpoint self id w = (Returned true, self', w') ->
  exists cp,
    CheckpointManager.get_checkpoint
      (WorkflowExecutor.checkpoint_manager self) id = Some cp
    /\ WorkflowState.current_phase (WorkflowExecutor.workflow_state self')
       = CanvasCheckpoint.phase cp
    /\ WorkflowState.phase_history (WorkflowExecutor.workflow_state self')
       = WorkflowState.phase_history (WorkflowExecutor.workflow_state self).
Proof.
  intros Hrun. pose proof (rollback_to_checkpoint_run self id w) as H.
  destruct (CheckpointManager.get_checkpoint _ id) as [cp|]; [|congruence].
  exists cp. split; [reflexivity|]. destruct H as (cm & _ & _ & H).
  destruct (Canvas.from_dict _ w) as [[c|] w1]; cbn in H.
  - destruct (CheckpointManager.get_stroke_history_at_checkpoint cp);
      rewrite H in Hrun; [|discriminate].
    injection Hrun as <- _. by cbn.
  - rewrite H in Hrun. discriminate.
Qed.

Lemma rollback_to_phase_sets_phase (self self' : WorkflowExecutor.t)
    (phase : DrawingPhase) (w w' : World) :
  WorkflowExecutor.rollback_to_phase self phase w = (Returned true, self', w') ->
  exists cp,
    cp ∈ CheckpointManager.checkpoints (WorkflowExecutor.checkpoint_manager self)
    /\ WorkflowState.current_phase (WorkflowExecutor.workflow_state self')
       = CanvasCheckpoint.phase cp
    /\ WorkflowState.phase_history (WorkflowExecutor.workflow_state self')
       = WorkflowState.phase_history (WorkflowExecutor.workflow_state self).
Proof.
  unfold WorkflowExecutor.rollback_to_phase.
  destruct (CheckpointManager.rollback_to_phase _ phase) as [[cp0|] cm] eqn:Hcm;
    [|discriminate].
  intros Hrun. apply rollback_sets_phase in Hrun as (cp & Hget & Hp & Hh).
  exists cp. split; [|by split].
  apply get_checkpoint_elem in Hget as [Hin _].
  cbn [WorkflowExecutor.set_checkpoint_manager
       WorkflowExecutor.checkpoint_manager] in Hin.
  assert (E : CheckpointManager.checkpoints cm
              = CheckpointManager.checkpoints
                  (WorkflowExecutor.checkpoint_manager self)).
  { unfold CheckpointManager.rollback_to_phase in Hcm.
    destruct (last _) as [newest|]; [|discriminate].
    pose proof (rollback_manager_checkpoints
                  (WorkflowExecutor.checkpoint_manager self)
                  (CanvasCheckpoint.checkpoint_id newest)) as (E & _).
    by rewrite Hcm in E. }
  by rewrite <- E.
Qed.

(** An accepted transition puts the phase in step with the history, whatever
    happened before; a call that is neither keeps it in step. *)
Lemma step_phase_flag (op : Op) (self : WorkflowExecutor.t) (w : World)
    (flag : bool) :
  (flag = false ->
   phase_matches_history (WorkflowExecutor.workflow_state self)) ->
  phase_flag_step flag
    (mkEvent op (WorkflowExecutor.get_current_phase self) (step op self w).1.1)
  = false ->
  phase_matches_history (WorkflowExecutor.workflow_state (step op self w).1.2).
Proof.
  intros Hinv. unfold phase_flag_step. cbn [ev_result].
  destruct op as [s i p t a pre post|np re m f|d m|id|ph|m q].
  2: { cbn [step].
       destruct (executor_transition_run self np re m f w)
         as (lg & cm & w' & Hrun & _).
       rewrite bind_run, Hrun. cbv [mret M_ret]. cbn [fst snd].
       destruct (PhaseTransitionValidator.is_valid_transition
                   (WorkflowState.current_phase
                      (WorkflowExecutor.workflow_state self)) np) eqn:Hv.
       - rewrite (transition_accepted _ _ _ _ _ _ Hv). intros _.
         unfold phase_matches_history. cbn. by rewrite last_snoc.
       - rewrite (transition_rejected _ _ _ _ _ _ Hv). cbn. exact Hinv. }
  all: intros Hflag; apply step_keeps_phase;
    [intros Hres; rewrite Hres in Hflag; discriminate|].
  all: apply Hinv; revert Hflag; cbn [step]; rewrite bind_run.
  - destruct (WorkflowExecutor.execute_stroke _ _ _ _ _ _ _ _ _) as [[? ?] ?].
    by cbn.
  - destruct (WorkflowExecutor.create_checkpoint _ _ _ _) as [[? ?] ?]. by cbn.
  - destruct (WorkflowExecutor.rollback_to_checkpoint _ _ _) as [[o ?] ?].
    cbn. by destruct o as [[|]|].
  - destruct (WorkflowExecutor.rollback_to_phase _ _ _) as [[o ?] ?].
    cbn. by destruct o as [[|]|].
  - destruct (WorkflowExecutor.evaluate_and_decide_transition _ _ _ _)
      as [[? ?] ?]. by cbn.
Qed.

Lemma run_phase_flag (ops : list Op) (self : WorkflowExecutor.t) (w : World)
    (flag : bool) :
  (flag = false ->
   phase_matches_history (WorkflowExecutor.workflow_state self)) ->
  fold_left phase_flag_step (run ops self w).1.1 flag = false ->
  phase_matches_history (WorkflowExecutor.workflow_state (run ops self w).1.2).
Proof.
  revert self w flag. induction ops as [|op ops IH]; intros self w flag Hinv.
  - cbn. exact Hinv.
  - cbn [run]. rewrite bind_run.
    pose proof (step_phase_flag op self w flag Hinv) as Hstep.
    destruct (step op self w) as [[res self1] w1]. cbn [fst snd] in Hstep.
    rewrite bind_run.
    specialize (IH self1 w1
                  (phase_flag_step flag
                     (mkEvent op (WorkflowExecutor.get_current_phase self) res))
                  Hstep).
    destruct (run ops self1 w1) as [[events self2] w2].
    cbv [mret M_ret]. cbn [fst snd fold_left] in *. exact IH.
Qed.

(** C8, amended.  After construction and any sequence of [execute_stroke],
    [transition_to_phase], [create_checkpoint], [rollback_to_checkpoint],
    [rollback_to_phase] and [evaluate_and_decide_transition] calls, the
    current phase is the target of the last record of the transition
    history, or Sketch if there is none, unless a rollback has returned
    true since the last transition that returned true (or since
    construction).  A rollback that returns true sets the current phase to
    the phase of the stored checkpoint that it restores and leaves the
    history as it is: after it the two agree exactly when that phase is the
    target of the last record. *)
Theorem phase_matches_history_unless_rolled_back (canvas : Canvas.t loc)
    (max_checkpoints : Z) (enable_logging : bool) (w : World) (ops : list Op) :
  let start := WorkflowExecutor.create canvas max_checkpoints enable_logging w in
  let r := run ops start.1 start.2 in
  (rolled_back_since_transition r.1.1 = false ->
   phase_matches_history (WorkflowExecutor.workflow_state r.1.2))
  /\ (no_rollback_succeeded r.1.1 ->
      rolled_back_since_transition r.1.1 = false)
  /\ (forall op self w0,
        is_rollback op = true ->
        (step op self w0).1.1 = RolledBack (Returned true) ->
        let ws := WorkflowExecutor.workflow_state self in
        let ws' := WorkflowExecutor.workflow_state (step op self w0).1.2 in
        exists cp,
          cp ∈ CheckpointManager.checkpoints
                 (WorkflowExecutor.checkpoint_manager self)
          /\ (forall id, op = RollbackToCheckpoint id ->
                CheckpointManager.get_checkpoint
                  (WorkflowExecutor.checkpoint_manager self) id = Some cp)
          /\ WorkflowState.current_phase ws' = CanvasCheckpoint.phase cp
          /\ WorkflowState.phase_history ws' = WorkflowState.phase_history ws
          /\ (phase_matches_history ws' <->
              CanvasCheckpoint.phase cp
              = match last (WorkflowState.phase_history ws) with
                | Some record => PhaseTransition.to_phase record
                | None => SKETCH
                end)).
Proof.
  cbv zeta. split; [|split].
  - intros Hflag. apply (run_phase_flag ops _ _ false); [|exact Hflag].
    intros _.
    destruct (create_workflow_state canvas max_checkpoints enable_logging w)
      as [-> _].
    reflexivity.
  - unfold rolled_back_since_transition, no_rollback_succeeded.
    generalize (run ops
      (WorkflowExecutor.create canvas max_checkpoints enable_logging w).1
      (WorkflowExecutor.create canvas max_checkpoints enable_logging w).2).1.1.
    intros events Hno.
    enough (H : forall flag, flag = false ->
                  fold_left phase_flag_step events flag = false)
      by (by apply H).
    induction Hno as [|ev events Hev _ IH]; intros flag ->; [reflexivity|].
    cbn [fold_left]. apply IH. unfold phase_flag_step.
    destruct (ev_result ev) as [| [|] | | [[|]|] |]; try reflexivity.
    by destruct Hev.
  - intros op self w0 Hop Hres.
    assert (H : exists cp,
      cp ∈ CheckpointManager.checkpoints
             (WorkflowExecutor.checkpoint_manager self)
      /\ (forall id, op = RollbackToCheckpoint id ->
            CheckpointManager.get_checkpoint
              (WorkflowExecutor.checkpoint_manager self) id = Some cp)
      /\ WorkflowState.current_phase
           (WorkflowExecutor.workflow_state (step op self w0).1.2)
         = CanvasCheckpoint.phase cp
      /\ WorkflowState.phase_history
           (WorkflowExecutor.workflow_state (step op self w0).1.2)
         = WorkflowState.phase_history (WorkflowExecutor.workflow_state self)).
    { destruct op as [s i p t a pre post|np re m f|d m|id|ph|m q];
        try discriminate Hop; cbn [step] in Hres |- *;
        rewrite bind_run in Hres |- *.
      - destruct (WorkflowExecutor.rollback_to_checkpoint self id w0)
          as [[o self'] w'] eqn:Hrun.
        cbn in Hres |- *. injection Hres as ->.
        apply rollback_sets_phase in Hrun as (cp & Hget & Hp & Hh).
        exists cp. split; [by apply get_checkpoint_elem in Hget as [? _]|].
        split; [by intros ? [= <-]|]. by split.
      - destruct (WorkflowExecutor.rollback_to_phase self ph w0)
          as [[o self'] w'] eqn:Hrun.
        cbn in Hres |- *. injection Hres as ->.
        apply rollback_to_phase_sets_phase in Hrun as (cp & Hin & Hp & Hh).
        exists cp. split; [exact Hin|]. split; [discriminate|]. by split. }
    destruct H as (cp & Hin & Hget & Hp & Hh). exists cp.
    split; [exact Hin|]. split; [exact Hget|]. split; [exact Hp|].
    split; [exact Hh|]. unfold phase_matches_history. by rewrite Hp, Hh.
Qed.

Lemma phase_matches_history_witness :
  let start := WorkflowExecutor.create sample_canvas 10 true studio_world in
  let r := run resumed_ops start.1 start.2 in
  map ev_result r.1.1
    = [Transitioned true; RolledBack (Returned true); Transitioned true]
  /\ phase_matches_history (WorkflowExecutor.workflow_state r.1.2).
Proof.
  cbv zeta. split; [vm_compute; reflexivity|].
  apply phase_matches_history_unless_rolled_back.
  vm_compute. reflexivity.
Defined.

(** ** Counting strokes *)

Lemma logged_trans (a b : Z) (x y z : option DecisionLogger.t) :
  logged a x y -> logged b y z -> logged (a + b) x z.
Proof.
  unfold logged. destruct x, y, z; try done.
  intros Hxy Hyz Hok. destruct (Hxy Hok) as [Hok1 H1].
  destruct (Hyz Hok1) as [Hok2 H2]. split; [done|lia].
Qed.

Lemma logged_refl (x : option DecisionLogger.t) : logged 0 x x.
Proof. unfold logged. destruct x; [|done]. intros Hok. split; [done|lia]. Qed.

(** The strokes stamped with a phase, read in two stores that agree on the
    metadata of the history. *)
Lemma phase_count_frame (h h' : gmap loc (gmap string pyval))
    (history : list (Stroke.t loc)) (key value : string) :
  Forall (fun s => h' !! Stroke.metadata s = h !! Stroke.metadata s) history ->
  filter (fun s => WorkflowExecutor.is_str (WorkflowExecutor.workflow_meta_get h' s key) value
                   = true) history
  = filter (fun s => WorkflowExecutor.is_str (WorkflowExecutor.workflow_meta_get h s key) value
                     = true) history.
Proof.
  induction 1 as [|s history Hs _ IH]; [reflexivity|].
  assert (E : WorkflowExecutor.workflow_meta_get h' s key
              = WorkflowExecutor.workflow_meta_get h s key).
  { unfold WorkflowExecutor.workflow_meta_get, deref. by rewrite Hs. }
  rewrite !filter_cons, IH. by rewrite E.
Qed.

Lemma phase_value_inj (p q : DrawingPhase) :
  String.eqb (phase_value p) (phase_value q) = bool_decide (p = q).
Proof. by destruct p, q. Qed.

Lemma executions_in_phase_cons (ev : Event) (events : list Event)
    (p : DrawingPhase) :
  executions_in_phase (ev :: events) p
  = (if is_execute (ev_op ev) && bool_decide (ev_phase ev = p) then 1 else 0)
    + executions_in_phase events p.
Proof.
  unfold executions_in_phase. rewrite filter_cons.
  destruct (decide _) as [[He Hp]|Hn].
  - rewrite He, (bool_decide_eq_true_2 _ Hp). cbn [length andb]. lia.
  - destruct (is_execute (ev_op ev)); [|cbn; lia].
    rewrite bool_decide_eq_false_2; [cbn; lia|]. intros Hp. by apply Hn.
Qed.

(** What one call other than a rollback does to the counters. *)
Lemma step_counts (op : Op) (self : WorkflowExecutor.t) (w : World) :
  is_rollback op = false ->
  let r := step op self w in
  let ev := mkEvent op (WorkflowExecutor.get_current_phase self) r.1.1 in
  let ws := WorkflowExecutor.workflow_state self in
  let ws' := WorkflowExecutor.workflow_state r.1.2 in
  WorkflowState.total_strokes ws'
    = WorkflowState.total_strokes ws + executions [op]
  /\ logged (executions [op]) (WorkflowExecutor.decision_logger self)
       (WorkflowExecutor.decision_logger r.1.2)
  /\ WorkflowState.phase_stroke_count ws'
     = executions_since_transition (WorkflowState.phase_stroke_count ws) [ev]
  /\ WorkflowExecutor.stroke_history r.1.2
     = WorkflowExecutor.stroke_history self ++ executed [op]
  /\ (Forall (fun s => Stroke.metadata s
                       ∉ map Stroke.metadata
                           (WorkflowExecutor.stroke_history self))
             (executed [op]) ->
      forall p,
        WorkflowExecutor.get_phase_stroke_count (heap r.2) r.1.2 p
        = WorkflowExecutor.get_phase_stroke_count (heap w) self p
          + executions_in_phase [ev] p).
Proof.
  intros Hop. cbv zeta.
  destruct op as [s i pu t a pre post|np re m f|d m|id|ph|m q];
    try discriminate Hop; cbn [step].
  - destruct (execute_stroke_run self s i pu t a pre post w)
      as (lg & w' & Hrun & Hlogged & Hframe & Hstamp).
    rewrite bind_run, Hrun. cbv [mret M_ret]. cbn [fst snd].
    split; [reflexivity|]. split; [exact Hlogged|]. split; [reflexivity|].
    split; [reflexivity|].
    intros Hfresh p. apply Forall_cons in Hfresh as [Hfresh _].
    rewrite executions_in_phase_cons. cbn [ev_op ev_phase is_execute andb].
    unfold WorkflowExecutor.get_phase_stroke_count, executions_in_phase.
    cbn [WorkflowExecutor.stroke_history].
    rewrite filter_app, length_app, filter_cons, filter_nil.
    rewrite (phase_count_frame (heap w) (heap w')).
    2: { apply Forall_forall. intros s' Hs'. apply Hframe. intros Heq.
         apply Hfresh. rewrite <- Heq.
         apply list_elem_of_In, in_map. by apply list_elem_of_In. }
    rewrite Hstamp. cbn [WorkflowExecutor.is_str]. rewrite phase_value_inj.
    unfold WorkflowExecutor.get_current_phase.
    destruct (decide _) as [Hd|Hd]; case_bool_decide; try done; cbn; lia.
  - destruct (executor_transition_run self np re m f w)
      as (lg & cm & w' & Hrun & Hheap & Hlogged).
    rewrite bind_run, Hrun. cbv [mret M_ret]. cbn [fst snd].
    cbn [WorkflowExecutor.workflow_state WorkflowExecutor.decision_logger
         WorkflowExecutor.stroke_history].
    split; [|split; [exact Hlogged|split; [|split; [by rewrite app_nil_r|]]]].
    + destruct (PhaseTransitionValidator.is_valid_transition
                  (WorkflowState.current_phase
                     (WorkflowExecutor.workflow_state self)) np) eqn:Hv.
      * rewrite (transition_accepted _ _ _ _ _ _ Hv). cbn.
        unfold executions. cbn. lia.
      * rewrite (transition_rejected _ _ _ _ _ _ Hv). unfold executions.
        cbn. lia.
    + destruct (PhaseTransitionValidator.is_valid_transition
                  (WorkflowState.current_phase
                     (WorkflowExecutor.workflow_state self)) np) eqn:Hv.
      * by rewrite (transition_accepted _ _ _ _ _ _ Hv).
      * by rewrite (transition_rejected _ _ _ _ _ _ Hv).
    + intros _ p. rewrite executions_in_phase_cons. cbn [ev_op is_execute andb].
      unfold WorkflowExecutor.get_phase_stroke_count, executions_in_phase.
      cbn [WorkflowExecutor.stroke_history]. rewrite Hheap. cbn. lia.
  - destruct (executor_create_checkpoint_run self d m w) as [cm Hrun].
    rewrite bind_run, Hrun. cbv [mret M_ret]. cbn [fst snd].
    split; [unfold executions; cbn; lia|]. split; [apply logged_refl|].
    split; [reflexivity|]. split; [cbn; by rewrite app_nil_r|].
    intros _ p. rewrite executions_in_phase_cons. cbn [ev_op is_execute andb].
    unfold WorkflowExecutor.get_phase_stroke_count, executions_in_phase.
    cbn. lia.
  - destruct (evaluate_logged self m q w) as (lg & w' & Hrun & Hheap & Hlogged).
    rewrite bind_run, Hrun. cbv [mret M_ret]. cbn [fst snd].
    split; [unfold executions; cbn; lia|]. split; [exact Hlogged|].
    split; [reflexivity|]. split; [cbn; by rewrite app_nil_r|].
    intros _ p. rewrite executions_in_phase_cons. cbn [ev_op is_execute andb].
    unfold WorkflowExecutor.get_phase_stroke_count, executions_in_phase.
    cbn [WorkflowExecutor.stroke_history WorkflowExecutor.set_decision_logger].
    rewrite Hheap. cbn. lia.
Qed.

Lemma executed_cons (op : Op) (ops : list Op) :
  executed (op :: ops) = executed [op] ++ executed ops.
Proof. unfold executed. cbn. by destruct op. Qed.

Lemma executions_cons (op : Op) (ops : list Op) :
  executions (op :: ops) = executions [op] + executions ops.
Proof. unfold executions. rewrite executed_cons, length_app. lia. Qed.

(** The counters after a sequence of calls without rollbacks, from any
    state of the orchestrator. *)
Lemma run_counts (ops : list Op) (self : WorkflowExecutor.t) (w : World) :
  Forall (fun op => is_rollback op = false) ops ->
  let r := run ops self w in
  let ws := WorkflowExecutor.workflow_state self in
  let ws' := WorkflowExecutor.workflow_state r.1.2 in
  WorkflowState.total_strokes ws'
    = WorkflowState.total_strokes ws + executions ops
  /\ logged (executions ops) (WorkflowExecutor.decision_logger self)
       (WorkflowExecutor.decision_logger r.1.2)
  /\ WorkflowState.phase_stroke_count ws'
     = executions_since_transition (WorkflowState.phase_stroke_count ws) r.1.1
  /\ WorkflowExecutor.stroke_history r.1.2
     = WorkflowExecutor.stroke_history self ++ executed ops
  /\ (NoDup (map Stroke.metadata
               (WorkflowExecutor.stroke_history self ++ executed ops)) ->
      forall p,
        WorkflowExecutor.get_phase_stroke_count (heap r.2) r.1.2 p
        = WorkflowExecutor.get_phase_stroke_count (heap w) self p
          + executions_in_phase r.1.1 p).
Proof.
  cbv zeta. revert self w. induction ops as [|op ops IH]; intros self w Hops.
  - cbn. split; [unfold executions; cbn; lia|]. split; [apply logged_refl|].
    split; [done|]. split; [by rewrite app_nil_r|].
    intros _ p. unfold executions_in_phase. cbn. lia.
  - apply Forall_cons in Hops as [Hop Hops].
    pose proof (step_counts op self w Hop) as Hstep. cbv zeta in Hstep.
    cbn [run]. rewrite bind_run.
    destruct (step op self w) as [[res self1] w1]. cbn [fst snd] in Hstep.
    specialize (IH self1 w1 Hops). rewrite bind_run.
    destruct (run ops self1 w1) as [[events self2] w2].
    cbv [mret M_ret]. cbn [fst snd] in *.
    destruct Hstep as (Ht & Hl & Hp & Hh & Hc).
    destruct IH as (Ht' & Hl' & Hp' & Hh' & Hc').
    split; [rewrite Ht', Ht, (executions_cons op ops); lia|].
    split; [rewrite (executions_cons op ops); by eapply logged_trans|].
    split; [rewrite Hp', Hp; reflexivity|].
    split; [rewrite Hh', Hh, (executed_cons op ops); by rewrite app_assoc|].
    intros Hnd p. rewrite (executed_cons op ops), app_assoc in Hnd.
    rewrite Hc', Hc.
    + rewrite (executions_in_phase_cons _ events).
      rewrite (executions_in_phase_cons _ []).
      change (executions_in_phase [] p) with 0. lia.
    + rewrite map_app in Hnd. apply NoDup_app in Hnd as (Hnd & _ & _).
      rewrite map_app in Hnd. apply NoDup_app in Hnd as (_ & Hdisj & _).
      apply Forall_forall. intros s Hs Hin.
      apply (Hdisj _ Hin). apply list_elem_of_In, in_map.
      by apply list_elem_of_In.
    + by rewrite Hh.
Qed.

(** C10, as stated, fails on a phase that is visited twice.  One stroke in
    Sketch, a transition to Refinement and back, one more stroke: one stroke
    was recorded since the last transition into Sketch, and
    [get_phase_stroke_count(Sketch)] is 2. *)
Lemma phase_stroke_count_spans_visits :
  let self := revisit_session.1.2 in
  map ev_result revisit_session.1.1 !! 2%nat = Some (Transitioned true)
  /\ WorkflowExecutor.get_current_phase self = SKETCH
  /\ executions_since_transition 0 revisit_session.1.1 = 1
  /\ WorkflowState.phase_stroke_count (WorkflowExecutor.workflow_state self) = 1
  /\ WorkflowExecutor.get_phase_stroke_count (heap revisit_session.2) self SKETCH
     = 2.
Proof. cbv zeta. repeat split; vm_compute; reflexivity. Qed.

(** C10, amended.  After N calls of [execute_stroke] on a new orchestrator,
    among any transitions, checkpoints and evaluations but no rollbacks,
    [total_strokes] is N and, with logging on, so is the logger's total.
    The field [phase_stroke_count] counts the strokes since the last
    accepted transition.  [get_phase_stroke_count(phase)] counts every
    stroke executed while the workflow was in [phase], over all visits
    (each executed stroke having a metadata dictionary of its own). *)
Theorem stroke_counts (canvas : Canvas.t loc) (max_checkpoints : Z)
    (enable_logging : bool) (w : World) (ops : list Op) :
  Forall (fun op => is_rollback op = false) ops ->
  let start := WorkflowExecutor.create canvas max_checkpoints enable_logging w in
  let r := run ops start.1 start.2 in
  let ws := WorkflowExecutor.workflow_state r.1.2 in
  WorkflowState.total_strokes ws = executions ops
  /\ match WorkflowExecutor.decision_logger r.1.2 with
     | Some lg =>
         enable_logging = true
         /\ DecisionLogger.get_total_stroke_count lg = executions ops
     | None => enable_logging = false
     end
  /\ WorkflowState.phase_stroke_count ws
     = executions_since_transition 0 r.1.1
  /\ length (WorkflowExecutor.stroke_history r.1.2) = length (executed ops)
  /\ (NoDup (map Stroke.metadata (executed ops)) ->
      forall p,
        WorkflowExecutor.get_phase_stroke_count (heap r.2) r.1.2 p
        = executions_in_phase r.1.1 p).
Proof.
  intros Hops. cbv zeta.
  destruct (create_workflow_state canvas max_checkpoints enable_logging w)
    as (Hws & Hh & Hl0).
  destruct (run_counts ops
              (WorkflowExecutor.create canvas max_checkpoints enable_logging w).1
              (WorkflowExecutor.create canvas max_checkpoints enable_logging w).2
              Hops)
    as (Ht & Hl & Hp & Hh' & Hc).
  rewrite Hws in Ht, Hp. rewrite Hh in Hh', Hc. cbn in Ht, Hp, Hh', Hc.
  split; [exact Ht|]. split; [|split; [exact Hp|split; [by rewrite Hh'|]]].
  - pose proof (logged_trans _ _ _ _ _ Hl0 Hl) as Hlog. unfold logged in Hlog.
    destruct enable_logging;
      destruct (WorkflowExecutor.decision_logger (run _ _ _).1.2); try done.
    split; [done|]. destruct Hlog as [_ Hlog]; [exact I|].
    rewrite Hlog. unfold DecisionLogger.get_total_stroke_count. cbn. lia.
  - intros Hnd p. rewrite (Hc Hnd p).
    unfold WorkflowExecutor.get_phase_stroke_count. rewrite Hh. cbn. lia.
Qed.

Lemma stroke_counts_witness :
  let start := WorkflowExecutor.create sample_canvas 10 true studio_world in
  let r := run [draw 3%positive; TransitionToPhase REFINEMENT "" None true;
                TransitionToPhase SKETCH "" None true; draw 4%positive;
                draw 5%positive] start.1 start.2 in
  WorkflowState.total_strokes (WorkflowExecutor.workflow_state r.1.2) = 3
  /\ WorkflowState.phase_stroke_count (WorkflowExecutor.workflow_state r.1.2) = 2
  /\ WorkflowExecutor.get_phase_stroke_count (heap r.2) r.1.2 SKETCH = 3.
Proof.
  cbv zeta.
  destruct (stroke_counts sample_canvas 10 true studio_world
              [draw 3%positive; TransitionToPhase REFINEMENT "" None true;
               TransitionToPhase SKETCH "" None true; draw 4%positive;
               draw 5%positive])
    as (Ht & _ & Hp & _ & Hc).
  - repeat constructor.
  - split; [exact Ht|]. split.
    + rewrite Hp. vm_compute. reflexivity.
    + rewrite Hc; [vm_compute; reflexivity|].
      apply (bool_decide_unpack (NoDup _)). vm_compute. exact I.
Defined.

(* ================================================================== *)
(** * Further properties of the code *)

(** ** The transition table *)

(** X1. A transition is valid exactly when the two phases are the same or
    neighbours in the fixed order: their positions differ by at most one. *)
Theorem valid_transition_iff_adjacent (from_phase to_phase : DrawingPhase) :
  exists i j,
    PhaseTransitionValidator.index PhaseTransitionValidator.phase_order
      from_phase = Some i
    /\ PhaseTransitionValidator.index PhaseTransitionValidator.phase_order
         to_phase = Some j
    /\ (PhaseTransitionValidator.is_valid_transition from_phase to_phase = true
        <-> (i <= S j /\ j <= S i)%nat).
Proof.
  destruct from_phase, to_phase; eexists _, _;
    (split; [reflexivity|split; [reflexivity|]]); vm_compute;
    (split; [intros H; first [discriminate H | split; lia]
            |intros [H1 H2]; first [reflexivity | lia]]).
Qed.

(** X2. Between two phases exactly one of three holds: they are equal, the
    move is a forward progression, or it is a regression; a regression is a
    forward progression read backwards. *)
Theorem forward_regression_trichotomy (from_phase to_phase : DrawingPhase) :
  PhaseTransitionValidator.is_regression from_phase to_phase
    = PhaseTransitionValidator.is_forward_progression to_phase from_phase
  /\ (PhaseTransitionValidator.is_forward_progression from_phase to_phase
      && PhaseTransitionValidator.is_regression from_phase to_phase = false)
  /\ (from_phase = to_phase <->
      PhaseTransitionValidator.is_forward_progression from_phase to_phase = false
      /\ PhaseTransitionValidator.is_regression from_phase to_phase = false).
Proof.
  destruct from_phase, to_phase; vm_compute;
    (split; [reflexivity|split; [reflexivity|]]);
    (split; [intros H; first [discriminate H | by split]
            |intros [H1 H2]; first [reflexivity | discriminate]]).
Qed.

Lemma transitions_along_chain (targets : list DrawingPhase)
    (self : WorkflowState.t) (w : World) :
  chain_valid (WorkflowState.current_phase self) targets = true ->
  Forall (fun ok => ok = true) (transitions targets self w).1.1
  /\ length (transitions targets self w).1.1 = length targets
  /\ WorkflowState.current_phase (transitions targets self w).1.2
     = default (WorkflowState.current_phase self) (last targets)
  /\ length (WorkflowState.phase_history (transitions targets self w).1.2)
     = (length (WorkflowState.phase_history self) + length targets)%nat.
Proof.
  revert self w. induction targets as [|t targets IH]; intros self w Hchain.
  - cbn. repeat split; [constructor|lia].
  - cbn [chain_valid] in Hchain. apply andb_prop in Hchain as [Hv Hchain].
    cbn [transitions].
    rewrite (bind_run_eq _ _ _ _ _ (transition_accepted _ _ _ _ _ _ Hv)).
    set (self1 := WorkflowState.mk _ _ _ _ _ _ _ _).
    set (w1 := mkWorld _ _ _ _ _ _).
    specialize (IH self1 w1 Hchain). rewrite bind_run.
    destruct (transitions targets self1 w1) as [[oks self2] w2].
    cbv [mret M_ret]. cbn [fst snd length] in *.
    destruct IH as (IH1 & IH2 & IH3 & IH4).
    split; [by constructor|]. split; [cbn; lia|]. split.
    + rewrite IH3. subst self1. cbn [WorkflowState.current_phase].
      destruct targets as [|t0 targets]; [done|].
      change (last (t :: t0 :: targets)) with (last (t0 :: targets)).
      destruct (last (t0 :: targets)) eqn:E; [done|].
      by apply last_None in E.
    + rewrite IH4. subst self1. cbn. rewrite length_app. cbn. lia.
Qed.

Lemma route_triangle (a t b : DrawingPhase) :
  PhaseTransitionValidator.is_valid_transition a t = true ->
  (length (route a b) <= S (length (route t b)))%nat.
Proof.
  destruct a, t, b; vm_compute; intros H;
    first [discriminate H | lia].
Qed.

(** X3. The table never traps the workflow: from the current phase, the
    transitions along the fixed order towards any target phase are all
    accepted, at most four of them, each leaving one record, and they end in
    the target.  No chain of valid transitions between the two phases is
    shorter. *)
Theorem every_phase_reachable (self : WorkflowState.t) (target : DrawingPhase)
    (w : World) :
  let path := route (WorkflowState.current_phase self) target in
  let r := transitions path self w in
  (length path <= 4)%nat
  /\ Forall (fun ok => ok = true) r.1.1
  /\ length r.1.1 = length path
  /\ WorkflowState.current_phase r.1.2 = target
  /\ length (WorkflowState.phase_history r.1.2)
     = (length (WorkflowState.phase_history self) + length path)%nat
  /\ (forall targets,
        chain_valid (WorkflowState.current_phase self) targets = true ->
        last (WorkflowState.current_phase self :: targets) = Some target ->
        (length path <= length targets)%nat).
Proof.
  cbv zeta.
  assert (Hchain : chain_valid (WorkflowState.current_phase self)
                     (route (WorkflowState.current_phase self) target) = true)
    by (destruct (WorkflowState.current_phase self), target; reflexivity).
  destruct (transitions_along_chain _ self w Hchain) as (H1 & H2 & H3 & H4).
  split; [destruct (WorkflowState.current_phase self), target; vm_compute; lia|].
  split; [exact H1|]. split; [exact H2|]. split; [|split; [exact H4|]].
  - rewrite H3. by destruct (WorkflowState.current_phase self), target.
  - generalize (WorkflowState.current_phase self). intros a targets.
    revert a. induction targets as [|t targets IH]; intros a Hc Hlast.
    + cbn in Hlast. injection Hlast as ->. by destruct target.
    + cbn [chain_valid] in Hc. apply andb_prop in Hc as [Hv Hc].
      change (last (a :: t :: targets)) with (last (t :: targets)) in Hlast.
      specialize (IH t Hc Hlast). pose proof (route_triangle a t target Hv).
      cbn [length]. lia.
Qed.

(** ** Intents *)

(** X4. Every phase but Complete has a primary intent, and it is one of
    the intents recommended for that phase; in Complete no intent at all
    is appropriate. *)
Theorem primary_intent_appropriate (phase : DrawingPhase) (intent : StrokeIntent) :
  match StrokeIntentHelper.get_primary_intent phase with
  | Some primary =>
      phase <> COMPLETE
      /\ StrokeIntentHelper.is_intent_appropriate phase primary = true
  | None => phase = COMPLETE
  end
  /\ StrokeIntentHelper.is_intent_appropriate COMPLETE intent = false.
Proof.
  split; [by destruct phase|by destruct intent].
Qed.

(** X5. [suggest_intent_for_task] answers with the intent mapped to the
    lower-cased task type when that intent is appropriate for the phase, and
    with the primary intent of the phase otherwise (unknown or empty task
    type, or inappropriate intent).  So outside Complete its answer is always
    appropriate for the phase, whatever the task type; in Complete it is
    Gesture. *)
Theorem suggest_intent_for_task_appropriate (lower : string -> string)
    (phase : DrawingPhase) (task_type : string) :
  let answer := StrokeIntentHelper.suggest_intent_for_task lower phase
                  task_type in
  (phase <> COMPLETE ->
   StrokeIntentHelper.is_intent_appropriate phase answer = true)
  /\ (phase = COMPLETE -> answer = GESTURE)
  /\ (forall intent,
        task_type <> "" ->
        StrokeIntentHelper.map_get StrokeIntentHelper.task_intent_map
          (lower task_type) = Some intent ->
        StrokeIntentHelper.is_intent_appropriate phase intent = true ->
        answer = intent)
  /\ (forall intent,
        StrokeIntentHelper.map_get StrokeIntentHelper.task_intent_map
          (lower task_type) = Some intent ->
        StrokeIntentHelper.is_intent_appropriate phase intent = false ->
        answer = default GESTURE (StrokeIntentHelper.get_primary_intent phase))
  /\ (task_type = ""
      \/ StrokeIntentHelper.map_get StrokeIntentHelper.task_intent_map
           (lower task_type) = None ->
      answer = default GESTURE (StrokeIntentHelper.get_primary_intent phase)).
Proof.
  cbv zeta. unfold StrokeIntentHelper.suggest_intent_for_task.
  split; [|split; [|split; [|split]]].
  - intros Hp.
    destruct (if String.eqb task_type "" then None else _) as [i|].
    + destruct (StrokeIntentHelper.is_intent_appropriate phase i) eqn:Hi;
        [done|by destruct phase].
    + by destruct phase.
  - intros ->.
    destruct (if String.eqb task_type "" then None else _) as [i|]; [|done].
    by destruct i.
  - intros intent Hne Hmap Hok.
    destruct (String.eqb_spec task_type ""); [done|]. by rewrite Hmap, Hok.
  - intros intent Hmap Hno.
    destruct (String.eqb task_type ""); [done|]. by rewrite Hmap, Hno.
  - intros [->|Hmap]; [done|].
    destruct (String.eqb task_type ""); [done|]. by rewrite Hmap.
Qed.

Lemma suggest_intent_for_task_witness :
  StrokeIntentHelper.is_intent_appropriate RENDERING
    (StrokeIntentHelper.suggest_intent_for_task ascii_lower RENDERING "Fix_Pose")
  = true
  /\ StrokeIntentHelper.suggest_intent_for_task ascii_lower STYLIZATION
       "ADD_detail" = DETAIL
  /\ StrokeIntentHelper.suggest_intent_for_task ascii_lower SKETCH
       "add_detail" = GESTURE.
Proof.
  destruct (suggest_intent_for_task_appropriate ascii_lower RENDERING "Fix_Pose")
    as (H1 & _).
  destruct (suggest_intent_for_task_appropriate ascii_lower STYLIZATION
              "ADD_detail") as (_ & _ & H3 & _).
  destruct (suggest_intent_for_task_appropriate ascii_lower SKETCH
              "add_detail") as (_ & _ & _ & H4 & _).
  split; [by apply H1|]. split; [by apply (H3 DETAIL)|]. by apply (H4 DETAIL).
Defined.

(** ** Layers of a canvas *)

Lemma find_layer_None {R} (c : Canvas.t R) (id : string) :
  Canvas.find_layer c id = None <-> id ∉ layer_ids c.
Proof.
  unfold Canvas.find_layer, layer_ids. rewrite list_find_None, Forall_forall.
  split.
  - intros H Hin. apply list_elem_of_In, in_map_iff in Hin as (l & Hl & Hin).
    apply list_elem_of_In in Hin. by apply (H l).
  - intros H l Hin Hl. apply H, list_elem_of_In, in_map_iff.
    exists l. split; [done|]. by apply list_elem_of_In.
Qed.

Lemma find_layer_Some {R} (c : Canvas.t R) (id : string) (i : nat)
    (l : Layer.t R) :
  Canvas.find_layer c id = Some (i, l) ->
  Canvas.layers c !! i = Some l /\ Layer.layer_id l = id
  /\ forall j l', Canvas.layers c !! j = Some l' -> (j < i)%nat ->
                  Layer.layer_id l' <> id.
Proof.
  unfold Canvas.find_layer. intros H. by apply list_find_Some in H.
Qed.

(** X6. [remove_layer] with an id that no layer has returns false and
    leaves the canvas as it is.  Otherwise it returns true and removes the
    first layer with that id and no other: one layer fewer, the others in
    their old order, and every other field but the active layer id
    unchanged. *)
Theorem remove_layer_effect {R} (c : Canvas.t R) (id : string) :
  (id ∉ layer_ids c -> Canvas.remove_layer c id = (false, c))
  /\ (id ∈ layer_ids c ->
      exists i l,
        Canvas.find_layer c id = Some (i, l)
        /\ (Canvas.remove_layer c id).1 = true
        /\ Canvas.layers (Canvas.remove_layer c id).2 = delete i (Canvas.layers c)
        /\ S (length (Canvas.layers (Canvas.remove_layer c id).2))
           = length (Canvas.layers c)
        /\ Canvas.layers (Canvas.remove_layer c id).2 `sublist_of` Canvas.layers c
        /\ Canvas.layers c ≡ₚ l :: Canvas.layers (Canvas.remove_layer c id).2
        /\ Canvas.metadata (Canvas.remove_layer c id).2 = Canvas.metadata c
        /\ Canvas.canvas_id (Canvas.remove_layer c id).2 = Canvas.canvas_id c).
Proof.
  split.
  - intros Hid. apply find_layer_None in Hid. unfold Canvas.remove_layer.
    by rewrite Hid.
  - intros Hid. destruct (Canvas.find_layer c id) as [[i l]|] eqn:Hfind.
    2: { by apply find_layer_None in Hfind. }
    destruct (find_layer_Some c id i l Hfind) as (Hi & _ & _).
    exists i, l. unfold Canvas.remove_layer. rewrite Hfind. cbn.
    split; [done|]. split; [done|]. split; [done|]. split.
    { rewrite length_delete by eauto.
      apply lookup_lt_Some in Hi. lia. }
    split; [apply sublist_delete|]. split; [by apply delete_Permutation|done].
Qed.

Lemma remove_layer_witness :
  map Layer.layer_id (Canvas.layers (Canvas.remove_layer layered_canvas "sk").2)
    = ["bg"; "ink"]
  /\ Canvas.remove_layer layered_canvas "nope" = (false, layered_canvas).
Proof.
  destruct (remove_layer_effect layered_canvas "sk") as [_ H].
  destruct (remove_layer_effect layered_canvas "nope") as [H' _].
  split.
  - destruct H as (i & l & Hfind & _ & Hl & _).
    + apply (bool_decide_unpack _). vm_compute. exact I.
    + rewrite Hl. vm_compute in Hfind. injection Hfind as <- <-. reflexivity.
  - apply H'. apply (bool_decide_unpack _). vm_compute. exact I.
Defined.

Lemma elem_of_delete_other {R} (layers : list (Layer.t R)) (i : nat)
    (l : Layer.t R) (a : string) :
  layers !! i = Some l -> Layer.layer_id l <> a ->
  a ∈ map Layer.layer_id layers ->
  a ∈ map Layer.layer_id (delete i layers).
Proof.
  intros Hi Hne Hin.
  apply list_elem_of_In, in_map_iff in Hin as (l' & Hl' & Hin).
  apply list_elem_of_In, list_elem_of_lookup in Hin as [j Hj].
  apply list_elem_of_In, in_map_iff. exists l'. split; [done|].
  apply list_elem_of_In, list_elem_of_lookup.
  destruct (decide (j < i)%nat) as [Hlt|Hge].
  - exists j. by rewrite list_lookup_delete_lt.
  - assert (j <> i) by (intros ->; congruence).
    exists (pred j). rewrite list_lookup_delete_ge by lia.
    by replace (S (pred j)) with j by lia.
Qed.

Lemma py_insert_Permutation {A} (i : Z) (x : A) (l : list A) :
  py_insert i x l ≡ₚ x :: l.
Proof.
  unfold py_insert. cbv zeta.
  rewrite <- Permutation_middle. by rewrite take_drop.
Qed.

(** X7. If the active layer id is unset or names a layer of the canvas,
    [get_active_layer] finds a layer whenever there is one, and
    [remove_layer], [set_active_layer] and a [move_layer] that returns keep
    the active id valid.  [__post_init__] makes it valid on a canvas without
    layers. *)
Theorem active_layer_kept {R} (c : Canvas.t R) (id : string) (position : Z) :
  active_layer_exists c ->
  (Canvas.layers c <> [] -> is_Some (Canvas.get_active_layer c))
  /\ active_layer_exists (Canvas.remove_layer c id).2
  /\ active_layer_exists (Canvas.set_active_layer c id).2
  /\ ((Canvas.move_layer c id position).1 <> Raised ->
      active_layer_exists (Canvas.move_layer c id position).2)
  /\ (PY_SSIZE_T_MIN <= position ->
      (Canvas.move_layer c id position).1 <> Raised)
  /\ (forall (c0 : Canvas.t loc) w,
        Canvas.layers c0 = [] ->
        active_layer_exists (Canvas.post_init c0 w).1
        /\ length (Canvas.layers (Canvas.post_init c0 w).1) = 1%nat).
Proof.
  intros Hok. split; [|split; [|split; [|split; [|split]]]].
  - intros Hne. unfold Canvas.get_active_layer.
    assert (Hhead : is_Some (head (Canvas.layers c)))
      by (destruct (Canvas.layers c); [done|by eexists]).
    unfold active_layer_exists in Hok.
    destruct (Canvas.active_layer_id c) as [a|]; [|done].
    destruct (String.eqb a ""); [done|].
    unfold Canvas.get_layer.
    destruct (Canvas.find_layer c a) as [[i l]|] eqn:Hfind; [by eexists|].
    by apply find_layer_None in Hfind.
  - unfold Canvas.remove_layer.
    destruct (Canvas.find_layer c id) as [[i l]|] eqn:Hfind; [|exact Hok].
    destruct (find_layer_Some c id i l Hfind) as (Hi & Hid & _).
    unfold active_layer_exists, layer_ids in *. cbn.
    destruct (decide (Canvas.active_layer_id c = Some id)) as [Heq|Hne].
    + destruct (delete i (Canvas.layers c)) as [|l0 ls]; [done|].
      cbn. apply elem_of_cons. by left.
    + destruct (Canvas.active_layer_id c) as [a|]; [|done].
      apply (elem_of_delete_other _ i l a Hi); [congruence|exact Hok].
  - unfold Canvas.set_active_layer, Canvas.get_layer.
    destruct (Canvas.find_layer c id) as [[i l]|] eqn:Hfind; [|exact Hok].
    unfold active_layer_exists. cbn.
    destruct (decide (id ∈ layer_ids c)) as [Hin|Hnin]; [done|].
    apply find_layer_None in Hnin. congruence.
  - unfold Canvas.move_layer.
    destruct (Canvas.find_layer c id) as [[i l]|] eqn:Hfind; [|by intros _].
    destruct (find_layer_Some c id i l Hfind) as (Hi & Hid & _).
    case_bool_decide; [done|]. intros _.
    unfold active_layer_exists, layer_ids in *. cbn.
    destruct (Canvas.active_layer_id c) as [a|]; [|done].
    rewrite py_insert_Permutation, <- (delete_Permutation _ _ _ Hi). exact Hok.
  - intros Hpos. unfold Canvas.move_layer.
    destruct (Canvas.find_layer c id) as [[i l]|]; [|done].
    rewrite bool_decide_eq_false_2; [done|].
    unfold PY_SSIZE_T_MIN in *. lia.
  - intros c0 w Hl. unfold Canvas.post_init. rewrite Hl. cbn.
    split; [|done]. unfold active_layer_exists, layer_ids. cbn.
    apply elem_of_cons. by left.
Qed.

Lemma active_layer_kept_witness :
  Layer.name <$> Canvas.get_active_layer layered_canvas = Some "Sketch"
  /\ Canvas.active_layer_id (Canvas.remove_layer layered_canvas "sk").2
     = Some "bg"
  /\ active_layer_exists (Canvas.remove_layer layered_canvas "sk").2
  /\ active_layer_exists (Canvas.move_layer layered_canvas "sk" (-1)).2.
Proof.
  destruct (active_layer_kept layered_canvas "sk" (-1)) as (_ & H & _ & H' & _).
  - unfold active_layer_exists, layer_ids. cbn.
    apply (bool_decide_unpack (_ ∈ _)). vm_compute. exact I.
  - split; [reflexivity|]. split; [reflexivity|]. split; [exact H|].
    apply H'. vm_compute. discriminate.
Defined.

Lemma NoDup_delete_lookup {A} (l : list A) (i : nat) (x : A) :
  NoDup l -> l !! i = Some x -> x ∉ delete i l.
Proof.
  intros Hnd Hi. rewrite <- (take_drop_middle l i x Hi) in Hnd.
  rewrite delete_take_drop.
  apply NoDup_app in Hnd as (_ & Hdisj & Hnd).
  apply NoDup_cons in Hnd as [Hx _].
  intros Hin. apply elem_of_app in Hin as [Hin|Hin]; [|done].
  apply (Hdisj x Hin). apply elem_of_cons. by left.
Qed.

(** X8. [move_layer] with an unknown id returns false and changes
    nothing.  With a known id and a position that [insert] takes, it returns
    true, the layers afterwards are the layers before in another order,
    none lost and none doubled, and the moved layer (the first with the id)
    sits at the position, counted from the end if it is negative, or at
    the nearest end if the position is beyond it.  With a position below
    [PY_SSIZE_T_MIN] it raises after the layer was popped: the canvas is
    left without the layer, and if the layer was the active one and ids
    are distinct, the active id names no layer any more. *)
Theorem move_layer_effect {R} (c : Canvas.t R) (id : string) (position : Z) :
  (id ∉ layer_ids c -> Canvas.move_layer c id position = (Returned false, c))
  /\ (forall i l,
        Canvas.find_layer c id = Some (i, l) ->
        let r := Canvas.move_layer c id position in
        let n := Z.of_nat (length (Canvas.layers c)) in
        (PY_SSIZE_T_MIN <= position ->
         r.1 = Returned true
         /\ Canvas.layers r.2 ≡ₚ Canvas.layers c
         /\ length (Canvas.layers r.2) = length (Canvas.layers c)
         /\ Canvas.active_layer_id r.2 = Canvas.active_layer_id c
         /\ Canvas.layers r.2
              !! Z.to_nat (if bool_decide (position < 0)
                           then Z.max 0 (position + (n - 1))
                           else Z.min position (n - 1))
            = Some l)
        /\ (position < PY_SSIZE_T_MIN ->
            r.1 = Raised
            /\ Canvas.layers r.2 = delete i (Canvas.layers c)
            /\ Canvas.active_layer_id r.2 = Canvas.active_layer_id c
            /\ (Canvas.active_layer_id c = Some id ->
                NoDup (layer_ids c) ->
                ~ active_layer_exists r.2))).
Proof.
  split.
  - intros Hid. apply find_layer_None in Hid. unfold Canvas.move_layer.
    by rewrite Hid.
  - intros i l Hfind. cbv zeta.
    destruct (find_layer_Some c id i l Hfind) as (Hi & Hid & _).
    unfold Canvas.move_layer. rewrite Hfind. cbv zeta.
    assert (Hlen : length (delete i (Canvas.layers c))
                   = (length (Canvas.layers c) - 1)%nat)
      by (apply length_delete; eauto).
    pose proof (lookup_lt_Some _ _ _ Hi) as Hlt.
    split.
    + intros Hpos.
      rewrite bool_decide_eq_false_2 by (unfold PY_SSIZE_T_MIN in *; lia).
      cbn [fst snd Canvas.layers Canvas.active_layer_id].
      assert (Hperm : py_insert
                        (Z.min position
                           (Z.of_nat (length (delete i (Canvas.layers c)))))
                        l (delete i (Canvas.layers c)) ≡ₚ Canvas.layers c).
      { rewrite py_insert_Permutation. symmetry. by apply delete_Permutation. }
      split; [done|]. split; [exact Hperm|]. split; [by rewrite Hperm|].
      split; [done|].
      unfold py_insert. cbv zeta. rewrite Hlen.
      replace (Z.of_nat (length (Canvas.layers c) - 1))
        with (Z.of_nat (length (Canvas.layers c)) - 1) by lia.
      set (n' := Z.of_nat (length (Canvas.layers c)) - 1).
      assert (Hk : forall k : nat,
                (k <= length (delete i (Canvas.layers c)))%nat ->
                (take k (delete i (Canvas.layers c))
                   ++ l :: drop k (delete i (Canvas.layers c))) !! k = Some l).
      { intros k Hk. rewrite lookup_app_r by (rewrite length_take; lia).
        rewrite length_take.
        by replace (k - k `min` length (delete i (Canvas.layers c)))%nat
          with 0%nat by lia. }
      case_bool_decide as Hneg.
      * rewrite bool_decide_eq_true_2 by lia.
        rewrite (Z.min_l position n') by lia.
        rewrite (Z.min_l (Z.max 0 (position + n')) n') by lia.
        apply Hk. lia.
      * rewrite bool_decide_eq_false_2 by lia.
        rewrite (Z.min_l (Z.min position n') n') by lia.
        apply Hk. lia.
    + intros Hneg.
      rewrite bool_decide_eq_true_2 by (unfold PY_SSIZE_T_MIN in *; lia).
      cbn [fst snd Canvas.layers Canvas.active_layer_id].
      split; [done|]. split; [done|]. split; [done|].
      intros Hact Hnd. unfold active_layer_exists, layer_ids.
      cbn [Canvas.active_layer_id Canvas.layers]. rewrite Hact.
      unfold layer_ids in Hnd.
      replace (map Layer.layer_id (delete i (Canvas.layers c)))
        with (delete i (map Layer.layer_id (Canvas.layers c))).
      * apply (NoDup_delete_lookup _ i id Hnd).
        by rewrite list_lookup_fmap, Hi, <- Hid.
      * clear. revert i.
        induction (Canvas.layers c) as [|x xs IH]; intros [|i]; cbn;
          try reflexivity.
        by rewrite IH.
Qed.

Lemma move_layer_witness :
  map Layer.layer_id (Canvas.layers (Canvas.move_layer layered_canvas "bg" 7).2)
    = ["sk"; "ink"; "bg"]
  /\ Canvas.layers (Canvas.move_layer layered_canvas "bg" 7).2
     ≡ₚ Canvas.layers layered_canvas
  /\ (Canvas.move_layer layered_canvas "sk" (PY_SSIZE_T_MIN - 1)).1 = Raised
  /\ map Layer.layer_id
       (Canvas.layers (Canvas.move_layer layered_canvas "sk"
                         (PY_SSIZE_T_MIN - 1)).2)
     = ["bg"; "ink"]
  /\ ~ active_layer_exists
        (Canvas.move_layer layered_canvas "sk" (PY_SSIZE_T_MIN - 1)).2.
Proof.
  destruct (move_layer_effect layered_canvas "bg" 7) as [_ H].
  destruct (H 0%nat (Layer.mk "Background" "bg" true false f_one NORMAL None
                       2%positive) eq_refl) as [H1 _].
  destruct H1 as (_ & Hperm & _); [unfold PY_SSIZE_T_MIN; lia|].
  destruct (move_layer_effect layered_canvas "sk" (PY_SSIZE_T_MIN - 1))
    as [_ H'].
  destruct (H' 1%nat (Layer.mk "Sketch" "sk" true false f_one MULTIPLY None
                        3%positive) eq_refl) as [_ H2].
  destruct H2 as (Hr & Hl & _ & Hdangling); [lia|].
  split; [reflexivity|]. split; [exact Hperm|]. split; [exact Hr|].
  split; [by rewrite Hl|]. apply Hdangling; [reflexivity|].
  apply (bool_decide_unpack (NoDup _)). vm_compute. exact I.
Defined.

(** X9. [get_layer_index] is -1 exactly when [get_layer] finds nothing,
    which is exactly when no layer has the id; otherwise the index is the
    position of the layer that [get_layer] returns, the first with the id. *)
Theorem get_layer_index_get_layer {R} (c : Canvas.t R) (id : string) :
  (Canvas.get_layer_index c id = -1 <-> Canvas.get_layer c id = None)
  /\ (Canvas.get_layer c id = None <-> id ∉ layer_ids c)
  /\ (forall l,
        Canvas.get_layer c id = Some l ->
        0 <= Canvas.get_layer_index c id < Z.of_nat (length (Canvas.layers c))
        /\ Canvas.layers c !! Z.to_nat (Canvas.get_layer_index c id) = Some l
        /\ Layer.layer_id l = id
        /\ forall j l', Canvas.layers c !! j = Some l' ->
             Z.of_nat j < Canvas.get_layer_index c id ->
             Layer.layer_id l' <> id).
Proof.
  unfold Canvas.get_layer_index, Canvas.get_layer.
  split; [|split].
  - destruct (Canvas.find_layer c id) as [[i l]|]; cbn; [|done].
    split; [lia|discriminate].
  - rewrite <- find_layer_None.
    by destruct (Canvas.find_layer c id) as [[i l]|].
  - intros l Hl.
    destruct (Canvas.find_layer c id) as [[i l0]|] eqn:Hfind; [|done].
    cbn in Hl. injection Hl as ->.
    destruct (find_layer_Some c id i l Hfind) as (Hi & Hid & Hfirst).
    pose proof (lookup_lt_Some _ _ _ Hi).
    split; [lia|]. rewrite Nat2Z.id. split; [done|]. split; [done|].
    intros j l' Hj Hlt. apply (Hfirst j l' Hj). lia.
Qed.

(** ** Serialisation *)

(** X10. [Canvas.from_dict] gives back the canvas that [to_dict] was
    called on, with the same metadata dictionaries and without touching the
    world, when the canvas has a layer.  A canvas without layers comes back
    with one new layer "Layer 1", whose id is a new uuid and whose metadata
    is a new empty dictionary, and with that layer active. *)
Theorem canvas_from_dict_to_dict (c : Canvas.t loc) (w : World) :
  (Canvas.layers c <> [] -> Canvas.from_dict (Canvas.to_dict c) w = (Some c, w))
  /\ (Canvas.layers c = [] ->
      exists c' w',
        Canvas.from_dict (Canvas.to_dict c) w = (Some c', w')
        /\ Canvas.layers c'
           = [Layer.mk "Layer 1" (uuids w (drawn w)) true false f_one NORMAL
                None (next_loc w)]
        /\ Canvas.active_layer_id c' = Some (uuids w (drawn w))
        /\ Canvas.metadata c' = Canvas.metadata c
        /\ Canvas.canvas_id c' = Canvas.canvas_id c
        /\ heap w' = <[next_loc w := ∅]> (heap w)
        /\ drawn w' = S (drawn w)
        /\ ticks w' = ticks w).
Proof.
  unfold Canvas.from_dict, Canvas.to_dict. cbn.
  rewrite (mapM_round_trip _ _ _ (@layer_round_trip loc)).
  destruct c as [wd ht id nm bg dpi ls act meta]. cbn. split.
  - intros Hne. by destruct ls.
  - intros ->. eexists _, _. split; [reflexivity|]. by cbn.
Qed.

Lemma canvas_from_dict_to_dict_witness :
  Canvas.from_dict (Canvas.to_dict layered_canvas) studio_world
    = (Some layered_canvas, studio_world)
  /\ (length ∘ Canvas.layers
        <$> (Canvas.from_dict (Canvas.to_dict bare_canvas) studio_world).1)
     = Some 1%nat.
Proof.
  destruct (canvas_from_dict_to_dict layered_canvas studio_world) as [H _].
  destruct (canvas_from_dict_to_dict bare_canvas studio_world) as [_ H'].
  split; [by apply H|].
  destruct (H' eq_refl) as (c' & w' & -> & Hl & _). cbn. by rewrite Hl.
Defined.

(** X11. What [to_dict] makes of a layer or of a stroke, [from_dict] turns
    back into it: [from_dict(x.to_dict())] does not raise and returns [x],
    field by field, with the metadata dictionary of [x] itself, not a copy
    of it.  So the strokes that [get_stroke_history_at_checkpoint] reads
    from a checkpoint that [create_checkpoint] returns are the strokes of
    the history it was created from, in order. *)
Theorem layer_stroke_dict_round_trips {R} (l : Layer.t R) (s : Stroke.t R) :
  Layer.from_dict (Layer.to_dict l) = Some l
  /\ Stroke.from_dict (Stroke.to_dict s) = Some s
  /\ Layer.d_metadata (Layer.to_dict l) = Layer.metadata l
  /\ Stroke.d_metadata (Stroke.to_dict s) = Stroke.metadata s
  /\ (forall (history : list (Stroke.t R)),
        mapM Stroke.from_dict (map Stroke.to_dict history) = Some history)
  /\ (forall (cm : CheckpointManager.t) (canvas : Canvas.t loc)
             (phase : DrawingPhase) (history : list (Stroke.t loc))
             (description : string) (metadata : option Fields) (w : World),
        CheckpointManager.get_stroke_history_at_checkpoint
          (CheckpointManager.create_checkpoint cm canvas phase history
             description metadata w).1.1
        = Some history).
Proof.
  split; [apply layer_round_trip|]. split; [apply stroke_round_trip|].
  split; [reflexivity|]. split; [reflexivity|]. split.
  - intros history. apply mapM_round_trip, @stroke_round_trip.
  - intros cm canvas phase history description metadata w.
    rewrite create_checkpoint_run. cbv zeta. cbn [fst].
    apply (stroke_history_round_trip _ canvas). by split.
Qed.

(** ** The checkpoint store, for any capacity *)

(** One creation under any capacity, zero and negative ones included. *)
Lemma stored_after_any (k : Z) (stored : list CanvasCheckpoint.t)
    (cp : CanvasCheckpoint.t) :
  Z.of_nat (length stored) <= Z.max 0 k ->
  stored_after k stored cp
  = drop (length (stored ++ [cp]) - Z.to_nat k) (stored ++ [cp])
  /\ Z.of_nat (length (stored_after k stored cp)) <= Z.max 0 k.
Proof.
  intros Hlen. unfold stored_after. rewrite length_app. cbn [length].
  case_bool_decide as Hfull.
  - assert (length stored = Z.to_nat k) as Hfull' by lia.
    replace (length stored + 1 - Z.to_nat k)%nat with 1%nat by lia.
    split; [by destruct (stored ++ [cp])|].
    rewrite length_tl, length_app. cbn. lia.
  - replace (length stored + 1 - Z.to_nat k)%nat with 0%nat by lia.
    split; [reflexivity|]. rewrite length_app. cbn. lia.
Qed.

(** The position that [create_checkpoint] leaves in
    [current_checkpoint_index] is that of the newest stored checkpoint. *)
Lemma create_checkpoint_index (self : CheckpointManager.t)
    (canvas : Canvas.t loc) (phase : DrawingPhase)
    (history : list (Stroke.t loc)) (description : string)
    (metadata : option Fields) (w : World) :
  let cm := (CheckpointManager.create_checkpoint self canvas phase history
               description metadata w).1.2 in
  CheckpointManager.current_checkpoint_index cm
  = CheckpointManager.get_checkpoint_count cm - 1.
Proof.
  cbv zeta. rewrite create_checkpoint_run. cbv zeta.
  unfold CheckpointManager.get_checkpoint_count, stored_after.
  cbn [fst snd CheckpointManager.current_checkpoint_index
       CheckpointManager.checkpoints].
  case_bool_decide; [|done].
  rewrite length_tl, length_app. cbn [length]. lia.
Qed.

Lemma create_checkpoints_store (args : list CheckpointArgs)
    (self : CheckpointManager.t) (w : World) :
  let k := CheckpointManager.max_checkpoints self in
  let r := create_checkpoints args self w in
  Z.of_nat (length (CheckpointManager.checkpoints self)) <= Z.max 0 k ->
  length r.1.1 = length args
  /\ CheckpointManager.max_checkpoints r.1.2 = k
  /\ CheckpointManager.checkpoints r.1.2
     = drop (length (CheckpointManager.checkpoints self ++ r.1.1) - Z.to_nat k)
            (CheckpointManager.checkpoints self ++ r.1.1)
  /\ (CheckpointManager.current_checkpoint_index self
      = CheckpointManager.get_checkpoint_count self - 1 ->
      CheckpointManager.current_checkpoint_index r.1.2
      = CheckpointManager.get_checkpoint_count r.1.2 - 1).
Proof.
  cbv zeta. revert self w.
  induction args as [|a args IH]; intros self w Hlen.
  - cbn. rewrite app_nil_r. split; [done|]. split; [done|].
    split; [|done]. replace (_ - _)%nat with 0%nat by lia. reflexivity.
  - cbn [create_checkpoints].
    pose proof (create_checkpoint_index self (arg_canvas a) (arg_phase a)
                  (arg_stroke_history a) (arg_description a) (arg_metadata a) w)
      as Hidx. cbv zeta in Hidx. revert Hidx.
    rewrite (bind_run_eq _ _ _ _ _ (create_checkpoint_run _ _ _ _ _ _ _)).
    rewrite create_checkpoint_run.
    cbv zeta. cbn [fst snd].
    set (cp := made_checkpoint w _ _ _ _ _).
    set (self1 := CheckpointManager.mk _ _ _). intros Hidx.
    destruct (stored_after_any _ (CheckpointManager.checkpoints self) cp Hlen)
      as [Hdrop Hlen1].
    specialize (IH self1 (after_ticks 2 w) Hlen1).
    rewrite bind_run.
    destruct (create_checkpoints args self1 (after_ticks 2 w))
      as [[created self2] w2].
    cbn in IH |- *. destruct IH as (IH1 & IH2 & IH3 & IH4).
    split; [by rewrite IH1|]. split; [done|]. split; [|intros _; by apply IH4].
    rewrite IH3, Hdrop.
    replace (CheckpointManager.checkpoints self ++ cp :: created)
      with ((CheckpointManager.checkpoints self ++ [cp]) ++ created)
      by (by rewrite <- app_assoc).
    apply drop_newest.
Qed.

Lemma last_drop_lt {A} (n : nat) (l : list A) :
  (n < length l)%nat -> last (drop n l) = last l.
Proof.
  intros Hn. rewrite <- (take_drop n l) at 2. rewrite last_app.
  destruct (last (drop n l)) eqn:Hlast; [done|].
  apply last_None in Hlast. apply (f_equal length) in Hlast.
  rewrite length_drop in Hlast. cbn in Hlast. lia.
Qed.

(** X12. After any number [n] of creations on a new manager of capacity
    [k], the store holds the newest [min(n, max(0, k))] of the checkpoints
    created, oldest first; [current_checkpoint_index] is the position of
    the newest one, -1 if there is none; and [get_latest_checkpoint] is the
    checkpoint created last.  With a capacity of zero or less nothing is
    ever stored: every creation returns a checkpoint which no lookup
    finds. *)
Theorem checkpoint_store_after_creations (k : Z) (args : list CheckpointArgs)
    (w : World) :
  let r := create_checkpoints args (CheckpointManager.create k) w in
  let created := r.1.1 in
  let cm := r.1.2 in
  length created = length args
  /\ CheckpointManager.checkpoints cm = drop (length args - Z.to_nat k) created
  /\ CheckpointManager.get_checkpoint_count cm
     = Z.min (Z.of_nat (length args)) (Z.max 0 k)
  /\ CheckpointManager.current_checkpoint_index cm
     = CheckpointManager.get_checkpoint_count cm - 1
  /\ CheckpointManager.get_latest_checkpoint cm
     = (if bool_decide (1 <= k) then last created else None)
  /\ (k <= 0 -> CheckpointManager.checkpoints cm = []
                /\ forall id, CheckpointManager.get_checkpoint cm id = None).
Proof.
  cbv zeta.
  destruct (create_checkpoints_store args (CheckpointManager.create k) w)
    as (Hlen & _ & Hcps & Hidx); [cbn; lia|].
  cbn [CheckpointManager.create CheckpointManager.checkpoints
       CheckpointManager.max_checkpoints app] in Hcps.
  rewrite Hlen in Hcps.
  assert (Hcount : CheckpointManager.get_checkpoint_count
                     (create_checkpoints args (CheckpointManager.create k) w).1.2
                   = Z.min (Z.of_nat (length args)) (Z.max 0 k)).
  { unfold CheckpointManager.get_checkpoint_count.
    rewrite Hcps, length_drop, Hlen. lia. }
  split; [exact Hlen|]. split; [exact Hcps|]. split; [exact Hcount|].
  split; [by apply Hidx|]. split.
  - unfold CheckpointManager.get_latest_checkpoint. rewrite Hcps.
    case_bool_decide as Hk.
    + destruct args as [|a args].
      * cbn in Hlen. by destruct (create_checkpoints _ _ _).1.1.
      * apply last_drop_lt. rewrite Hlen. cbn [length]. lia.
    + rewrite drop_ge; [done|]. rewrite Hlen. lia.
  - intros Hk.
    assert (Hnil : CheckpointManager.checkpoints
                     (create_checkpoints args (CheckpointManager.create k) w).1.2
                   = []).
    { rewrite Hcps. apply drop_ge. rewrite Hlen. lia. }
    split; [exact Hnil|]. intros id. apply get_checkpoint_None.
    unfold stored_ids. rewrite Hnil. apply not_elem_of_nil.
Qed.

(** ** The checkpoint store of a new orchestrator *)

(** The store of a new orchestrator is that of a new manager after one
    [create_checkpoint] of the canvas in Sketch with no strokes. *)
Lemma executor_create_store (canvas : Canvas.t loc) (max_checkpoints : Z)
    (enable_logging : bool) (w : World) :
  let self := (WorkflowExecutor.create canvas max_checkpoints enable_logging w).1 in
  WorkflowExecutor.canvas self = canvas
  /\ exists w1,
       WorkflowExecutor.checkpoint_manager self
       = (CheckpointManager.create_checkpoint
            (CheckpointManager.create max_checkpoints) canvas SKETCH []
            "Initial canvas state" (Some [("type", VStr "initial")]) w1).1.2.
Proof.
  cbv zeta. unfold WorkflowExecutor.create.
  rewrite (bind_run_eq _ _ _ _ _ (workflow_state_create_run w)).
  unfold WorkflowExecutor._initialize_workflow.
  cbn [WorkflowExecutor.set_workflow_state WorkflowExecutor.decision_logger
       WorkflowExecutor.workflow_state WorkflowExecutor.canvas
       WorkflowExecutor.checkpoint_manager WorkflowExecutor.stroke_history
       WorkflowState.set_current_phase].
  rewrite bind_run.
  match goal with
  | |- context [(match ?b with Some lg => _ | None => _ end) ?w0] =>
      destruct ((match b with
                 | Some lg => Some <$> DecisionLogger.start_phase lg SKETCH None
                 | None => mret None
                 end : M _) w0) as [lg' w1]
  end.
  unfold WorkflowExecutor.create_checkpoint.
  cbn [WorkflowExecutor.set_decision_logger WorkflowExecutor.canvas
       WorkflowExecutor.workflow_state WorkflowExecutor.checkpoint_manager
       WorkflowExecutor.stroke_history WorkflowState.current_phase].
  rewrite bind_run.
  rewrite (bind_run_eq _ _ _ _ _ (create_checkpoint_run _ _ _ _ _ _ _)).
  cbv zeta. cbv [mret M_ret].
  cbn [fst snd WorkflowExecutor.set_checkpoint_manager WorkflowExecutor.canvas
       WorkflowExecutor.checkpoint_manager].
  split; [done|]. exists w1. by rewrite create_checkpoint_run.
Qed.

(** With nothing stored, a rollback returns false and changes nothing. *)
Lemma rollback_on_empty_store (self : WorkflowExecutor.t) (id : string)
    (w : World) :
  CheckpointManager.checkpoints (WorkflowExecutor.checkpoint_manager self) = [] ->
  WorkflowExecutor.rollback_to_checkpoint self id w = (Returned false, self, w).
Proof.
  intros Hnil. unfold WorkflowExecutor.rollback_to_checkpoint,
    CheckpointManager.rollback_to_checkpoint, CheckpointManager.find_checkpoint.
  rewrite Hnil. cbn. by destruct self.
Qed.

(** X13. A new orchestrator with a capacity of at least one holds one
    checkpoint: of the canvas as given, in Sketch, with no strokes, described
    as "Initial canvas state".  With a capacity of zero or less it holds
    none, and keeps none: [create_checkpoint] returns an id, and
    [rollback_to_checkpoint] with that id returns false and changes
    nothing. *)
Theorem new_executor_checkpoint_store (canvas : Canvas.t loc)
    (max_checkpoints : Z) (enable_logging : bool) (w : World) :
  let start := WorkflowExecutor.create canvas max_checkpoints enable_logging w in
  let cm := WorkflowExecutor.checkpoint_manager start.1 in
  WorkflowExecutor.canvas start.1 = canvas
  /\ (1 <= max_checkpoints ->
      exists cp,
        CheckpointManager.checkpoints cm = [cp]
        /\ CanvasCheckpoint.phase cp = SKETCH
        /\ created_from cp canvas []
        /\ CanvasCheckpoint.description cp = "Initial canvas state"
        /\ CanvasCheckpoint.metadata cp = [("type", VStr "initial")]
        /\ CheckpointManager.current_checkpoint_index cm = 0)
  /\ (max_checkpoints <= 0 ->
      CheckpointManager.checkpoints cm = []
      /\ forall description metadata,
           let r := WorkflowExecutor.create_checkpoint start.1 description
                      metadata start.2 in
           WorkflowExecutor.rollback_to_checkpoint r.1.2 r.1.1 r.2
           = (Returned false, r.1.2, r.2)).
Proof.
  cbv zeta.
  destruct (executor_create_store canvas max_checkpoints enable_logging w)
    as [Hcanvas [w1 Hcm]].
  rewrite create_checkpoint_run in Hcm. cbv zeta in Hcm. cbn [fst snd] in Hcm.
  split; [exact Hcanvas|]. rewrite Hcm.
  cbn [CheckpointManager.checkpoints CheckpointManager.create
       CheckpointManager.max_checkpoints
       CheckpointManager.current_checkpoint_index app length].
  unfold stored_after. cbn [app length]. split.
  - intros Hk. rewrite !bool_decide_eq_false_2 by lia.
    eexists. split; [reflexivity|]. by cbn.
  - intros Hk. rewrite !bool_decide_eq_true_2 by lia.
    split; [reflexivity|]. intros description metadata.
    apply rollback_on_empty_store.
    unfold WorkflowExecutor.create_checkpoint.
    rewrite (bind_run_eq _ _ _ _ _ (create_checkpoint_run _ _ _ _ _ _ _)).
    cbv zeta. cbv [mret M_ret].
    cbn [fst snd WorkflowExecutor.set_checkpoint_manager
         WorkflowExecutor.checkpoint_manager CheckpointManager.checkpoints].
    rewrite Hcm.
    cbn [CheckpointManager.checkpoints CheckpointManager.max_checkpoints
         CheckpointManager.create].
    assert (Hs : forall cp, stored_after max_checkpoints [] cp = []).
    { intros cp. unfold stored_after. cbn [app length tail].
      by rewrite bool_decide_eq_true_2 by lia. }
    by rewrite !Hs.
Qed.

Lemma new_executor_checkpoint_store_witness :
  let start := WorkflowExecutor.create sample_canvas 0 true studio_world in
  let r := WorkflowExecutor.create_checkpoint start.1 "kept?" None start.2 in
  r.1.1 = "checkpoint_1005"
  /\ WorkflowExecutor.rollback_to_checkpoint r.1.2 r.1.1 r.2
     = (Returned false, r.1.2, r.2).
Proof.
  cbv zeta. split; [vm_compute; reflexivity|].
  destruct (new_executor_checkpoint_store sample_canvas 0 true studio_world)
    as (_ & _ & H).
  destruct H as [_ H]; [lia|]. apply H.
Defined.

(** ** Rolling back to a phase *)

Lemma find_checkpoint_Some (cm : CheckpointManager.t) (id : string) (i : nat)
    (cp : CanvasCheckpoint.t) :
  CheckpointManager.find_checkpoint cm id = Some (i, cp) ->
  CheckpointManager.checkpoints cm !! i = Some cp
  /\ CanvasCheckpoint.checkpoint_id cp = id
  /\ forall j cp', CheckpointManager.checkpoints cm !! j = Some cp' ->
       (j < i)%nat -> CanvasCheckpoint.checkpoint_id cp' <> id.
Proof.
  unfold CheckpointManager.find_checkpoint. intros H.
  by apply list_find_Some in H.
Qed.

(** X14. [CheckpointManager.rollback_to_phase] returns None, and changes
    nothing, exactly when no stored checkpoint was taken in the phase.
    Otherwise it returns the first stored checkpoint that has the id of the
    newest checkpoint of the phase and moves [current_checkpoint_index] to
    it, the store staying as it is; with pairwise distinct ids this is the
    newest checkpoint of the phase itself. *)
Theorem rollback_to_phase_newest (cm : CheckpointManager.t)
    (phase : DrawingPhase) :
  let r := CheckpointManager.rollback_to_phase cm phase in
  (r.1 = None <-> CheckpointManager.get_checkpoints_by_phase cm phase = [])
  /\ (r.1 = None -> r.2 = cm)
  /\ CheckpointManager.checkpoints r.2 = CheckpointManager.checkpoints cm
  /\ forall newest,
       last (CheckpointManager.get_checkpoints_by_phase cm phase) = Some newest ->
       exists i cp,
         r = (Some cp,
              CheckpointManager.mk (CheckpointManager.checkpoints cm)
                (CheckpointManager.max_checkpoints cm) (Z.of_nat i))
         /\ CheckpointManager.checkpoints cm !! i = Some cp
         /\ CanvasCheckpoint.checkpoint_id cp
            = CanvasCheckpoint.checkpoint_id newest
         /\ (forall j cp',
               CheckpointManager.checkpoints cm !! j = Some cp' ->
               (j < i)%nat ->
               CanvasCheckpoint.checkpoint_id cp'
               <> CanvasCheckpoint.checkpoint_id newest)
         /\ (NoDup (stored_ids cm) ->
             cp = newest
             /\ CanvasCheckpoint.phase cp = phase
             /\ forall j cp', CheckpointManager.checkpoints cm !! j = Some cp' ->
                  CanvasCheckpoint.phase cp' = phase -> (j <= i)%nat).
Proof.
  cbv zeta. unfold CheckpointManager.rollback_to_phase.
  destruct (last (CheckpointManager.get_checkpoints_by_phase cm phase))
    as [newest|] eqn:Hlast.
  - assert (Hin : newest ∈ CheckpointManager.checkpoints cm
                  /\ CanvasCheckpoint.phase newest = phase).
    { apply last_Some in Hlast as [l' Hl'].
      assert (H : newest ∈ CheckpointManager.get_checkpoints_by_phase cm phase)
        by (rewrite Hl'; apply elem_of_app; right; apply list_elem_of_singleton;
            reflexivity).
      unfold CheckpointManager.get_checkpoints_by_phase in H.
      apply list_elem_of_filter in H. tauto. }
    destruct Hin as [Hin Hphase].
    unfold CheckpointManager.rollback_to_checkpoint.
    destruct (CheckpointManager.find_checkpoint cm
                (CanvasCheckpoint.checkpoint_id newest)) as [[i cp]|] eqn:Hfind.
    + destruct (find_checkpoint_Some _ _ _ _ Hfind) as (Hi & Hid & Hfirst).
      cbn [fst snd CheckpointManager.checkpoints].
      split; [split; [discriminate|]|].
      { intros Hnil. by rewrite Hnil in Hlast. }
      split; [discriminate|]. split; [reflexivity|].
      intros newest' [= <-]. exists i, cp.
      split; [reflexivity|]. split; [exact Hi|]. split; [exact Hid|].
      split; [exact Hfirst|]. intros Hnd.
      pose proof (get_checkpoint_unique cm newest Hnd Hin) as Hget.
      unfold CheckpointManager.get_checkpoint in Hget. rewrite Hfind in Hget.
      cbn in Hget. injection Hget as ->.
      split; [reflexivity|]. split; [exact Hphase|].
      intros j cp' Hj Hp'.
      apply last_filter_Some in Hlast as (l1 & l2 & Hsplit & Hafter).
      destruct (le_lt_dec j i) as [Hle|Hgt]; [exact Hle|exfalso].
      assert (Hi1 : i = length l1).
      { pose proof (f_equal (fun l => l !! length l1) Hsplit) as Hat.
        cbn in Hat. rewrite list_lookup_middle in Hat by done.
        unfold stored_ids in Hnd.
        apply (NoDup_lookup _ i (length l1)
                 (CanvasCheckpoint.checkpoint_id newest)) in Hnd; [done|..].
        - by rewrite list_lookup_fmap, Hi.
        - by rewrite list_lookup_fmap, Hat. }
      rewrite Hsplit in Hj.
      rewrite lookup_app_r in Hj by lia.
      replace (j - length l1)%nat with (S (j - length l1 - 1)) in Hj by lia.
      cbn in Hj. rewrite Forall_forall in Hafter.
      apply (Hafter cp'); [|exact Hp'].
      by eapply list_elem_of_lookup_2.
    + exfalso.
      assert (Hnone : CheckpointManager.get_checkpoint cm
                        (CanvasCheckpoint.checkpoint_id newest) = None)
        by (unfold CheckpointManager.get_checkpoint; by rewrite Hfind).
      apply get_checkpoint_None in Hnone. apply Hnone.
      unfold stored_ids. apply list_elem_of_In, in_map.
      by apply list_elem_of_In.
  - apply last_None in Hlast. cbn [fst snd].
    split; [by split|]. split; [done|]. split; [done|].
    intros newest Hn. discriminate Hn.
Qed.

Lemma rollback_to_phase_newest_witness :
  let cm := (create_checkpoints
               [sample_args SKETCH; sample_args REFINEMENT; sample_args SKETCH;
                sample_args RENDERING]
               (CheckpointManager.create 10) studio_world).1.2 in
  CheckpointManager.current_checkpoint_index
    (CheckpointManager.rollback_to_phase cm SKETCH).2 = 2
  /\ (CheckpointManager.rollback_to_phase cm STYLIZATION).1 = None.
Proof.
  cbv zeta. split; [vm_compute; reflexivity|].
  apply (rollback_to_phase_newest _ STYLIZATION). vm_compute. reflexivity.
Defined.

(** ** Transitions of the orchestrator and the checkpoint store *)

(** An accepted transition with its checkpoint: what is stored. *)
Lemma executor_transition_store (self : WorkflowExecutor.t)
    (new_phase : DrawingPhase) (reason : string) (metrics : option Metrics)
    (flag : bool) (w : World) :
  PhaseTransitionValidator.is_valid_transition
    (WorkflowState.current_phase (WorkflowExecutor.workflow_state self))
    new_phase = true ->
  exists w1,
    WorkflowExecutor.checkpoint_manager
      (WorkflowExecutor.transition_to_phase self new_phase reason metrics flag
         w).1.2
    = if flag
      then (CheckpointManager.create_checkpoint
              (WorkflowExecutor.checkpoint_manager self)
              (WorkflowExecutor.canvas self) new_phase
              (WorkflowExecutor.stroke_history self)
              ("Phase transition to " +:+ phase_value new_phase)
              (Some [("type", VStr "phase_transition");
                     ("reason", VStr reason);
                     ("metrics", metrics_val (default [] metrics))]) w1).1.2
      else WorkflowExecutor.checkpoint_manager self.
Proof.
  intros Hv. unfold WorkflowExecutor.transition_to_phase.
  rewrite (bind_run_eq _ _ _ _ _ (transition_accepted _ _ _ _ _ _ Hv)).
  cbn [fst snd negb WorkflowExecutor.set_workflow_state
       WorkflowExecutor.decision_logger WorkflowExecutor.canvas
       WorkflowExecutor.checkpoint_manager WorkflowExecutor.stroke_history].
  set (w1 := mkWorld _ _ _ _ _ _).
  rewrite bind_run.
  match goal with
  | |- context [(match ?b with Some lg => _ | None => _ end) w1] =>
      destruct ((match b with
                 | Some lg =>
                     lg ← DecisionLogger.close_phase lg reason;
                     Some <$> DecisionLogger.start_phase lg new_phase None
                 | None => mret None
                 end : M _) w1) as [lg' w2]
  end.
  cbn [WorkflowExecutor.set_decision_logger WorkflowExecutor.canvas
       WorkflowExecutor.workflow_state WorkflowExecutor.checkpoint_manager
       WorkflowExecutor.stroke_history].
  destruct flag.
  - unfold WorkflowExecutor.create_checkpoint.
    cbn [WorkflowExecutor.canvas WorkflowExecutor.workflow_state
         WorkflowExecutor.checkpoint_manager WorkflowExecutor.stroke_history
         WorkflowState.current_phase].
    rewrite bind_run, bind_run.
    rewrite (bind_run_eq _ _ _ _ _ (create_checkpoint_run _ _ _ _ _ _ _)).
    cbv zeta. cbv [mret M_ret]. cbn [fst snd].
    exists w2. rewrite create_checkpoint_run. reflexivity.
  - exists w2. reflexivity.
Qed.

Lemma stored_after_snoc (k : Z) (stored : list CanvasCheckpoint.t)
    (cp : CanvasCheckpoint.t) :
  1 <= k -> exists kept, stored_after k stored cp = kept ++ [cp].
Proof.
  intros Hk. unfold stored_after. case_bool_decide as Hfull.
  - destruct stored as [|c0 rest]; [cbn in Hfull; lia|]. by exists rest.
  - by exists stored.
Qed.

(** X15. A transition that the table rejects leaves the orchestrator and
    the world as they are: no log, no checkpoint, no reading of the clock.
    An accepted one leaves canvas and stroke history alone; without the
    checkpoint flag it leaves the store alone too, and with it (capacity at
    least one) the newest stored checkpoint, and the newest of the new
    phase, is one of the canvas and the strokes in the new phase. *)
Theorem executor_transition_checkpoint (self : WorkflowExecutor.t)
    (new_phase : DrawingPhase) (reason : string) (metrics : option Metrics)
    (flag : bool) (w : World) :
  let valid :=
    PhaseTransitionValidator.is_valid_transition
      (WorkflowExecutor.get_current_phase self) new_phase in
  let r := WorkflowExecutor.transition_to_phase self new_phase reason metrics
             flag w in
  let cm' := WorkflowExecutor.checkpoint_manager r.1.2 in
  r.1.1 = valid
  /\ (valid = false -> r = (false, self, w))
  /\ (valid = true ->
      WorkflowExecutor.get_current_phase r.1.2 = new_phase
      /\ WorkflowExecutor.canvas r.1.2 = WorkflowExecutor.canvas self
      /\ WorkflowExecutor.stroke_history r.1.2
         = WorkflowExecutor.stroke_history self
      /\ heap r.2 = heap w
      /\ (flag = false -> cm' = WorkflowExecutor.checkpoint_manager self)
      /\ (flag = true ->
          1 <= CheckpointManager.max_checkpoints
                 (WorkflowExecutor.checkpoint_manager self) ->
          exists cp,
            CheckpointManager.get_latest_checkpoint cm' = Some cp
            /\ last (CheckpointManager.get_checkpoints_by_phase cm' new_phase)
               = Some cp
            /\ CanvasCheckpoint.phase cp = new_phase
            /\ created_from cp (WorkflowExecutor.canvas self)
                 (WorkflowExecutor.stroke_history self)
            /\ CanvasCheckpoint.description cp
               = "Phase transition to " +:+ phase_value new_phase)).
Proof.
  cbv zeta. unfold WorkflowExecutor.get_current_phase.
  destruct (executor_transition_run self new_phase reason metrics flag w)
    as (lg & cm & w' & Hrun & Hheap & _).
  destruct (PhaseTransitionValidator.is_valid_transition
              (WorkflowState.current_phase (WorkflowExecutor.workflow_state self))
              new_phase) eqn:Hv.
  - destruct (executor_transition_store self new_phase reason metrics flag w Hv)
      as [w1 Hcm].
    rewrite Hrun in Hcm |- *.
    rewrite (transition_accepted _ _ _ _ _ _ Hv) in Hcm |- *.
    cbn [fst snd WorkflowExecutor.checkpoint_manager] in Hcm.
    cbn [fst snd WorkflowExecutor.workflow_state WorkflowState.current_phase
         WorkflowExecutor.canvas WorkflowExecutor.stroke_history
         WorkflowExecutor.checkpoint_manager].
    split; [done|]. split; [done|]. intros _.
    split; [done|]. split; [done|]. split; [done|]. split; [done|].
    split; [by intros ->|]. intros -> Hk.
    rewrite create_checkpoint_run in Hcm. cbv zeta in Hcm. cbn [fst snd] in Hcm.
    rewrite Hcm.
    unfold CheckpointManager.get_latest_checkpoint,
      CheckpointManager.get_checkpoints_by_phase.
    cbn [CheckpointManager.checkpoints].
    match goal with
    | |- context [stored_after ?k ?s ?c] =>
        destruct (stored_after_snoc k s c Hk) as [kept ->]; exists c
    end.
    rewrite filter_app, filter_cons_True, filter_nil by done.
    by rewrite !last_snoc.
  - unfold WorkflowExecutor.transition_to_phase.
    rewrite (bind_run_eq _ _ _ _ _ (transition_rejected _ _ _ _ _ _ Hv)).
    cbn. split; [done|]. split; [|done]. intros _. by destruct self.
Qed.

Lemma executor_transition_checkpoint_witness :
  let start := WorkflowExecutor.create sample_canvas 10 true studio_world in
  WorkflowExecutor.transition_to_phase start.1 RENDERING "jump" None true start.2
    = (false, start.1, start.2)
  /\ WorkflowExecutor.get_current_phase
       (WorkflowExecutor.transition_to_phase start.1 REFINEMENT "next" None true
          start.2).1.2 = REFINEMENT.
Proof.
  cbv zeta. split.
  - by apply executor_transition_checkpoint.
  - by apply executor_transition_checkpoint.
Defined.

(** ** Recommendations and the transition table *)

(** X16. A phase that [evaluate_and_decide_transition] recommends is never
    the current phase and is always one step away from it in the fixed
    order: the next phase or the previous one.  The table allows it, so
    [transition_to_phase] to the recommended phase, called next, returns
    true. *)
Theorem recommendation_is_accepted (self : WorkflowExecutor.t)
    (metrics : Metrics) (quality_threshold : float) (w : World)
    (p : DrawingPhase) :
  let r := WorkflowExecutor.evaluate_and_decide_transition self metrics
             quality_threshold w in
  r.1.1 = Some p ->
  p <> WorkflowExecutor.get_current_phase self
  /\ (next_in_order (WorkflowExecutor.get_current_phase self) = Some p
      \/ previous_in_order (WorkflowExecutor.get_current_phase self) = Some p)
  /\ PhaseTransitionValidator.is_valid_transition
       (WorkflowExecutor.get_current_phase self) p = true
  /\ forall reason transition_metrics flag,
       (WorkflowExecutor.transition_to_phase r.1.2 p reason transition_metrics
          flag r.2).1.1 = true.
Proof.
  cbv zeta.
  destruct (evaluate_logged self metrics quality_threshold w)
    as (lg & w' & Hrun & _). rewrite Hrun. cbn [fst snd]. intros Hp.
  assert (H : p <> WorkflowExecutor.get_current_phase self
              /\ (next_in_order (WorkflowExecutor.get_current_phase self) = Some p
                  \/ previous_in_order (WorkflowExecutor.get_current_phase self)
                     = Some p)
              /\ PhaseTransitionValidator.is_valid_transition
                   (WorkflowExecutor.get_current_phase self) p = true).
  { unfold recommendation in Hp. destruct metrics as [|kv metrics]; [done|].
    destruct (f_ge _ _).
    - destruct (WorkflowExecutor.get_current_phase self); cbn in Hp;
        try discriminate Hp; injection Hp as <-;
        (split; [discriminate|]); (split; [by left|reflexivity]).
    - destruct (f_lt _ _ && _); [|done].
      destruct (WorkflowExecutor.get_current_phase self); cbn in Hp;
        try discriminate Hp; injection Hp as <-;
        (split; [discriminate|]); (split; [by right|reflexivity]). }
  destruct H as (Hne & Hstep & Hv).
  split; [exact Hne|]. split; [exact Hstep|]. split; [exact Hv|].
  intros reason tm flag.
  destruct (executor_transition_run
              (WorkflowExecutor.set_decision_logger self lg) p reason tm flag w')
    as (lg' & cm' & w'' & Hrun' & _).
  rewrite Hrun'. cbn [fst snd WorkflowExecutor.set_decision_logger
                      WorkflowExecutor.workflow_state].
  by rewrite (transition_accepted _ _ _ _ _ _ Hv).
Qed.

Lemma recommendation_is_accepted_witness :
  let r := WorkflowExecutor.evaluate_and_decide_transition
             (executor_at STYLIZATION 3) [("quality", f_0_2)] f_0_7
             sample_world in
  r.1.1 = Some REFINEMENT
  /\ (WorkflowExecutor.transition_to_phase r.1.2 REFINEMENT "weak" None false
        r.2).1.1 = true.
Proof.
  cbv zeta.
  assert (H : (WorkflowExecutor.evaluate_and_decide_transition
                 (executor_at STYLIZATION 3) [("quality", f_0_2)] f_0_7
                 sample_world).1.1 = Some REFINEMENT)
    by (vm_compute; reflexivity).
  split; [exact H|].
  by apply (recommendation_is_accepted (executor_at STYLIZATION 3)
              [("quality", f_0_2)] f_0_7 sample_world REFINEMENT H).
Defined.

(** ** The transition history of a run *)

(** A rollback, whatever it returns, keeps the transition history, the
    iteration counter, the per-phase stroke counter and the logger. *)
Lemma rollback_keeps_counters (self : WorkflowExecutor.t) (id : string)
    (w : World) :
  let ws := WorkflowExecutor.workflow_state self in
  let self' := (WorkflowExecutor.rollback_to_checkpoint self id w).1.2 in
  let ws' := WorkflowExecutor.workflow_state self' in
  WorkflowState.phase_history ws' = WorkflowState.phase_history ws
  /\ WorkflowState.iteration_in_phase ws' = WorkflowState.iteration_in_phase ws
  /\ WorkflowState.phase_stroke_count ws' = WorkflowState.phase_stroke_count ws
  /\ WorkflowExecutor.decision_logger self' = WorkflowExecutor.decision_logger self.
Proof.
  cbv zeta. pose proof (rollback_to_checkpoint_run self id w) as H.
  destruct (CheckpointManager.get_checkpoint _ id) as [cp|].
  - destruct H as (cm & _ & _ & H).
    destruct (Canvas.from_dict _ w) as [[c|] w1]; cbn in H.
    + destruct (CheckpointManager.get_stroke_history_at_checkpoint cp);
        by rewrite H.
    + by rewrite H.
  - by rewrite H.
Qed.

Lemma rollback_to_phase_keeps_counters (self : WorkflowExecutor.t)
    (phase : DrawingPhase) (w : World) :
  let ws := WorkflowExecutor.workflow_state self in
  let self' := (WorkflowExecutor.rollback_to_phase self phase w).1.2 in
  let ws' := WorkflowExecutor.workflow_state self' in
  WorkflowState.phase_history ws' = WorkflowState.phase_history ws
  /\ WorkflowState.iteration_in_phase ws' = WorkflowState.iteration_in_phase ws
  /\ WorkflowState.phase_stroke_count ws' = WorkflowState.phase_stroke_count ws
  /\ WorkflowExecutor.decision_logger self' = WorkflowExecutor.decision_logger self.
Proof.
  cbv zeta. unfold WorkflowExecutor.rollback_to_phase.
  destruct (CheckpointManager.rollback_to_phase _ phase) as [[cp|] cm]; [|done].
  exact (rollback_keeps_counters
           (WorkflowExecutor.set_checkpoint_manager self cm)
           (CanvasCheckpoint.checkpoint_id cp) w).
Qed.

(** What one call does to the transition history and the iteration
    counter. *)
Lemma step_history (op : Op) (self : WorkflowExecutor.t) (w : World) :
  let r := step op self w in
  let ws := WorkflowExecutor.workflow_state self in
  let ws' := WorkflowExecutor.workflow_state r.1.2 in
  (r.1.1 = Transitioned true
   /\ exists record,
        WorkflowState.phase_history ws' = WorkflowState.phase_history ws ++ [record]
        /\ PhaseTransition.from_phase record = WorkflowState.current_phase ws
        /\ PhaseTransition.to_phase record = WorkflowState.current_phase ws'
        /\ record_valid record = true
        /\ WorkflowState.iteration_in_phase ws'
           = if decide (PhaseTransition.to_phase record
                        = PhaseTransition.from_phase record)
             then WorkflowState.iteration_in_phase ws + 1 else 0)
  \/ (r.1.1 <> Transitioned true
      /\ WorkflowState.phase_history ws' = WorkflowState.phase_history ws
      /\ WorkflowState.iteration_in_phase ws'
         = WorkflowState.iteration_in_phase ws).
Proof.
  cbv zeta. destruct op as [s i p t a pre post|np re m f|d m|id|ph|m q];
    cbn [step].
  - destruct (execute_stroke_run self s i p t a pre post w)
      as (lg & w' & Hrun & _).
    rewrite bind_run, Hrun. right. by cbn.
  - destruct (executor_transition_run self np re m f w)
      as (lg & cm & w' & Hrun & _).
    rewrite bind_run, Hrun. cbv [mret M_ret].
    cbn [fst snd WorkflowExecutor.workflow_state].
    destruct (PhaseTransitionValidator.is_valid_transition
                (WorkflowState.current_phase
                   (WorkflowExecutor.workflow_state self)) np) eqn:Hv.
    + rewrite (transition_accepted _ _ _ _ _ _ Hv). left.
      split; [reflexivity|]. eexists. split; [reflexivity|].
      by cbn.
    + rewrite (transition_rejected _ _ _ _ _ _ Hv). right. by cbn.
  - destruct (executor_create_checkpoint_run self d m w) as [cm Hrun].
    rewrite bind_run, Hrun. right. by cbn.
  - rewrite bind_run.
    pose proof (rollback_keeps_counters self id w) as H. cbv zeta in H.
    destruct (WorkflowExecutor.rollback_to_checkpoint self id w)
      as [[o self'] w']. right. cbn in *. by destruct H as (? & ? & _).
  - rewrite bind_run.
    pose proof (rollback_to_phase_keeps_counters self ph w) as H. cbv zeta in H.
    destruct (WorkflowExecutor.rollback_to_phase self ph w) as [[o self'] w'].
    right. cbn in *. by destruct H as (? & ? & _).
  - destruct (evaluate_logged self m q w) as (lg & w' & Hrun & _).
    rewrite bind_run, Hrun. right. by cbn.
Qed.

Lemma history_linked_snoc (a : DrawingPhase) (history : list PhaseTransition.t)
    (record : PhaseTransition.t) :
  history_linked a (history ++ [record])
  = history_linked a history
    && bool_decide (PhaseTransition.from_phase record
                    = match last history with
                      | Some r => PhaseTransition.to_phase r
                      | None => a
                      end).
Proof.
  revert a. induction history as [|r rest IH]; intros a.
  - cbn. by rewrite andb_true_r.
  - cbn [app history_linked]. rewrite IH, andb_assoc.
    destruct rest as [|r' rest]; [reflexivity|].
    change (last (r :: r' :: rest)) with (last (r' :: rest)).
    destruct (last (r' :: rest)) eqn:E; [reflexivity|].
    by apply last_None in E.
Qed.

Lemma trailing_self_loops_snoc (history : list PhaseTransition.t)
    (record : PhaseTransition.t) :
  trailing_self_loops (history ++ [record])
  = if decide (PhaseTransition.to_phase record
               = PhaseTransition.from_phase record)
    then S (trailing_self_loops history) else 0%nat.
Proof. unfold trailing_self_loops. by rewrite reverse_snoc. Qed.

Lemma accepted_transitions_cons (ev : Event) (events : list Event) :
  accepted_transitions (ev :: events)
  = ((if is_accepted ev then 1 else 0) + accepted_transitions events)%nat.
Proof.
  unfold accepted_transitions. rewrite filter_cons.
  destruct (is_accepted ev); by destruct (decide _).
Qed.

(** The history over a sequence of calls, from any state. *)
Lemma run_history (ops : list Op) (self : WorkflowExecutor.t) (w : World) :
  let r := run ops self w in
  let ws := WorkflowExecutor.workflow_state self in
  let ws' := WorkflowExecutor.workflow_state r.1.2 in
  (Forall (fun record => record_valid record = true)
          (WorkflowState.phase_history ws) ->
   Forall (fun record => record_valid record = true)
          (WorkflowState.phase_history ws'))
  /\ length (WorkflowState.phase_history ws')
     = (length (WorkflowState.phase_history ws) + accepted_transitions r.1.1)%nat
  /\ (WorkflowState.iteration_in_phase ws
      = Z.of_nat (trailing_self_loops (WorkflowState.phase_history ws)) ->
      WorkflowState.iteration_in_phase ws'
      = Z.of_nat (trailing_self_loops (WorkflowState.phase_history ws')))
  /\ (no_rollback_succeeded r.1.1 ->
      phase_matches_history ws ->
      history_linked SKETCH (WorkflowState.phase_history ws) = true ->
      history_linked SKETCH (WorkflowState.phase_history ws') = true).
Proof.
  cbv zeta. revert self w. induction ops as [|op ops IH]; intros self w.
  - cbn. split; [done|]. split; [lia|]. by split.
  - cbn [run]. rewrite bind_run.
    pose proof (step_history op self w) as Hstep.
    pose proof (step_keeps_phase op self w) as Hphase.
    cbv zeta in Hstep.
    destruct (step op self w) as [[res self1] w1]. cbn [fst snd] in Hstep, Hphase.
    specialize (IH self1 w1). rewrite bind_run.
    destruct (run ops self1 w1) as [[events self2] w2].
    cbv [mret M_ret]. cbn [fst snd] in *.
    destruct IH as (IHv & IHl & IHi & IHc).
    rewrite accepted_transitions_cons. unfold is_accepted at 1. cbn [ev_result].
    destruct Hstep as [[-> (record & Hh & Hfrom & Hto & Hvalid & Hit)]
                      |(Hres & Hh & Hit)].
    + split; [|split; [|split]].
      * intros Hv. apply IHv. rewrite Hh. apply Forall_app. split; [done|].
        by constructor.
      * rewrite IHl, Hh, length_app. cbn. lia.
      * intros Hi. apply IHi. rewrite Hh, trailing_self_loops_snoc, Hit.
        destruct (decide _); lia.
      * intros Hno Hm Hl. apply Forall_cons in Hno as [_ Hno].
        apply IHc; [exact Hno|by apply Hphase|].
        rewrite Hh, history_linked_snoc, Hl. cbn [andb].
        apply bool_decide_eq_true_2. by rewrite Hfrom.
    + assert (Hz : (if match res with
                       | Transitioned true => true
                       | _ => false
                       end then 1 else 0)%nat = 0%nat).
      { destruct res as [| [|] | | |]; try done. }
      rewrite Hz. rewrite Hh in IHv, IHl, IHi, IHc. rewrite Hit in IHi.
      split; [exact IHv|]. split; [by rewrite IHl|]. split; [exact IHi|].
      intros Hno Hm Hl. apply Forall_cons in Hno as [Hr Hno]. cbn in Hr.
      apply IHc; [exact Hno|by apply Hphase|exact Hl].
Qed.

Lemma linked_valid_chain (a : DrawingPhase) (history : list PhaseTransition.t) :
  Forall (fun record => record_valid record = true) history ->
  history_linked a history = true ->
  chain_valid a (map PhaseTransition.to_phase history) = true.
Proof.
  revert a. induction history as [|r rest IH]; intros a Hv Hl; [done|].
  apply Forall_cons in Hv as [Hr Hv]. cbn in Hl |- *.
  apply andb_prop in Hl as [Ha Hl]. apply bool_decide_eq_true_1 in Ha.
  unfold record_valid in Hr. rewrite Ha in Hr. rewrite Hr. cbn.
  by apply IH.
Qed.

(** X17. On a new orchestrator, after any calls, rollbacks included, the
    transition history has one record per transition that returned true,
    each a step that the table allows.  If no rollback returned true, each
    record starts where the one before it ended, the first one in Sketch:
    the history is a chain of allowed steps from Sketch to the current
    phase. *)
Theorem history_is_chain (canvas : Canvas.t loc) (max_checkpoints : Z)
    (enable_logging : bool) (w : World) (ops : list Op) :
  let start := WorkflowExecutor.create canvas max_checkpoints enable_logging w in
  let r := run ops start.1 start.2 in
  let history :=
    WorkflowState.phase_history (WorkflowExecutor.workflow_state r.1.2) in
  length history = accepted_transitions r.1.1
  /\ Forall (fun record => record_valid record = true) history
  /\ (no_rollback_succeeded r.1.1 ->
      history_linked SKETCH history = true
      /\ chain_valid SKETCH (map PhaseTransition.to_phase history) = true
      /\ last (SKETCH :: map PhaseTransition.to_phase history)
         = Some (WorkflowExecutor.get_current_phase r.1.2)).
Proof.
  cbv zeta.
  destruct (create_workflow_state canvas max_checkpoints enable_logging w)
    as (Hws & _).
  destruct (run_history ops
              (WorkflowExecutor.create canvas max_checkpoints enable_logging w).1
              (WorkflowExecutor.create canvas max_checkpoints enable_logging w).2)
    as (Hv & Hl & _ & Hc).
  rewrite Hws in Hv, Hl, Hc. cbn in Hv, Hl, Hc.
  split; [exact Hl|]. split; [by apply Hv|]. intros Hno.
  assert (Hlinked := Hc Hno eq_refl eq_refl).
  split; [exact Hlinked|]. split; [apply linked_valid_chain; auto|].
  pose proof (run_keeps_phase ops _ _ Hno) as Hm. rewrite Hws in Hm.
  specialize (Hm eq_refl). unfold phase_matches_history in Hm.
  unfold WorkflowExecutor.get_current_phase. rewrite Hm.
  destruct (WorkflowState.phase_history _) as [|r0 rest] using rev_ind;
    [done|].
  rewrite map_app, last_snoc. cbn [map].
  by rewrite app_comm_cons, last_snoc.
Qed.

Lemma history_is_chain_witness :
  let r := run busy_ops
             (WorkflowExecutor.create sample_canvas 10 true studio_world).1
             (WorkflowExecutor.create sample_canvas 10 true studio_world).2 in
  map PhaseTransition.to_phase
    (WorkflowState.phase_history (WorkflowExecutor.workflow_state r.1.2))
    = [REFINEMENT]
  /\ history_linked SKETCH
       (WorkflowState.phase_history (WorkflowExecutor.workflow_state r.1.2))
     = true.
Proof.
  cbv zeta. split; [vm_compute; reflexivity|].
  destruct (history_is_chain sample_canvas 10 true studio_world busy_ops)
    as (_ & _ & H).
  apply H. unfold no_rollback_succeeded. vm_compute.
  repeat (constructor; [discriminate|]). constructor.
Defined.

(** X18. On a new orchestrator, after any calls, rollbacks included,
    [iteration_in_phase] is the number of records at the end of the history
    that stay in their phase: the accepted transitions of a phase to itself
    since the last accepted transition between two phases. *)
Theorem iteration_counts_self_loops (canvas : Canvas.t loc)
    (max_checkpoints : Z) (enable_logging : bool) (w : World) (ops : list Op) :
  let start := WorkflowExecutor.create canvas max_checkpoints enable_logging w in
  let ws := WorkflowExecutor.workflow_state (run ops start.1 start.2).1.2 in
  WorkflowState.iteration_in_phase ws
  = Z.of_nat (trailing_self_loops (WorkflowState.phase_history ws))
  /\ 0 <= WorkflowState.iteration_in_phase ws
        <= Z.of_nat (length (WorkflowState.phase_history ws)).
Proof.
  cbv zeta.
  destruct (create_workflow_state canvas max_checkpoints enable_logging w)
    as (Hws & _).
  destruct (run_history ops
              (WorkflowExecutor.create canvas max_checkpoints enable_logging w).1
              (WorkflowExecutor.create canvas max_checkpoints enable_logging w).2)
    as (_ & _ & Hi & _).
  rewrite Hws in Hi. specialize (Hi eq_refl). split; [exact Hi|].
  rewrite Hi. unfold trailing_self_loops.
  rewrite <- (length_reverse (WorkflowState.phase_history _)).
  generalize (reverse (WorkflowState.phase_history
    (WorkflowExecutor.workflow_state
       (run ops
          (WorkflowExecutor.create canvas max_checkpoints enable_logging w).1
          (WorkflowExecutor.create canvas max_checkpoints enable_logging w).2).1.2))).
  intros l. induction l as [|r rest IH]; cbn; [lia|].
  destruct (decide _); lia.
Qed.

(** ** The decision logger *)

Lemma list_find_last_filter {A} (P : A -> Prop) `{!forall x, Decision (P x)}
    (l : list A) :
  snd <$> list_find P (reverse l) = last (filter P l).
Proof.
  induction l as [|x l IH] using rev_ind; [done|].
  rewrite reverse_snoc, filter_app, filter_cons, filter_nil. cbn [list_find].
  destruct (decide (P x)) as [Hx|Hx].
  - cbn. by rewrite last_snoc.
  - rewrite app_nil_r, <- IH.
    by destruct (list_find P (reverse l)) as [[i y]|].
Qed.

Lemma total_stroke_count_foldl (logs : list PhaseDecisionLog.t)
    (acc : list StrokeDecision.t) :
  Z.of_nat (length (foldl (fun all_strokes log =>
                             all_strokes ++ PhaseDecisionLog.strokes log)
                          acc logs))
  = Z.of_nat (length acc)
    + foldr (fun log n => PhaseDecisionLog.get_stroke_count log + n) 0 logs.
Proof.
  revert acc. induction logs as [|log logs IH]; intros acc.
  - cbn. lia.
  - cbn [foldl foldr]. rewrite IH, length_app.
    unfold PhaseDecisionLog.get_stroke_count. lia.
Qed.

(** X19. [get_phase_log] returns the last of the logs that
    [get_all_phase_logs] returns for the phase, and None exactly when there
    is none.  [get_all_strokes] has as many entries as
    [get_total_stroke_count] says, and holds the decisions of the logs in
    the order of the logs. *)
Theorem logger_queries_agree (lg : DecisionLogger.t) (phase : DrawingPhase) :
  DecisionLogger.get_phase_log lg phase
    = last (DecisionLogger.get_all_phase_logs lg phase)
  /\ (DecisionLogger.get_phase_log lg phase = None <->
      DecisionLogger.get_all_phase_logs lg phase = [])
  /\ (forall log, DecisionLogger.get_phase_log lg phase = Some log ->
        PhaseDecisionLog.phase log = phase
        /\ log ∈ DecisionLogger.phase_logs lg)
  /\ Z.of_nat (length (DecisionLogger.get_all_strokes lg))
     = DecisionLogger.get_total_stroke_count lg
  /\ DecisionLogger.get_all_strokes lg
     = concat (map PhaseDecisionLog.strokes (DecisionLogger.phase_logs lg)).
Proof.
  unfold DecisionLogger.get_phase_log, DecisionLogger.get_all_phase_logs.
  rewrite list_find_last_filter.
  split; [reflexivity|]. split; [apply last_None|]. split.
  - intros log Hlog. apply last_Some in Hlog as [l' Hl'].
    assert (H : log ∈ filter (fun l => PhaseDecisionLog.phase l = phase)
                        (DecisionLogger.phase_logs lg)).
    { rewrite Hl'. apply elem_of_app. right. by apply list_elem_of_singleton. }
    apply list_elem_of_filter in H. tauto.
  - unfold DecisionLogger.get_all_strokes, DecisionLogger.get_total_stroke_count.
    split; [by rewrite total_stroke_count_foldl|].
    enough (H : forall logs acc,
              foldl (fun all_strokes log =>
                       all_strokes ++ PhaseDecisionLog.strokes log) acc logs
              = acc ++ concat (map PhaseDecisionLog.strokes logs))
      by apply (H _ []).
    intros logs. induction logs as [|log logs IH]; intros acc.
    + cbn. by rewrite app_nil_r.
    + cbn [foldl map concat]. by rewrite IH, app_assoc.
Qed.

(** ** The logger of a running workflow *)

Lemma current_shape (lg : DecisionLogger.t) (closed : list PhaseDecisionLog.t)
    (log : PhaseDecisionLog.t) :
  logger_shape lg closed log -> DecisionLogger.current lg = Some log.
Proof.
  intros [Hlogs Hcur]. unfold DecisionLogger.current.
  rewrite Hcur, Hlogs. cbn. by apply list_lookup_middle.
Qed.

Lemma update_shape (lg : DecisionLogger.t) (closed : list PhaseDecisionLog.t)
    (log log' : PhaseDecisionLog.t) :
  logger_shape lg closed log ->
  logger_shape (DecisionLogger.update_current lg log') closed log'.
Proof.
  intros [Hlogs Hcur]. unfold DecisionLogger.update_current, logger_shape.
  rewrite Hcur, Hlogs. cbn. split; [|done].
  rewrite insert_app_r_alt by lia. by rewrite Nat.sub_diag.
Qed.

(** [start_phase] on a new logger. *)
Lemma start_phase_first (phase : DrawingPhase) (w : World) :
  exists log,
    logger_shape (DecisionLogger.start_phase DecisionLogger.create phase None w).1
      [] log
    /\ PhaseDecisionLog.phase log = phase
    /\ PhaseDecisionLog.end_time log = None
    /\ PhaseDecisionLog.strokes log = [].
Proof.
  unfold DecisionLogger.start_phase. run_monad.
  eexists. split; [split; reflexivity|]. by cbn.
Qed.

(** [log_stroke] with a current log appends one decision to it. *)
Lemma log_stroke_shape (lg : DecisionLogger.t)
    (closed : list PhaseDecisionLog.t) (log : PhaseDecisionLog.t)
    (stroke_id : string) (intent : StrokeIntent) (phase : DrawingPhase)
    (purpose : string) (task_id action_id : option string)
    (pre post : option Metrics) (stroke_data : option (Stroke.dict loc))
    (metadata : option Fields) (w : World) :
  logger_shape lg closed log ->
  exists decision,
    logger_shape
      (DecisionLogger.log_stroke lg stroke_id intent phase purpose task_id
         action_id pre post stroke_data metadata w).1
      closed (PhaseDecisionLog.add_stroke_decision log decision)
    /\ StrokeDecision.stroke_id decision = stroke_id
    /\ StrokeDecision.phase decision = phase.
Proof.
  intros Hshape. pose proof (current_shape _ _ _ Hshape) as Hcur.
  unfold DecisionLogger.log_stroke. destruct Hshape as [Hlogs Hi].
  rewrite Hi. run_monad. rewrite Hcur.
  eexists. split; [apply (update_shape lg closed log); by split|]. by cbn.
Qed.

(** [log_evaluation] with a current log adds to its evaluations only. *)
Lemma log_evaluation_shape (lg : DecisionLogger.t)
    (closed : list PhaseDecisionLog.t) (log : PhaseDecisionLog.t)
    (evaluation : Metrics) (w : World) :
  logger_shape lg closed log ->
  exists log',
    logger_shape (DecisionLogger.log_evaluation lg evaluation w).1 closed log'
    /\ PhaseDecisionLog.phase log' = PhaseDecisionLog.phase log
    /\ PhaseDecisionLog.end_time log' = PhaseDecisionLog.end_time log
    /\ PhaseDecisionLog.strokes log' = PhaseDecisionLog.strokes log.
Proof.
  intros Hshape. pose proof (current_shape _ _ _ Hshape) as Hcur.
  unfold DecisionLogger.log_evaluation. rewrite Hcur.
  unfold PhaseDecisionLog.add_evaluation. run_monad.
  eexists. split; [by apply (update_shape lg closed log)|]. by cbn.
Qed.

(** [close_phase] and then [start_phase], as a transition does: the current
    log is closed and a new, empty one follows it. *)
Lemma close_start_shape (lg : DecisionLogger.t)
    (closed : list PhaseDecisionLog.t) (log : PhaseDecisionLog.t)
    (reason : string) (phase : DrawingPhase) (w : World) :
  logger_shape lg closed log ->
  exists log_closed log_new,
    logger_shape
      ((lg ← DecisionLogger.close_phase lg reason;
        DecisionLogger.start_phase lg phase None) w).1
      (closed ++ [log_closed]) log_new
    /\ PhaseDecisionLog.end_time log_closed <> None
    /\ PhaseDecisionLog.phase log_closed = PhaseDecisionLog.phase log
    /\ PhaseDecisionLog.strokes log_closed = PhaseDecisionLog.strokes log
    /\ PhaseDecisionLog.transition_reason log_closed = reason
    /\ PhaseDecisionLog.phase log_new = phase
    /\ PhaseDecisionLog.end_time log_new = None
    /\ PhaseDecisionLog.strokes log_new = [].
Proof.
  intros Hshape. pose proof (current_shape _ _ _ Hshape) as Hcur.
  unfold DecisionLogger.close_phase. rewrite Hcur.
  unfold PhaseDecisionLog.close_phase. rewrite bind_run.
  cbv [mbind M_bind now mret M_ret]. cbn [fst snd].
  match goal with
  | |- context [DecisionLogger.update_current lg ?l] =>
      pose proof (update_shape lg closed log l Hshape) as Hshape1;
        set (log1 := l) in *
  end.
  pose proof (current_shape _ _ _ Hshape1) as Hcur1.
  unfold DecisionLogger.start_phase. rewrite Hcur1.
  cbn [PhaseDecisionLog.end_time log1].
  cbv [mbind M_bind now mret M_ret]. cbn [fst snd].
  destruct Hshape1 as [Hlogs1 Hi1]. rewrite Hlogs1.
  exists log1. eexists. split; [split; [reflexivity|]|].
  - cbn. by rewrite length_app.
  - by cbn.
Qed.

(** What the calls of the orchestrator hand to the logger. *)
Lemma create_logger (canvas : Canvas.t loc) (max_checkpoints : Z) (w : World) :
  exists w1,
    WorkflowExecutor.decision_logger
      (WorkflowExecutor.create canvas max_checkpoints true w).1
    = Some (DecisionLogger.start_phase DecisionLogger.create SKETCH None w1).1.
Proof.
  unfold WorkflowExecutor.create.
  rewrite (bind_run_eq _ _ _ _ _ (workflow_state_create_run w)).
  unfold WorkflowExecutor._initialize_workflow.
  cbn [WorkflowExecutor.set_workflow_state WorkflowExecutor.decision_logger
       WorkflowExecutor.workflow_state WorkflowExecutor.canvas
       WorkflowExecutor.checkpoint_manager WorkflowExecutor.stroke_history
       WorkflowState.set_current_phase].
  rewrite bind_run, fmap_run.
  exists (after_ticks 2 w).
  destruct (DecisionLogger.start_phase DecisionLogger.create SKETCH None
              (after_ticks 2 w)) as [lg w2].
  cbn [fst snd].
  match goal with
  | |- context [WorkflowExecutor.create_checkpoint ?s ?d ?m] =>
      destruct (executor_create_checkpoint_run s d m w2) as [cm Hcp]
  end.
  rewrite bind_run, Hcp. reflexivity.
Qed.

Lemma execute_stroke_logger (self : WorkflowExecutor.t) (lg : DecisionLogger.t)
    (stroke : Stroke.t loc) (intent : option StrokeIntent) (purpose : string)
    (task_id action_id : option string) (pre post : option Metrics)
    (w : World) :
  WorkflowExecutor.decision_logger self = Some lg ->
  exists stroke_id chosen data w1,
    WorkflowExecutor.decision_logger
      (WorkflowExecutor.execute_stroke self stroke intent purpose task_id
         action_id pre post w).1.2
    = Some (DecisionLogger.log_stroke lg stroke_id chosen
              (WorkflowState.current_phase (WorkflowExecutor.workflow_state self))
              purpose task_id action_id pre post data None w1).1.
Proof.
  intros Hlg. unfold WorkflowExecutor.execute_stroke. run_monad. rewrite Hlg.
  match goal with
  | |- context [DecisionLogger.log_stroke lg ?a ?b ?c ?d ?e ?f ?g ?h ?i ?j ?w0] =>
      exists a, b, i, w0;
        destruct (DecisionLogger.log_stroke lg a b c d e f g h i j w0)
          as [lg' w']
  end.
  reflexivity.
Qed.

Lemma transition_logger (self : WorkflowExecutor.t) (lg : DecisionLogger.t)
    (new_phase : DrawingPhase) (reason : string) (metrics : option Metrics)
    (flag : bool) (w : World) :
  PhaseTransitionValidator.is_valid_transition
    (WorkflowState.current_phase (WorkflowExecutor.workflow_state self))
    new_phase = true ->
  WorkflowExecutor.decision_logger self = Some lg ->
  exists w1,
    WorkflowExecutor.decision_logger
      (WorkflowExecutor.transition_to_phase self new_phase reason metrics flag
         w).1.2
    = Some ((lg ← DecisionLogger.close_phase lg reason;
             DecisionLogger.start_phase lg new_phase None) w1).1.
Proof.
  intros Hv Hlg. unfold WorkflowExecutor.transition_to_phase.
  rewrite (bind_run_eq _ _ _ _ _ (transition_accepted _ _ _ _ _ _ Hv)).
  cbn [fst snd negb WorkflowExecutor.set_workflow_state
       WorkflowExecutor.decision_logger WorkflowExecutor.canvas
       WorkflowExecutor.checkpoint_manager WorkflowExecutor.stroke_history].
  set (w1 := mkWorld _ _ _ _ _ _). exists w1.
  rewrite Hlg, bind_run.
  assert (Hlog : ((lg0 ← DecisionLogger.close_phase lg reason;
                   Some <$> DecisionLogger.start_phase lg0 new_phase None) : M _)
                   w1
                 = (Some ((lg0 ← DecisionLogger.close_phase lg reason;
                           DecisionLogger.start_phase lg0 new_phase None) w1).1,
                    ((lg0 ← DecisionLogger.close_phase lg reason;
                      DecisionLogger.start_phase lg0 new_phase None) w1).2)).
  { rewrite !bind_run.
    destruct (DecisionLogger.close_phase lg reason w1) as [lg1 w2].
    rewrite fmap_run.
    by destruct (DecisionLogger.start_phase lg1 new_phase None w2). }
  rewrite Hlog.
  cbn [WorkflowExecutor.set_decision_logger WorkflowExecutor.canvas
       WorkflowExecutor.workflow_state WorkflowExecutor.checkpoint_manager
       WorkflowExecutor.stroke_history].
  destruct flag.
  - rewrite bind_run, bind_run.
    match goal with
    | |- context [WorkflowExecutor.create_checkpoint ?s ?d ?m ?w0] =>
        destruct (executor_create_checkpoint_run s d m w0) as [cm Hcp]
    end.
    rewrite Hcp. reflexivity.
  - reflexivity.
Qed.

Lemma executor_transition_rejected (self : WorkflowExecutor.t)
    (new_phase : DrawingPhase) (reason : string) (metrics : option Metrics)
    (flag : bool) (w : World) :
  PhaseTransitionValidator.is_valid_transition
    (WorkflowState.current_phase (WorkflowExecutor.workflow_state self))
    new_phase = false ->
  WorkflowExecutor.transition_to_phase self new_phase reason metrics flag w
  = (false, self, w).
Proof.
  intros Hv. unfold WorkflowExecutor.transition_to_phase.
  rewrite (bind_run_eq _ _ _ _ _ (transition_rejected _ _ _ _ _ _ Hv)).
  cbn. by destruct self.
Qed.

Lemma evaluate_logger (self : WorkflowExecutor.t) (lg : DecisionLogger.t)
    (metrics : Metrics) (quality_threshold : float) (w : World) :
  WorkflowExecutor.decision_logger self = Some lg ->
  WorkflowExecutor.decision_logger
    (WorkflowExecutor.evaluate_and_decide_transition self metrics
       quality_threshold w).1.2
  = Some (DecisionLogger.log_evaluation lg metrics w).1.
Proof.
  intros Hlg. unfold WorkflowExecutor.evaluate_and_decide_transition.
  rewrite Hlg, bind_run, fmap_run.
  destruct (DecisionLogger.log_evaluation lg metrics w) as [lg' w'].
  cbn [fst snd]. destruct metrics as [|kv metrics]; [reflexivity|].
  destruct (f_ge _ _); [reflexivity|].
  destruct (f_lt _ _ && _); reflexivity.
Qed.

(** The current log was replaced by one of the same phase, and the history
    did not grow. *)
Lemma logger_in_step_update (self self' : WorkflowExecutor.t)
    (lg lg' : DecisionLogger.t) (closed : list PhaseDecisionLog.t)
    (log log' : PhaseDecisionLog.t) :
  logger_shape lg closed log ->
  Forall (fun l => PhaseDecisionLog.end_time l <> None) closed ->
  map PhaseDecisionLog.phase (DecisionLogger.phase_logs lg)
  = SKETCH :: map PhaseTransition.to_phase
                (WorkflowState.phase_history
                   (WorkflowExecutor.workflow_state self)) ->
  WorkflowExecutor.decision_logger self' = Some lg' ->
  logger_shape lg' closed log' ->
  PhaseDecisionLog.phase log' = PhaseDecisionLog.phase log ->
  PhaseDecisionLog.end_time log' = None ->
  WorkflowState.phase_history (WorkflowExecutor.workflow_state self')
  = WorkflowState.phase_history (WorkflowExecutor.workflow_state self) ->
  PhaseDecisionLog.get_stroke_count log'
  = WorkflowState.phase_stroke_count (WorkflowExecutor.workflow_state self') ->
  logger_in_step self'.
Proof.
  intros [Hlogs _] Hclosed Hphases Hlg' Hshape' Hphase Hopen Hhist Hcount.
  unfold logger_in_step. rewrite Hlg'. exists closed, log'.
  split; [exact Hshape'|]. split; [exact Hopen|]. split; [exact Hclosed|].
  split; [|exact Hcount].
  destruct Hshape' as [Hlogs' _]. rewrite Hlogs', Hhist, <- Hphases, Hlogs.
  rewrite !map_app. cbn [map]. by rewrite Hphase.
Qed.

(** Every call keeps the logger in step with the workflow state, and
    logging on or off. *)
Lemma step_logger_in_step (op : Op) (self : WorkflowExecutor.t) (w : World) :
  logger_in_step self ->
  logger_in_step (step op self w).1.2
  /\ (WorkflowExecutor.decision_logger (step op self w).1.2 = None <->
      WorkflowExecutor.decision_logger self = None).
Proof.
  unfold logger_in_step at 1.
  destruct (WorkflowExecutor.decision_logger self) as [lg|] eqn:Hlg.
  - intros (closed & log & Hshape & Hopen & Hclosed & Hphases & Hcount).
    enough (H : logger_in_step (step op self w).1.2
                /\ WorkflowExecutor.decision_logger (step op self w).1.2 <> None)
      by (destruct H as [H1 H2]; split; [exact H1|by split]).
    destruct op as [s i p t a pre post|np re m f|d m|id|ph|m q]; cbn [step].
    + destruct (execute_stroke_run self s i p t a pre post w)
        as (lg' & w' & Hrun & _).
      destruct (execute_stroke_logger self lg s i p t a pre post w Hlg)
        as (sid & chosen & data & w1 & Hl).
      rewrite Hrun in Hl. cbn [fst snd WorkflowExecutor.decision_logger] in Hl.
      rewrite bind_run, Hrun. cbv [mret M_ret]. cbn [fst snd].
      destruct (log_stroke_shape lg closed log sid chosen
                  (WorkflowState.current_phase
                     (WorkflowExecutor.workflow_state self))
                  p t a pre post data None w1 Hshape)
        as (decision & Hshape' & _).
      split; [|by rewrite Hl].
      eapply (logger_in_step_update self _ lg _ closed log); eauto.
      cbn. unfold PhaseDecisionLog.get_stroke_count in *. cbn.
      rewrite length_app. cbn [length]. lia.
    + destruct (PhaseTransitionValidator.is_valid_transition
                  (WorkflowState.current_phase
                     (WorkflowExecutor.workflow_state self)) np) eqn:Hv.
      * destruct (executor_transition_run self np re m f w)
          as (lg' & cm & w' & Hrun & _).
        destruct (transition_logger self lg np re m f w Hv Hlg) as (w1 & Hl).
        rewrite Hrun in Hl. cbn [fst snd WorkflowExecutor.decision_logger] in Hl.
        rewrite bind_run, Hrun. cbv [mret M_ret]. cbn [fst snd].
        rewrite (transition_accepted _ _ _ _ _ _ Hv). cbn [fst snd].
        destruct (close_start_shape lg closed log re np w1 Hshape)
          as (log_closed & log_new & Hshape' & Hc & Hp & _ & _ & Hpn & Hon & Hsn).
        split; [|by rewrite Hl].
        unfold logger_in_step. cbn [WorkflowExecutor.decision_logger].
        rewrite Hl. exists (closed ++ [log_closed]), log_new.
        split; [exact Hshape'|]. split; [exact Hon|].
        split; [apply Forall_app; split; [exact Hclosed|by constructor]|].
        cbn [WorkflowExecutor.workflow_state WorkflowState.phase_history
             WorkflowState.phase_stroke_count].
        split.
        -- destruct Hshape' as [-> _]. destruct Hshape as [Hlogs _].
           rewrite Hlogs in Hphases. rewrite !map_app in *. cbn [map] in *.
           rewrite Hp, Hphases, Hpn. reflexivity.
        -- unfold PhaseDecisionLog.get_stroke_count. by rewrite Hsn.
      * rewrite bind_run, (executor_transition_rejected _ _ _ _ _ _ Hv).
        cbv [mret M_ret]. cbn [fst snd]. split; [|by rewrite Hlg].
        unfold logger_in_step. rewrite Hlg. by exists closed, log.
    + destruct (executor_create_checkpoint_run self d m w) as [cm Hrun].
      rewrite bind_run, Hrun. cbv [mret M_ret]. cbn [fst snd].
      split; [|cbn; by rewrite Hlg].
      unfold logger_in_step. cbn. rewrite Hlg. by exists closed, log.
    + rewrite bind_run.
      pose proof (rollback_keeps_counters self id w) as H. cbv zeta in H.
      destruct (WorkflowExecutor.rollback_to_checkpoint self id w)
        as [[o self'] w']. cbv [mret M_ret]. cbn [fst snd] in *.
      destruct H as (Hh & _ & Hc & Hl). rewrite Hlg in Hl.
      split; [|by rewrite Hl].
      eapply (logger_in_step_update self self' lg lg closed log log);
        eauto; try congruence.
    + rewrite bind_run.
      pose proof (rollback_to_phase_keeps_counters self ph w) as H.
      cbv zeta in H.
      destruct (WorkflowExecutor.rollback_to_phase self ph w)
        as [[o self'] w']. cbv [mret M_ret]. cbn [fst snd] in *.
      destruct H as (Hh & _ & Hc & Hl). rewrite Hlg in Hl.
      split; [|by rewrite Hl].
      eapply (logger_in_step_update self self' lg lg closed log log);
        eauto; try congruence.
    + destruct (evaluate_logged self m q w) as (lg' & w' & Hrun & _).
      pose proof (evaluate_logger self lg m q w Hlg) as Hl.
      rewrite Hrun in Hl. cbn [fst snd] in Hl.
      rewrite bind_run, Hrun. cbv [mret M_ret]. cbn [fst snd].
      destruct (log_evaluation_shape lg closed log m w Hshape)
        as (log' & Hshape' & Hp & He & Hs).
      split; [|by rewrite Hl].
      eapply (logger_in_step_update self _ lg _ closed log log');
        eauto; try congruence.
      unfold PhaseDecisionLog.get_stroke_count in *. by rewrite Hs.
  - intros _.
    enough (H : WorkflowExecutor.decision_logger (step op self w).1.2 = None).
    { split; [|by split]. unfold logger_in_step. by rewrite H. }
    destruct op as [s i p t a pre post|np re m f|d m|id|ph|m q]; cbn [step].
    + destruct (execute_stroke_run self s i p t a pre post w)
        as (lg' & w' & Hrun & Hlogged & _).
      rewrite bind_run, Hrun. cbn. rewrite Hlg in Hlogged.
      by destruct lg'.
    + destruct (executor_transition_run self np re m f w)
        as (lg' & cm & w' & Hrun & _ & Hlogged).
      rewrite bind_run, Hrun. cbn. rewrite Hlg in Hlogged.
      by destruct lg'.
    + destruct (executor_create_checkpoint_run self d m w) as [cm Hrun].
      by rewrite bind_run, Hrun.
    + rewrite bind_run.
      pose proof (rollback_keeps_counters self id w) as H. cbv zeta in H.
      destruct (WorkflowExecutor.rollback_to_checkpoint self id w)
        as [[o self'] w']. cbv [mret M_ret]. cbn [fst snd] in *.
      destruct H as (_ & _ & _ & Hl). by rewrite Hl.
    + rewrite bind_run.
      pose proof (rollback_to_phase_keeps_counters self ph w) as H.
      cbv zeta in H.
      destruct (WorkflowExecutor.rollback_to_phase self ph w)
        as [[o self'] w']. cbv [mret M_ret]. cbn [fst snd] in *.
      destruct H as (_ & _ & _ & Hl). by rewrite Hl.
    + destruct (evaluate_logged self m q w) as (lg' & w' & Hrun & _ & Hlogged).
      rewrite bind_run, Hrun. cbn. rewrite Hlg in Hlogged.
      by destruct lg'.
Qed.

Lemma run_logger_in_step (ops : list Op) (self : WorkflowExecutor.t)
    (w : World) :
  logger_in_step self ->
  logger_in_step (run ops self w).1.2
  /\ (WorkflowExecutor.decision_logger (run ops self w).1.2 = None <->
      WorkflowExecutor.decision_logger self = None).
Proof.
  revert self w. induction ops as [|op ops IH]; intros self w Hinv.
  - by cbn.
  - cbn [run]. rewrite bind_run.
    destruct (step_logger_in_step op self w Hinv) as [Hinv1 Hon1].
    destruct (step op self w) as [[res self1] w1]. cbn [fst snd] in *.
    rewrite bind_run. destruct (IH self1 w1 Hinv1) as [Hinv2 Hon2].
    destruct (run ops self1 w1) as [[events self2] w2]. cbn [fst snd] in *.
    split; [exact Hinv2|]. by rewrite Hon2.
Qed.

(** X20. With logging on, after any calls on a new orchestrator, rollbacks
    included, the logger holds one closed log for each accepted transition
    and after them one open log, which is the current one; the phases of
    the logs are Sketch and then the target of each accepted transition, in
    order; and the open log holds as many strokes as [phase_stroke_count]
    says.  If no rollback returned true, the open log is the log of the
    current phase, and [get_phase_log] of the current phase returns it. *)
Theorem logger_follows_workflow (canvas : Canvas.t loc) (max_checkpoints : Z)
    (w : World) (ops : list Op) :
  let start := WorkflowExecutor.create canvas max_checkpoints true w in
  let r := run ops start.1 start.2 in
  let ws := WorkflowExecutor.workflow_state r.1.2 in
  exists lg closed log,
    WorkflowExecutor.decision_logger r.1.2 = Some lg
    /\ DecisionLogger.phase_logs lg = closed ++ [log]
    /\ DecisionLogger.current lg = Some log
    /\ PhaseDecisionLog.end_time log = None
    /\ Forall (fun l => PhaseDecisionLog.end_time l <> None) closed
    /\ map PhaseDecisionLog.phase (DecisionLogger.phase_logs lg)
       = SKETCH :: map PhaseTransition.to_phase (WorkflowState.phase_history ws)
    /\ PhaseDecisionLog.get_stroke_count log = WorkflowState.phase_stroke_count ws
    /\ (no_rollback_succeeded r.1.1 ->
        PhaseDecisionLog.phase log = WorkflowExecutor.get_current_phase r.1.2
        /\ DecisionLogger.get_phase_log lg
             (WorkflowExecutor.get_current_phase r.1.2) = Some log).
Proof.
  cbv zeta.
  destruct (create_workflow_state canvas max_checkpoints true w) as (Hws & _).
  destruct (create_logger canvas max_checkpoints w) as [w1 Hlg0].
  destruct (start_phase_first SKETCH w1) as (log0 & Hshape0 & Hp0 & Ho0 & Hs0).
  assert (Hinv0 : logger_in_step
                    (WorkflowExecutor.create canvas max_checkpoints true w).1).
  { unfold logger_in_step. rewrite Hlg0, Hws. exists [], log0.
    split; [exact Hshape0|]. split; [exact Ho0|]. split; [constructor|].
    destruct Hshape0 as [-> _]. cbn. rewrite Hp0.
    unfold PhaseDecisionLog.get_stroke_count. by rewrite Hs0. }
  destruct (run_logger_in_step ops _
              (WorkflowExecutor.create canvas max_checkpoints true w).2 Hinv0)
    as [Hinv Hon].
  unfold logger_in_step in Hinv.
  destruct (WorkflowExecutor.decision_logger (run ops _ _).1.2) as [lg|] eqn:Hlg.
  2: { destruct Hon as [Hon _]. rewrite Hlg0 in Hon. by specialize (Hon eq_refl). }
  destruct Hinv as (closed & log & Hshape & Hopen & Hclosed & Hphases & Hcount).
  exists lg, closed, log. split; [reflexivity|].
  split; [by destruct Hshape|]. split; [by eapply current_shape|].
  split; [exact Hopen|]. split; [exact Hclosed|]. split; [exact Hphases|].
  split; [exact Hcount|]. intros Hno.
  pose proof (run_keeps_phase ops _ _ Hno) as Hm. rewrite Hws in Hm.
  specialize (Hm eq_refl). unfold phase_matches_history in Hm.
  assert (Hphase : PhaseDecisionLog.phase log
                   = WorkflowExecutor.get_current_phase
                       (run ops
                          (WorkflowExecutor.create canvas max_checkpoints true w).1
                          (WorkflowExecutor.create canvas max_checkpoints true w).2).1.2).
  { unfold WorkflowExecutor.get_current_phase. rewrite Hm.
    destruct Hshape as [Hlogs _]. rewrite Hlogs, map_app in Hphases.
    cbn [map] in Hphases.
    destruct (WorkflowState.phase_history _) as [|r0 rest] using rev_ind.
    - destruct closed as [|c0 [|c1 closed]]; cbn in Hphases |- *; congruence.
    - rewrite last_snoc. rewrite map_app in Hphases. cbn [map] in Hphases.
      rewrite app_comm_cons in Hphases.
      by apply app_inj_tail in Hphases as [_ ->]. }
  split; [exact Hphase|].
  unfold DecisionLogger.get_phase_log. destruct Hshape as [-> _].
  rewrite reverse_snoc. cbn [list_find]. rewrite decide_True by exact Hphase.
  reflexivity.
Qed.

(** ** Executing a stroke object more than once *)

(** Counting by phase in a store that differs from [h] at one dictionary,
    which is stamped with the phase [cur]. *)
Lemma phase_count_restamped (h h' : gmap loc (gmap string pyval)) (l : loc)
    (cur p : DrawingPhase) (history : list (Stroke.t loc)) :
  (forall l', l' <> l -> h' !! l' = h !! l') ->
  (forall s, Stroke.metadata s = l ->
     WorkflowExecutor.workflow_meta_get h' s "phase"
     = Some (VStr (phase_value cur))) ->
  length (filter (fun s => WorkflowExecutor.is_str
                             (WorkflowExecutor.workflow_meta_get h' s "phase")
                             (phase_value p) = true) history)
  = (length (filter (fun s => WorkflowExecutor.is_str
                                (WorkflowExecutor.workflow_meta_get h s "phase")
                                (phase_value p) = true)
               (filter (fun s => Stroke.metadata s <> l) history))
     + if decide (p = cur)
       then length (filter (fun s => Stroke.metadata s = l) history)
       else 0)%nat.
Proof.
  intros Hframe Hstamp. induction history as [|s history IH].
  - cbn. by destruct (decide _).
  - rewrite (filter_cons (fun s => Stroke.metadata s <> l)),
      (filter_cons (fun s => Stroke.metadata s = l)),
      (filter_cons (fun s => WorkflowExecutor.is_str _ _ = true)).
    destruct (decide (Stroke.metadata s = l)) as [Heq|Hne].
    + rewrite (decide_False (P := Stroke.metadata s <> l)) by tauto.
      rewrite (Hstamp s Heq). cbn [WorkflowExecutor.is_str].
      rewrite phase_value_inj.
      destruct (decide (p = cur)) as [->|Hp].
      * rewrite bool_decide_eq_true_2 by done.
        rewrite decide_True by done. cbn [length]. lia.
      * rewrite bool_decide_eq_false_2 by congruence.
        rewrite decide_False by done. lia.
    + rewrite (decide_True (P := Stroke.metadata s <> l)) by done.
      rewrite filter_cons.
      assert (E : WorkflowExecutor.workflow_meta_get h' s "phase"
                  = WorkflowExecutor.workflow_meta_get h s "phase").
      { unfold WorkflowExecutor.workflow_meta_get, deref.
        by rewrite (Hframe _ Hne). }
      rewrite E.
      destruct (decide (WorkflowExecutor.is_str _ _ = true));
        cbn [length]; lia.
Qed.

(** X21. [execute_stroke] stamps the stroke's own metadata dictionary, so a
    stroke object that is executed again is counted under the phase of its
    last execution, once for each time it is in the history: after the
    call, [get_phase_stroke_count] of the current phase counts the new
    entry and every earlier entry with the same dictionary, whatever phase
    they were executed in, and for the other phases it counts none of
    them.  Entries with another dictionary are counted as before.  (The
    entries with another dictionary hold a dictionary or nothing under
    "workflow", as they do when they were stamped by [execute_stroke]:
    the count raises otherwise.) *)
Theorem execute_stroke_restamps (self : WorkflowExecutor.t)
    (stroke : Stroke.t loc) (intent : option StrokeIntent) (purpose : string)
    (task_id action_id : option string) (pre post : option Metrics)
    (w : World) (p : DrawingPhase) :
  let r := WorkflowExecutor.execute_stroke self stroke intent purpose task_id
             action_id pre post w in
  let same :=
    filter (fun s => Stroke.metadata s = Stroke.metadata stroke)
           (WorkflowExecutor.stroke_history self) in
  let others :=
    filter (fun s => Stroke.metadata s <> Stroke.metadata stroke)
           (WorkflowExecutor.stroke_history self) in
  Forall (workflow_readable (heap w)) others ->
  WorkflowExecutor.stroke_history r.1.2
    = WorkflowExecutor.stroke_history self ++ [stroke]
  /\ Forall (workflow_readable (heap r.2)) (WorkflowExecutor.stroke_history r.1.2)
  /\ WorkflowExecutor.get_phase_stroke_count (heap r.2) r.1.2 p
     = WorkflowExecutor.get_phase_stroke_count (heap w)
         (WorkflowExecutor.set_stroke_history self others) p
       + (if decide (p = WorkflowExecutor.get_current_phase self)
          then Z.of_nat (length same) + 1 else 0).
Proof.
  cbv zeta. intros Hread.
  destruct (execute_stroke_run self stroke intent purpose task_id action_id
              pre post w) as (lg & w' & Hrun & _ & Hframe & Hstamp).
  rewrite Hrun. cbn [fst snd WorkflowExecutor.stroke_history].
  split; [reflexivity|].
  assert (Hstamped : forall s, Stroke.metadata s = Stroke.metadata stroke ->
                       workflow_readable (heap w') s).
  { intros s Hs. unfold workflow_readable. rewrite Hs.
    unfold WorkflowExecutor.workflow_meta_get in Hstamp.
    by destruct (deref (heap w') (Stroke.metadata stroke) !! "workflow")
      as [[]|]. }
  split.
  { apply Forall_app. split; [|by constructor; [apply Hstamped|]].
    apply Forall_forall. intros s Hs.
    destruct (decide (Stroke.metadata s = Stroke.metadata stroke)) as [Heq|Hne];
      [by apply Hstamped|].
    rewrite Forall_forall in Hread.
    assert (Hin : s ∈ filter (fun s => Stroke.metadata s <> Stroke.metadata stroke)
                        (WorkflowExecutor.stroke_history self))
      by (by apply list_elem_of_filter).
    specialize (Hread s Hin). unfold workflow_readable, deref in *.
    by rewrite (Hframe _ Hne). }
  unfold WorkflowExecutor.get_phase_stroke_count,
    WorkflowExecutor.get_current_phase.
  cbn [WorkflowExecutor.stroke_history WorkflowExecutor.set_stroke_history].
  rewrite filter_app, length_app.
  rewrite (phase_count_restamped (heap w) (heap w') (Stroke.metadata stroke)
             (WorkflowState.current_phase (WorkflowExecutor.workflow_state self))
             p).
  - rewrite filter_cons, filter_nil, Hstamp. cbn [WorkflowExecutor.is_str].
    rewrite phase_value_inj.
    destruct (decide (p = _)) as [->|Hp].
    + rewrite bool_decide_eq_true_2 by done.
      rewrite decide_True by done. cbn [length]. lia.
    + rewrite bool_decide_eq_false_2 by congruence.
      rewrite decide_False by done. cbn [length]. lia.
  - exact Hframe.
  - intros s Hs. rewrite <- Hstamp.
    unfold WorkflowExecutor.workflow_meta_get. by rewrite Hs.
Qed.

Lemma execute_stroke_restamps_witness :
  let self := restamp_session.1.2 in
  let w := restamp_session.2 in
  let r := WorkflowExecutor.execute_stroke self (sample_stroke 3%positive) None
             "" None None None None w in
  WorkflowExecutor.get_phase_stroke_count (heap w) self SKETCH = 2
  /\ WorkflowExecutor.get_phase_stroke_count (heap r.2) r.1.2 SKETCH = 1
  /\ WorkflowExecutor.get_phase_stroke_count (heap r.2) r.1.2 REFINEMENT = 2.
Proof.
  cbv zeta.
  assert (Hread : Forall (workflow_readable (heap restamp_session.2))
                    (filter (fun s => Stroke.metadata s
                                      <> Stroke.metadata (sample_stroke 3%positive))
                            (WorkflowExecutor.stroke_history
                               restamp_session.1.2))).
  { apply Forall_forall. intros s Hs.
    apply list_elem_of_filter in Hs as [Hne Hs].
    assert (Hh : WorkflowExecutor.stroke_history restamp_session.1.2
                 = [sample_stroke 3%positive; sample_stroke 4%positive])
      by (vm_compute; reflexivity).
    rewrite Hh in Hs.
    apply elem_of_cons in Hs as [->|Hs]; [exfalso; by apply Hne|].
    apply list_elem_of_singleton in Hs as ->.
    vm_compute. exact I. }
  pose proof (execute_stroke_restamps restamp_session.1.2
                (sample_stroke 3%positive) None "" None None None None
                restamp_session.2) as H.
  cbv zeta in H.
  split; [vm_compute; reflexivity|]. split.
  - destruct (H SKETCH Hread) as (_ & _ & E).
    refine (eq_trans E _). vm_compute. reflexivity.
  - destruct (H REFINEMENT Hread) as (_ & _ & E).
    refine (eq_trans E _). vm_compute. reflexivity.
Defined.
